(** * Squidgy conversational gateway: a shallow embedding of backend/main.py

    The development follows the layout of the Python module:

    - [PyStr]        the [str] methods the matcher relies on
                     ([lower], [strip], [split], [in]);
    - [Matcher]      [AgentMatcher.check_agent_match] and
                     [AgentMatcher.find_best_agents], with the instance's
                     [_cache] dictionary and the upstream services as an oracle;
    - [Router]       the [/n8n_main_req] handler with the module-level
                     [request_cache] and the handler's response cache;
    - [Socket]       the receive loop of [websocket_endpoint];
    - [Stream]       [receive_stream_update];
    - [Orchestrator] [full_website_analysis];
    - [Spec]         the vocabulary in which the properties are stated;
    - [Fixtures]     concrete inputs for the examples;
    - [Recommender]  [AgentMatcher.get_recommended_agent] and the three
                     [/n8n/...] matcher endpoints;
    - [Logs]         the in-memory log buffer and [/logs];
    - [Background]   [/api/website/full-analysis-async] and the polling
                     endpoint [/api/website/task/{task_id}].

    Conventions.  A Python float (similarities, [time.time()] readings and
    [datetime.now()] differences in seconds) is modelled by the rational
    [Q] it denotes and compared with [Qlt]/[Qle]; float products and
    [round] are results of the interpreter ([Builtins]), not exact
    arithmetic; NaN is outside the model.  A [str] is a [string] whose
    characters are read as the code points U+0000..U+00FF.  An exception
    raised inside a [try] block is an explicit [Raise] result; state written
    before the exception is kept.  A name the module binds nowhere
    ([call_n8n_webhook], [process_n8n_request_async]) raises NameError
    where it is evaluated. *)

From Stdlib Require Import QArith Qminmax Qround Lqa ZArith Ascii String List Bool Lia.
From stdpp Require Import gmap strings list sorting.

Local Open Scope Q_scope.

(* ===================================================================== *)
(** * Part I: the program                                                 *)
(* ===================================================================== *)

(** ** Python [str] methods *)

Module PyStr.

(** [str.isspace] on a single code point below 256. *)
Definition isspace (c : ascii) : bool :=
  existsb (N.eqb (N_of_ascii c))
          [9; 10; 11; 12; 13; 28; 29; 30; 31; 32; 133; 160]%N.

(** [str.lower] on a single code point below 256: A-Z and the Latin-1
    capitals (all of U+00C0..U+00DE except the multiplication sign). *)
Definition lower_char (c : ascii) : ascii :=
  let n := N_of_ascii c in
  if ((65 <=? n) && (n <=? 90) ||
      (192 <=? n) && (n <=? 222) && negb (n =? 215))%N
  then ascii_of_N (n + 32) else c.

Definition lower (s : list ascii) : list ascii := map lower_char s.

Fixpoint lstrip (s : list ascii) : list ascii :=
  match s with
  | [] => []
  | c :: s' => if isspace c then lstrip s' else s
  end.

Definition rstrip (s : list ascii) : list ascii := rev (lstrip (rev s)).

(** [s.strip()] *)
Definition strip (s : list ascii) : list ascii := rstrip (lstrip s).

Fixpoint startswith (p s : list ascii) : bool :=
  match p, s with
  | [], _ => true
  | _ :: _, [] => false
  | a :: p', b :: s' => Ascii.eqb a b && startswith p' s'
  end.

(** [p in s] *)
Fixpoint contains (p s : list ascii) : bool :=
  startswith p s ||
  match s with
  | [] => false
  | _ :: s' => contains p s'
  end.

(** [s.split()]: the maximal runs of non-whitespace characters; [cur] is
    the run being read, most recent character first. *)
Fixpoint split_from (cur s : list ascii) : list (list ascii) :=
  match s with
  | [] => match cur with [] => [] | _ :: _ => [rev cur] end
  | c :: s' =>
      if isspace c
      then match cur with
           | [] => split_from [] s'
           | _ :: _ => rev cur :: split_from [] s'
           end
      else split_from (c :: cur) s'
  end.

Definition split (s : list ascii) : list (list ascii) := split_from [] s.

Definition chars (s : string) : list ascii := list_ascii_of_string s.

End PyStr.

(** ** Exceptions over state

    [Py S E A] is a computation over a store [S] that either returns an [A]
    or raises an [E]; the store reached at the raise is kept, as in Python. *)

Inductive res (E A : Type) : Type :=
| Ok (a : A)
| Raise (e : E).
Arguments Ok {E A} a.
Arguments Raise {E A} e.

Definition Py (S E A : Type) : Type := S -> S * res E A.

Definition ret {S E A} (a : A) : Py S E A := fun s => (s, Ok a).

Definition bind {S E A B} (m : Py S E A) (k : A -> Py S E B) : Py S E B :=
  fun s => match m s with
           | (s', Ok a) => k a s'
           | (s', Raise e) => (s', Raise e)
           end.

Definition raise {S E A} (e : E) : Py S E A := fun s => (s, Raise e).

(** [try: m] with its [except] clauses [h]; [h] re-raises what it does not
    catch. *)
Definition try_except {S E E' A} (m : Py S E A) (h : E -> Py S E' A) : Py S E' A :=
  fun s => match m s with
           | (s', Ok a) => (s', Ok a)
           | (s', Raise e) => h e s'
           end.

Definition get {S E} : Py S E S := fun s => (s, Ok s).
Definition modify {S E} (f : S -> S) : Py S E unit := fun s => (f s, Ok tt).

(** [m] leaves the component [proj] of the store as it was, whether it
    returns or raises. *)
Definition preserves {S E A B} (proj : S -> B) (m : Py S E A) : Prop :=
  forall s, proj (m s).1 = proj s.

Declare Scope py_scope.
Delimit Scope py_scope with py.
Notation "x <- m ;; k" := (bind m (fun x => k))
  (at level 100, m at next level, right associativity) : py_scope.
Notation "m ;;; k" := (bind m (fun _ => k))
  (at level 100, right associativity) : py_scope.

(** Python exceptions that the handlers distinguish. *)
Inductive exn : Type :=
| Exception (msg : string)          (* any subclass of [Exception] *)
| CancelledError                    (* a [BaseException], not an [Exception] *)
| HTTPException (status_code : Z) (detail : string).

(** Float comparisons, on rationals. *)
Definition Qleb (x y : Q) : bool := Qle_bool x y.
Definition Qltb (x y : Q) : bool := negb (Qle_bool y x).

(** ** AgentMatcher *)

(** Python built-ins on floats.  A [float] is modelled by the rational it
    denotes; comparisons are then exact, products and roundings are not,
    and are left to the interpreter. *)
Record Builtins : Type := {
  float_mul : Q -> Q -> Q;      (* [x * y]: the product, rounded to a double *)
  round : Z -> Q -> Q;          (* [round(x, ndigits)] *)
  str_float : Q -> string       (* [f"{x}"] *)
}.

Module Matcher.

(** What the methods of the class return and what [_cache] stores under
    ['result']: Python is dynamically typed, and [check_agent_match]
    returns a bare [bool] on one path and a 2-tuple on the others. *)
Inductive value : Type :=
| VBool (b : bool)
| VPair (match_result : bool) (confidence : Q)
| VAgents (agents : list (string * Q))
| VStr (s : string).

Record CacheEntry : Type := { result : value; timestamp : Q }.

Definition Embedding : Type := list Q.

(** Calls that leave the process. *)
Inductive Call : Type :=
| AgentDocuments (agent_name : string)
| QueryEmbedding (text : string)
| MatchAgentDocuments (match_threshold : Q) (match_count : Z) (filter_agent : string)
| MatchAgentsBySimilarity (match_threshold : Q) (match_count : Z).

(** The collaborators, as they answer during one call of a method.
    [None] is a raised exception.  [agent_documents] tells whether
    [agent_check.data] is non-empty; the two RPCs return the rows of
    [result.data] (for [match_agent_documents] their ['similarity']). *)
Record Upstream : Type := {
  agent_documents : string -> option bool;
  get_query_embedding : string -> option Embedding;
  match_agent_documents : Embedding -> Q -> Z -> string -> option (list Q);
  match_agents_by_similarity : Embedding -> Q -> Z -> option (list (string * Q))
}.

(** The instance state: [self._cache], and the log of remote calls. *)
Record Self : Type := { _cache : gmap string CacheEntry; calls : list Call }.

Definition _cache_ttl : Q := 300.

Definition remote {A} (c : Call) (answer : option A) : Py Self exn A :=
  fun s => ({| _cache := _cache s; calls := calls s ++ [c] |},
            match answer with
            | Some a => Ok a
            | None => Raise (Exception "upstream")
            end).

(** [self._cache[key] = {'result': v, 'timestamp': now}] *)
Definition cache_store (key : string) (v : value) (now : Q) : Py Self exn unit :=
  modify (fun s => {| _cache := <[key := {| result := v; timestamp := now |}]> (_cache s);
                      calls := calls s |}).

(** [cached = self._cache.get(key)] followed by the test
    [cached and (now - cached['timestamp']).total_seconds() < self._cache_ttl];
    [Some v] when the test passes, with [v = cached['result']]. *)
Definition cache_lookup (key : string) (now : Q) : Py Self exn (option value) :=
  fun s => (s, Ok match _cache s !! key with
                  | Some cached =>
                      if Qltb (now - timestamp cached) _cache_ttl
                      then Some (result cached) else None
                  | None => None
                  end).

Definition basic_patterns : list string :=
  ["hello"; "hi"; "hey"; "good morning"; "good afternoon"; "good evening";
   "who are you"; "what are you"; "introduce yourself"; "tell me about yourself";
   "what do you do"; "what can you help with"; "how can you help"; "what services";
   "greetings"; "salutations"; "yo"; "howdy"; "how are you"; "how do you do";
   "nice to meet you"; "pleased to meet you"; "what is this"; "explain this";
   "help"; "assistance"; "support"; "info"; "information"; "thanks"; "thank you"]%string.

(** [query_lower = user_query.lower().strip()] and
    [any(pattern in query_lower ...) or len(query_lower.split()) <= 3] *)
Definition is_basic (user_query : string) : bool :=
  let query_lower := PyStr.strip (PyStr.lower (PyStr.chars user_query)) in
  existsb (fun pattern => PyStr.contains (PyStr.chars pattern) query_lower) basic_patterns
  || (length (PyStr.split query_lower) <=? 3)%nat.

Definition agent_match_key (agent_name user_query : string) : string :=
  "agent_match_" +:+ agent_name +:+ "_" +:+ user_query.

Definition check_agent_match (up : Upstream) (now_lookup now_store : Q)
    (agent_name user_query : string) (threshold : Q) : Py Self exn value :=
  try_except
    (has_documents <- remote (AgentDocuments agent_name) (agent_documents up agent_name) ;;
     if negb has_documents then ret (VBool false)
     else
       let cache_key := agent_match_key agent_name user_query in
       cached <- cache_lookup cache_key now_lookup ;;
       match cached with
       | Some r => ret r
       | None =>
           query_embedding <- remote (QueryEmbedding user_query)
                                     (get_query_embedding up user_query) ;;
           data <- remote (MatchAgentDocuments threshold 1 agent_name)
                          (match_agent_documents up query_embedding threshold 1 agent_name) ;;
           let confidence := match data with s :: _ => s | [] => 0 end in
           let '(match_result, confidence) :=
             if is_basic user_query
             then (true, if Qltb confidence (2 # 5) then 2 # 5 else confidence)
             else (match data with
                   | s :: _ => Qleb threshold s
                   | [] => false
                   end, confidence) in
           cache_store cache_key (VPair match_result confidence) now_store ;;;
           ret (VPair match_result confidence)
       end)%py
    (fun _ => ret (VPair false 0)).

(** [is_match, confidence = await agent_matcher.check_agent_match(...)] *)
Definition unpack_pair (v : value) : res exn (bool * Q) :=
  match v with
  | VPair b c => Ok (b, c)
  | VBool _ => Raise (Exception "cannot unpack non-iterable bool object")
  | VAgents _ | VStr _ => Raise (Exception "unpack")
  end.

(** The loop of [find_best_agents] over [result.data]: [agent_scores] is a
    [dict], kept here in insertion order. *)
Fixpoint update_score (agent_scores : list (string * Q))
    (agent_name : string) (similarity : Q) : list (string * Q) :=
  match agent_scores with
  | [] => [(agent_name, similarity)]
  | (a, s) :: rest =>
      if String.eqb a agent_name
      then (a, if Qltb s similarity then similarity else s) :: rest
      else (a, s) :: update_score rest agent_name similarity
  end.

Definition score_agents (py : Builtins) (data : list (string * Q)) : list (string * Q) :=
  fold_left (fun agent_scores item =>
               update_score agent_scores (fst item) (float_mul py (snd item) 100))
            data [].

(** [sorted(items, key=lambda x: x[1], reverse=True)]: stable, descending. *)
Fixpoint insert_desc (x : string * Q) (l : list (string * Q)) : list (string * Q) :=
  match l with
  | [] => [x]
  | y :: l' => if Qltb (snd x) (snd y) then y :: insert_desc x l' else x :: l
  end.

Definition sorted_desc (l : list (string * Q)) : list (string * Q) :=
  fold_right insert_desc [] l.

(** [l[:n]], for either sign of [n]. *)
Definition slice_to {A} (l : list A) (n : Z) : list A :=
  if (0 <=? n)%Z then take (Z.to_nat n) l
  else take (length l - Z.to_nat (- n)) l.

Definition best_agents_key (user_query : string) : string :=
  "best_agents_" +:+ user_query.

Definition default_agents : list (string * Q) := [("presaleskb"%string, 50)].

Definition find_best_agents (py : Builtins) (up : Upstream) (now_lookup now_store : Q)
    (user_query : string) (top_n : Z) : Py Self exn value :=
  try_except
    (let cache_key := best_agents_key user_query in
     cached <- cache_lookup cache_key now_lookup ;;
     match cached with
     | Some r => ret r
     | None =>
         query_embedding <- remote (QueryEmbedding user_query)
                                   (get_query_embedding up user_query) ;;
         data <- remote (MatchAgentsBySimilarity (3 # 10) (top_n * 5))
                        (match_agents_by_similarity up query_embedding (3 # 10) (top_n * 5)) ;;
         match data with
         | [] => ret (VAgents default_agents)
         | _ :: _ =>
             let sorted_agents := sorted_desc (score_agents py data) in
             cache_store cache_key (VAgents (slice_to sorted_agents top_n)) now_store ;;;
             ret (VAgents (slice_to sorted_agents top_n))
         end
     end)%py
    (fun _ => ret (VAgents default_agents)).

End Matcher.

(** [a or b] on optional strings: [a] when it is a non-empty string. *)
Definition py_or (a : option string) (b : option string) : option string :=
  match a with
  | Some s => if String.eqb s "" then b else a
  | None => b
  end.

(** [not s or s.strip() == ""] *)
Definition is_blank (s : string) : bool :=
  match PyStr.strip (PyStr.chars s) with
  | [] => true
  | _ :: _ => false
  end.

(** ** Conversational router: [ConversationalHandler] and [/n8n_main_req] *)

Module Router.

Record N8nMainRequest : Type := {
  user_id : string;
  user_mssg : string;
  req_session_id : string;
  req_agent_name : string;
  timestamp_of_call_made : option string;
  request_id : option string
}.

(** The JSON object the workflow engine answers with; every key is optional. *)
Record N8nReply : Type := {
  r_user_id : option string;
  r_agent_name : option string;
  r_agent_response : option string;
  r_agent_responses : option string;
  r_responses : option (list string);
  r_timestamp : option string;
  r_status : option string;
  r_conversation_state : option string;
  r_missing_info : option (list string)
}.

(** What [process_message] returns (and [handle_message] caches). *)
Inductive HandlerReply : Type :=
| HandlerFormatted (status agent_name agent_response conversation_state : string)
                   (missing_info : list string) (timestamp : string)
| HandlerError (status message : string).

(** [formatted_response] of the endpoint. *)
Record Formatted : Type := {
  f_user_id : string;
  f_agent_name : string;
  f_agent_response : string;
  f_responses : list string;
  f_timestamp : string;
  f_status : string;
  f_request_id : string;
  f_conversation_state : string;
  f_missing_info : list string;
  f_images : list string
}.

Inductive CachedResponse : Type :=
| CachedHandler (r : HandlerReply)
| CachedFormatted (r : Formatted).

(** The dictionaries the endpoint returns. *)
Inductive Reply : Type :=
| StatusMessage (status message request_id : string)
| DuplicateAck (status message request_id agent_response : string)
| FromCache (r : CachedResponse)
| Response (r : Formatted).

(** What leaves the process: the POST of [process_message] to the workflow
    engine, and the insert of [save_to_history]. *)
Inductive Event : Type :=
| PostN8n (user_id user_mssg session_id agent_name : string)
| SaveToHistory (session_id user_id user_message agent_response : string).

(** What one request reads from outside: clocks, the uuid generator, and
    the engine's answer to the POST ([None]: the call raises). *)
Record Env : Type := {
  time_time : Q;
  datetime_now : nat -> Q;
  isoformat : Q -> string;
  uuid4 : string;
  post_n8n : string -> string -> string -> string -> option N8nReply;
  extract_image_urls : string -> list string
}.

Record St : Type := {
  request_cache : gmap string Q;                       (* module level *)
  handler_cache : gmap string (CachedResponse * Q);    (* [conversational_handler._cache] *)
  events : list Event;
  dt_reads : nat
}.

Definition _cache_ttl : Q := 300.

Definition set_request_cache (f : gmap string Q -> gmap string Q) : Py St exn unit :=
  modify (fun s => {| request_cache := f (request_cache s);
                      handler_cache := handler_cache s;
                      events := events s; dt_reads := dt_reads s |}).

Definition set_handler_cache
    (f : gmap string (CachedResponse * Q) -> gmap string (CachedResponse * Q))
  : Py St exn unit :=
  modify (fun s => {| request_cache := request_cache s;
                      handler_cache := f (handler_cache s);
                      events := events s; dt_reads := dt_reads s |}).

Definition emit (e : Event) : Py St exn unit :=
  modify (fun s => {| request_cache := request_cache s;
                      handler_cache := handler_cache s;
                      events := events s ++ [e]; dt_reads := dt_reads s |}).

(** [datetime.now()]: successive readings may differ. *)
Definition now (env : Env) : Py St exn Q :=
  fun s => ({| request_cache := request_cache s;
               handler_cache := handler_cache s;
               events := events s; dt_reads := S (dt_reads s) |},
            Ok (datetime_now env (dt_reads s))).

Definition response_key (request_id : string) : string := "response_" +:+ request_id.

Definition get_cached_response (env : Env) (request_id : string)
  : Py St exn (option CachedResponse) :=
  (let cache_key := response_key request_id in
   s <- get ;;
   match handler_cache s !! cache_key with
   | Some (response, timestamp) =>
       t <- now env ;;
       if Qltb (t - timestamp) _cache_ttl then ret (Some response)
       else set_handler_cache (delete cache_key) ;;; ret None
   | None => ret None
   end)%py.

Definition cache_response (env : Env) (request_id : string) (response : CachedResponse)
  : Py St exn unit :=
  (t <- now env ;;
   set_handler_cache (<[response_key request_id := (response, t)]>))%py.

Definition or_default {A} (o : option A) (d : A) : A :=
  match o with Some a => a | None => d end.

Definition process_message (env : Env) (user_mssg session_id user_id agent_name : string)
  : Py St exn HandlerReply :=
  try_except
    (emit (PostN8n user_id user_mssg session_id agent_name) ;;;
     match post_n8n env user_id user_mssg session_id agent_name with
     | None => raise (Exception "n8n")
     | Some n8n_response =>
         t <- now env ;;
         ret (HandlerFormatted
                (or_default (r_status n8n_response) "success")
                (or_default (r_agent_name n8n_response) agent_name)
                (or_default (r_agent_response n8n_response) "")
                (or_default (r_conversation_state n8n_response) "complete")
                (or_default (r_missing_info n8n_response) [])
                (isoformat env t))
     end)%py
    (fun e => ret (HandlerError "error"
                     match e with Exception m => m | _ => "" end)).

Definition handle_message (env : Env) (user_mssg session_id user_id agent_name request_id : string)
  : Py St exn (CachedResponse) :=
  (if is_blank user_mssg
   then ret (CachedHandler (HandlerError "error" "Empty message received"))
   else
     cached_response <- get_cached_response env request_id ;;
     match cached_response with
     | Some r => ret r
     | None =>
         response <- process_message env user_mssg session_id user_id agent_name ;;
         cache_response env request_id (CachedHandler response) ;;;
         ret (CachedHandler response)
     end)%py.

Definition request_key (session_id user_mssg agent_name : string) : string :=
  session_id +:+ ":" +:+ user_mssg +:+ ":" +:+ agent_name.

(** [if request_key in request_cache: if current_time - request_cache[request_key] < 2.0] *)
Definition is_duplicate (request_cache : gmap string Q) (request_key : string)
    (current_time : Q) : bool :=
  match request_cache !! request_key with
  | Some seen => Qltb (current_time - seen) 2
  | None => false
  end.

(** [for k in list(request_cache.keys()): if current_time - request_cache[k] > 10: del ...] *)
Definition clean_old_entries (current_time : Q) (request_cache : gmap string Q)
  : gmap string Q :=
  filter (fun kv => Qltb 10 (current_time - snd kv) = false) request_cache.

Definition duplicate_ack (request_id : string) : Reply :=
  DuplicateAck "success" "Duplicate request ignored" request_id
               "Processing your previous message...".

(** [save_to_history] catches its own exceptions; the insert is logged. *)
Definition save_to_history (env : Env) (session_id user_id user_message agent_response : string)
  : Py St exn unit :=
  (_ <- now env ;;
   emit (SaveToHistory session_id user_id user_message agent_response))%py.

(** [request.request_id or str(uuid.uuid4())] *)
Definition request_id_of (env : Env) (request : N8nMainRequest) : string :=
  or_default (py_or (request_id request) None) (uuid4 env).

(** [await call_n8n_webhook(n8n_payload)]: the module neither defines nor
    imports a [call_n8n_webhook], so evaluating the name raises NameError. *)
Definition call_n8n_webhook (n8n_payload : CachedResponse) : Py St exn N8nReply :=
  raise (Exception "name 'call_n8n_webhook' is not defined").

(** The block under [if request.user_mssg and request.user_mssg.strip() != ""]. *)
Definition process_request (env : Env) (request : N8nMainRequest)
    (agent_name session_id request_id : string) : Py St exn Reply :=
  (_ <- now env ;;        (* [request_data]: "timestamp_of_call_made" *)
   cached_response <- get_cached_response env request_id ;;
   match cached_response with
   | Some r => ret (FromCache r)
   | None =>
       n8n_payload <- handle_message env (user_mssg request) session_id
                                     (user_id request) agent_name request_id ;;
       n8n_response <- call_n8n_webhook n8n_payload ;;
       t <- now env ;;
       let formatted_response :=
         {| f_user_id := or_default (r_user_id n8n_response) (user_id request);
            f_agent_name := or_default (r_agent_name n8n_response) agent_name;
            f_agent_response :=
              or_default (r_agent_response n8n_response)
                         (or_default (r_agent_responses n8n_response) "");
            f_responses := or_default (r_responses n8n_response) [];
            f_timestamp := or_default (r_timestamp n8n_response) (isoformat env t);
            f_status := or_default (r_status n8n_response) "success";
            f_request_id := request_id;
            f_conversation_state :=
              or_default (r_conversation_state n8n_response) "complete";
            f_missing_info := or_default (r_missing_info n8n_response) [];
            f_images := extract_image_urls env
                          (or_default (r_agent_response n8n_response) "") |} in
       cache_response env request_id (CachedFormatted formatted_response) ;;;
       save_to_history env session_id (user_id request) (user_mssg request)
                       (f_agent_response formatted_response) ;;;
       ret (Response formatted_response)
   end)%py.

(** [except HTTPException: raise] / [except Exception as e: raise HTTPException(500, str(e))] *)
Definition to_http_error {A} (e : exn) : Py St exn A :=
  match e with
  | HTTPException c d => raise (HTTPException c d)
  | Exception m => raise (HTTPException 500 m)
  | CancelledError => raise CancelledError
  end.

Definition n8n_main_request (env : Env) (request : N8nMainRequest)
    (agent_name session_id : string) : Py St exn Reply :=
  try_except
    (let request_id := request_id_of env request in
     if (String.eqb (user_mssg request) "" || is_blank (user_mssg request))
     then ret (StatusMessage "success" "Empty message ignored" request_id)
     else
       let request_key := request_key session_id (user_mssg request) agent_name in
       let current_time := time_time env in
       s <- get ;;
       if is_duplicate (request_cache s) request_key current_time
       then ret (duplicate_ack request_id)
       else
         set_request_cache (<[request_key := current_time]>) ;;;
         set_request_cache (clean_old_entries current_time) ;;;
         if negb (String.eqb (user_mssg request) "") && negb (is_blank (user_mssg request))
         then process_request env request agent_name session_id request_id
         else ret (StatusMessage "success" "Initial message received" request_id))%py
    to_http_error.

(** How often the workflow engine has been called so far: the POST of
    [process_message] is the only call to it. *)
Definition is_engine_call (e : Event) : bool :=
  match e with
  | PostN8n _ _ _ _ => true
  | SaveToHistory _ _ _ _ => false
  end.

Definition engine_calls (s : St) : nat :=
  length (List.filter is_engine_call (events s)).

End Router.

(** [try: m finally: fin] *)
Definition try_finally {S E A} (m : Py S E A) (fin : Py S E unit) : Py S E A :=
  fun s => match m s with
           | (s', r) => match fin s' with
                        | (s'', Ok _) => (s'', r)
                        | (s'', Raise e) => (s'', Raise e)
                        end
           end.

(** ** The socket side: frames, connections *)

(** JSON frames written to a websocket. *)
Inductive Frame : Type :=
| ConnectionStatus (status message : string) (timestamp : Z)
| Ping (timestamp : Z)
| Pong (timestamp : Z)
| Ack (requestId message : string) (timestamp : Z)
| Update (type : string) (agent : option string) (message : string) (progress : Z)
         (requestId : option string) (metadata : gmap string string) (timestamp : Z)
| AgentResponse (agent : option string) (message : string)
                (requestId : option string) (final : bool) (timestamp : Z).

(** A [WebSocket] object: what has been written to it, and whether the peer
    is still there ([send_json] raises otherwise). *)
Record WebSocket : Type := { sent : list Frame; peer_open : bool }.

(** [int(time.time() * 1000)] *)
Definition millis (t : Q) : Z := Qfloor (t * 1000).

Module Socket.

(** A decoded inbound frame, [message_data]. *)
Record Message : Type := {
  type : option string;
  requestId : option string;
  message : option string;
  agent : option string
}.

(** What one turn of the receive loop obtains from
    [asyncio.wait_for(websocket.receive_text(), timeout=60.0)] and
    [json.loads]. *)
Inductive Received : Type :=
| Text (message_data : Message)
| BadJson
| IdleTimeout
| Disconnect.

Record Payload : Type := {
  p_user_id : string;
  p_user_mssg : string;
  p_session_id : string;
  p_agent_name : string;
  p_timestamp_of_call_made : string;
  p_request_id : string
}.

Record Env : Type := {
  time_time : nat -> Q;
  isoformat : Q -> string;
  uuid4 : nat -> string
}.

(** [active_requests] is module level; [websocket] is this connection's
    socket; [tasks] lists the coroutines handed to [asyncio.create_task] by
    the receive loop, in order. *)
Record St : Type := {
  active_requests : gset string;
  websocket : WebSocket;
  tasks : list Payload;
  clock_reads : nat;
  uuids : nat
}.

Definition time (env : Env) : Py St exn Q :=
  fun s => ({| active_requests := active_requests s; websocket := websocket s;
               tasks := tasks s; clock_reads := S (clock_reads s); uuids := uuids s |},
            Ok (time_time env (clock_reads s))).

Definition uuid (env : Env) : Py St exn string :=
  fun s => ({| active_requests := active_requests s; websocket := websocket s;
               tasks := tasks s; clock_reads := clock_reads s; uuids := S (uuids s) |},
            Ok (uuid4 env (uuids s))).

Definition send_json (f : Frame) : Py St exn unit :=
  fun s => if peer_open (websocket s)
           then ({| active_requests := active_requests s;
                    websocket := {| sent := sent (websocket s) ++ [f]; peer_open := true |};
                    tasks := tasks s; clock_reads := clock_reads s; uuids := uuids s |},
                 Ok tt)
           else (s, Raise (Exception "WebSocket is not connected")).

Definition set_active_requests (f : gset string -> gset string) : Py St exn unit :=
  modify (fun s => {| active_requests := f (active_requests s); websocket := websocket s;
                      tasks := tasks s; clock_reads := clock_reads s; uuids := uuids s |}).

(** [process_n8n_request_async(n8n_payload, websocket, request_id)]: the
    module neither defines nor imports a [process_n8n_request_async], so
    evaluating the name raises NameError and there is no coroutine to
    schedule. *)
Definition process_n8n_request_async (n8n_payload : Payload) (request_id : string)
  : Py St exn Payload :=
  raise (Exception "name 'process_n8n_request_async' is not defined").

(** [asyncio.create_task(coro)] *)
Definition create_task (coro : Payload) : Py St exn unit :=
  modify (fun s => {| active_requests := active_requests s; websocket := websocket s;
                      tasks := tasks s ++ [coro]; clock_reads := clock_reads s;
                      uuids := uuids s |}).

Inductive Flow : Type := Continue | Break.

Definition is_type (m : Message) (t : string) : bool :=
  match type m with Some t' => String.eqb t' t | None => false end.

(** One turn of [while True:] in [websocket_endpoint]. *)
Definition loop_body (env : Env) (user_id session_id : string) (r : Received)
  : Py St exn Flow :=
  match r with
  | Disconnect => raise (Exception "WebSocketDisconnect")
  | IdleTimeout =>
      try_except (t <- time env ;; send_json (Ping (millis t)) ;;; ret Continue)%py
                 (fun _ => ret Break)
  | BadJson => ret Continue
  | Text message_data =>
      (_ <- time env ;;     (* [last_activity = time.time()] *)
       fresh <- uuid env ;;
       let request_id := Router.or_default (requestId message_data) fresh in
       let user_input :=
         string_of_list_ascii
           (PyStr.strip (PyStr.chars (Router.or_default (message message_data) ""))) in
       if is_type message_data "ping"
       then t <- time env ;; send_json (Pong (millis t)) ;;; ret Continue
       else if is_type message_data "pong" then ret Continue
       else if String.eqb user_input "" || is_type message_data "connection_status"
       then ret Continue
       else
         s <- get ;;
         if decide (request_id ∈ active_requests s) then ret Continue
         else
           set_active_requests (fun a => {[request_id]} ∪ a) ;;;
           try_finally
             (t <- time env ;;
              send_json (Ack request_id "Message received, processing..." (millis t)) ;;;
              t' <- time env ;;
              let n8n_payload :=
                {| p_user_id := user_id;
                   p_user_mssg := user_input;
                   p_session_id := session_id;
                   p_agent_name := Router.or_default (agent message_data) "presaleskb";
                   p_timestamp_of_call_made := isoformat env t';
                   p_request_id := request_id |} in
              coro <- process_n8n_request_async n8n_payload request_id ;;
              create_task coro)
             (set_active_requests (fun a => a ∖ {[request_id]})) ;;;
           ret Continue)%py
  end.

(** The receive loop over the successive things read from the socket. *)
Fixpoint receive_loop (env : Env) (user_id session_id : string) (inbox : list Received)
  : Py St exn unit :=
  match inbox with
  | [] => ret tt
  | r :: inbox' =>
      (flow <- loop_body env user_id session_id r ;;
       match flow with
       | Continue => receive_loop env user_id session_id inbox'
       | Break => ret tt
       end)%py
  end.

Definition is_ack_for (request_id : string) (f : Frame) : bool :=
  match f with
  | Ack r _ _ => String.eqb r request_id
  | _ => false
  end.

Definition acks_for (request_id : string) (s : St) : nat :=
  length (List.filter (is_ack_for request_id) (sent (websocket s))).

Definition dispatched_for (request_id : string) (s : St) : nat :=
  length (List.filter (fun p => String.eqb (p_request_id p) request_id) (tasks s)).

End Socket.

(** ** Streaming fan-out: [/api/stream] *)

Module Stream.

Record StreamUpdate : Type := {
  type : string;
  user_id : string;
  agent_name : option string;
  agent_names : option string;
  message : string;
  progress : Z;
  agent_response : option string;
  metadata : gmap string string
}.

Record StreamingSession : Type := { updates : list StreamUpdate; complete : bool }.

Inductive Reply : Type :=
| Received (connection_id : string)
| Error (error : string).

(** [streaming_sessions] and [active_connections] are module level; the
    sockets live in the registry and are written through it. *)
Record St : Type := {
  streaming_sessions : gmap string StreamingSession;
  active_connections : gmap string WebSocket;
  clock_reads : nat
}.

Definition time (time_time : nat -> Q) : Py St exn Q :=
  fun s => ({| streaming_sessions := streaming_sessions s;
               active_connections := active_connections s;
               clock_reads := S (clock_reads s) |},
            Ok (time_time (clock_reads s))).

Definition set_sessions
    (f : gmap string StreamingSession -> gmap string StreamingSession) : Py St exn unit :=
  modify (fun s => {| streaming_sessions := f (streaming_sessions s);
                      active_connections := active_connections s;
                      clock_reads := clock_reads s |}).

(** [await websocket.send_json(f)] on the socket registered under [connection_id]. *)
Definition send_json (connection_id : string) (f : Frame) : Py St exn unit :=
  fun s => match active_connections s !! connection_id with
           | Some ws =>
               if peer_open ws
               then ({| streaming_sessions := streaming_sessions s;
                        active_connections :=
                          <[connection_id := {| sent := sent ws ++ [f]; peer_open := true |}]>
                            (active_connections s);
                        clock_reads := clock_reads s |}, Ok tt)
               else (s, Raise (Exception "WebSocket is not connected"))
           | None => (s, Raise (Exception "KeyError"))
           end.

Definition is_terminal (t : string) : bool :=
  String.eqb t "complete" || String.eqb t "final".

(** Truthiness of an [Optional[str]]. *)
Definition truthy (o : option string) : bool :=
  match o with
  | Some s => negb (String.eqb s "")
  | None => false
  end.

Definition connection_id_of (update : StreamUpdate) : string :=
  user_id update +:+ "_" +:+ Router.or_default (metadata update !! "session_id"%string) "".

Definition session_key_of (update : StreamUpdate) : string :=
  user_id update +:+ ":" +:+ Router.or_default (metadata update !! "request_id"%string) "".

(** The log: create the session on its first event, append the event,
    close the session on a terminal type. *)
Definition log_update (update : StreamUpdate) : Py St exn unit :=
  (let session_key := session_key_of update in
   set_sessions (fun ss => match ss !! session_key with
                           | Some _ => ss
                           | None => <[session_key := {| updates := []; complete := false |}]> ss
                           end) ;;;
   set_sessions (alter (fun sess => {| updates := updates sess ++ [update];
                                       complete := complete sess |}) session_key) ;;;
   if is_terminal (type update)
   then set_sessions (alter (fun sess => {| updates := updates sess; complete := true |})
                            session_key)
   else ret tt)%py.

(** The live push, under [if connection_id in active_connections:]. *)
Definition forward_update (time_time : nat -> Q) (update : StreamUpdate)
  : Py St exn unit :=
  (let connection_id := connection_id_of update in
   s <- get ;;
   match active_connections s !! connection_id with
   | Some _ =>
       t <- time time_time ;;
       send_json connection_id
         (Update (type update) (py_or (agent_name update) (agent_names update))
                 (message update) (progress update)
                 (metadata update !! "request_id"%string) (metadata update) (millis t)) ;;;
       if String.eqb (type update) "complete" && truthy (agent_response update)
       then
         t' <- time time_time ;;
         send_json connection_id
           (AgentResponse (agent_name update)
                          (Router.or_default (agent_response update) "")
                          (metadata update !! "request_id"%string) true (millis t'))
       else ret tt
   | None => ret tt
   end)%py.

Definition receive_stream_update (time_time : nat -> Q) (update : StreamUpdate)
  : Py St exn Reply :=
  try_except
    (log_update update ;;;
     forward_update time_time update ;;;
     ret (Received (connection_id_of update)))%py
    (fun e => ret (Error match e with Exception m => m | _ => "" end)).

(** Frames written to the socket registered under [connection_id]. *)
Definition frames (connection_id : string) (s : St) : list Frame :=
  match active_connections s !! connection_id with
  | Some ws => sent ws
  | None => []
  end.

End Stream.

(** ** Bounded orchestrator: [/api/website/full-analysis] *)

Module Orchestrator.

(** The dictionary a subtask endpoint returns: its ["status"], its
    ["message"], and the remaining keys. *)
Record SubResult : Type := { status : string; message : string; body : string }.

Inductive Completion : Type :=
| Returns (r : SubResult)
| Raises (msg : string).

(** A launched subtask, left alone, completes [after] seconds. *)
Record Subtask : Type := { after : Q; completion : Completion }.

(** An [asyncio.Task] as the handler sees it when it resumes. *)
Inductive Task : Type :=
| Running (eventually : Completion)
| Finished (c : Completion)
| Cancelled.

(** [task.done()]: true for a finished and for a cancelled task. *)
Definition done (t : Task) : bool :=
  match t with
  | Running _ => false
  | Finished _ | Cancelled => true
  end.

(** [await task] *)
Definition await (t : Task) : res exn SubResult :=
  match t with
  | Running (Returns r) | Finished (Returns r) => Ok r
  | Running (Raises m) | Finished (Raises m) => Raise (Exception m)
  | Cancelled => Raise CancelledError
  end.

(** [asyncio.wait_for(asyncio.gather(a, b, c, return_exceptions=True), timeout)].
    As asyncio documents: when the timeout occurs [wait_for] cancels the
    awaitable and waits until it is actually cancelled before raising
    [TimeoutError]; cancelling a [gather] cancels every submitted
    awaitable that has not completed yet.  So at the [except
    asyncio.TimeoutError] clause a task either finished before the
    deadline or is cancelled. *)
Inductive Gathered : Type :=
| AllResults (a b c : Completion)
| TimeoutError (a b c : Task).

Definition at_deadline (timeout : Q) (t : Subtask) : Task :=
  if Qltb (after t) timeout then Finished (completion t) else Cancelled.

Definition wait_for_gather (timeout : Q) (a b c : Subtask) : Gathered :=
  if Qltb (after a) timeout && Qltb (after b) timeout && Qltb (after c) timeout
  then AllResults (completion a) (completion b) (completion c)
  else TimeoutError (at_deadline timeout a) (at_deadline timeout b) (at_deadline timeout c).

Record Results : Type := {
  url : string;
  session_id : string;
  timestamp : string;
  analysis : SubResult;
  screenshot : SubResult;
  favicon : SubResult;
  overall_status : string
}.

Inductive Reply : Type :=
| Analysis (results : Results)
| Failed (status message url : string).

(** [all_results[i] if not isinstance(all_results[i], Exception) else {...}] *)
Definition result_or_error (c : Completion) : SubResult :=
  match c with
  | Returns r => r
  | Raises m => {| status := "error"; message := m; body := "" |}
  end.

(** [await task if task.done() else {"status": "timeout", "message": msg}] *)
Definition ready_or_timeout (t : Task) (msg : string) : res exn SubResult :=
  if done t then await t
  else Ok {| status := "timeout"; message := msg; body := "" |}.

Definition all_success (a s f : SubResult) : bool :=
  forallb (fun r => String.eqb (status r) "success") [a; s; f].

Definition finish (url session_id timestamp : string) (a s f : SubResult) : Results :=
  {| url := url; session_id := session_id; timestamp := timestamp;
     analysis := a; screenshot := s; favicon := f;
     overall_status := if all_success a s f then "success" else "partial_success" |}.

Definition res_bind {A B} (r : res exn A) (k : A -> res exn B) : res exn B :=
  match r with
  | Ok a => k a
  | Raise e => Raise e
  end.

Definition deadline : Q := 25.

(** The [except asyncio.TimeoutError] clause. *)
Definition on_timeout (url session_id timestamp : string) (ta ts tf : Task)
  : res exn Results :=
  res_bind (ready_or_timeout ta "Analysis timed out") (fun a =>
  res_bind (ready_or_timeout ts "Screenshot timed out") (fun s =>
  res_bind (ready_or_timeout tf "Favicon timed out") (fun f =>
  Ok (finish url session_id timestamp a s f)))).

(** The handler, given how the three launched subtasks behave.  A [Raise]
    result is an exception that leaves the handler. *)
Definition full_website_analysis (url session_id timestamp : string)
    (analysis_task screenshot_task favicon_task : Subtask) : res exn Reply :=
  match
    match wait_for_gather deadline analysis_task screenshot_task favicon_task with
    | AllResults a s f =>
        Ok (finish url session_id timestamp
                   (result_or_error a) (result_or_error s) (result_or_error f))
    | TimeoutError ta ts tf => on_timeout url session_id timestamp ta ts tf
    end
  with
  | Ok results => Ok (Analysis results)
  | Raise (Exception m) => Ok (Failed "error" m url)
  | Raise (HTTPException _ d) => Ok (Failed "error" d url)
  | Raise CancelledError => Raise CancelledError
  end.

End Orchestrator.

(** ** Vocabulary of the specification *)

Module Spec.

(** A phrase whose first and last characters are not whitespace. *)
Definition solid (p : list ascii) : bool :=
  match p, rev p with
  | c :: _, d :: _ => negb (PyStr.isspace c) && negb (PyStr.isspace d)
  | _, _ => false
  end.

(** "The lowercased query contains one of the fixed greeting/meta phrases,
    or splits into at most 3 whitespace-separated tokens." *)
Definition classified_basic (user_query : string) : bool :=
  let lowered := PyStr.lower (PyStr.chars user_query) in
  existsb (fun phrase => PyStr.contains (PyStr.chars phrase) lowered)
          Matcher.basic_patterns
  || (length (PyStr.split lowered) <=? 3)%nat.

(** No entry stored under [key] passes the freshness test at [now]. *)
Definition cache_miss (self : Matcher.Self) (key : string) (now : Q) : Prop :=
  forall e, Matcher._cache self !! key = Some e ->
            Matcher._cache_ttl <= now - Matcher.timestamp e.

(** What the similarity lookup of [find_best_agents] yields: the rows of
    [result.data], and none when the embedding or the lookup raises. *)
Definition candidates (up : Matcher.Upstream) (user_query : string) (top_n : Z)
  : list (string * Q) :=
  match Matcher.get_query_embedding up user_query with
  | Some query_embedding =>
      match Matcher.match_agents_by_similarity up query_embedding (3 # 10) (top_n * 5) with
      | Some data => data
      | None => []
      end
  | None => []
  end.

(** The similarity service returns at most [match_count] rows. *)
Definition respects_match_count (up : Matcher.Upstream) (top_n : Z) : Prop :=
  forall query_embedding data,
    Matcher.match_agents_by_similarity up query_embedding (3 # 10) (top_n * 5) = Some data ->
    (Z.of_nat (length data) <= top_n * 5)%Z.

(** A larger similarity never gets a smaller product with 100: rounding
    to the nearest double is monotone. *)
Definition monotone_product (py : Builtins) : Prop :=
  forall a b, a <= b -> float_mul py a 100 <= float_mul py b 100.

(** Each agent of [rows] occurs once in [agents], with the largest of the
    products computed for its rows. *)
Definition best_products (py : Builtins) (rows agents : list (string * Q)) : Prop :=
  NoDup (agents.*1)
  /\ (forall a r, (a, r) ∈ rows -> a ∈ agents.*1)
  /\ forall a sc, (a, sc) ∈ agents ->
       (exists r, (a, r) ∈ rows /\ sc = float_mul py r 100)
       /\ forall r', (a, r') ∈ rows -> float_mul py r' 100 <= sc.

(** Each agent of [rows] occurs once in [agents], and its score there has
    the value of [r * 100] as Python computes it, for [r] the largest
    similarity of its rows. *)
Definition scored_by_maximum (py : Builtins) (rows agents : list (string * Q)) : Prop :=
  NoDup (agents.*1)
  /\ (forall a r, (a, r) ∈ rows -> a ∈ agents.*1)
  /\ forall a sc, (a, sc) ∈ agents ->
       exists r, (a, r) ∈ rows
                 /\ (forall r', (a, r') ∈ rows -> r' <= r)
                 /\ sc == float_mul py r 100.

Definition descending (agents : list (string * Q)) : Prop :=
  StronglySorted (fun x y => snd y <= snd x) agents.

(** Every list cached by [find_best_agents] is non-empty. *)
Definition best_agents_nonempty (cache : gmap string Matcher.CacheEntry) : Prop :=
  forall q e, cache !! Matcher.best_agents_key q = Some e ->
              exists agents, Matcher.result e = Matcher.VAgents agents /\ agents <> [].

(** *** Router *)

(** The request is not answered as an empty message. *)
Definition has_text (request : Router.N8nMainRequest) : Prop :=
  (String.eqb (Router.user_mssg request) "" || is_blank (Router.user_mssg request)) = false.

Definition key_of (request : Router.N8nMainRequest) (agent_name session_id : string)
  : string :=
  Router.request_key session_id (Router.user_mssg request) agent_name.

(** What one request with a non-blank message does to [request_cache]. *)
Definition dedup (current_time : Q) (key : string) (cache : gmap string Q)
  : gmap string Q :=
  if Router.is_duplicate cache key current_time then cache
  else Router.clean_old_entries current_time (<[key := current_time]> cache).

(** A request arriving at the endpoint, with what it reads from outside. *)
Record Arrival : Type := {
  a_env : Router.Env;
  a_request : Router.N8nMainRequest;
  a_agent_name : string;
  a_session_id : string
}.

Definition serve (s : Router.St) (a : Arrival) : Router.St :=
  (Router.n8n_main_request (a_env a) (a_request a) (a_agent_name a) (a_session_id a) s).1.

Definition serve_all (arrivals : list Arrival) (s : Router.St) : Router.St :=
  fold_left serve arrivals s.

(** No entry is more than 10 seconds old at [current_time]. *)
Definition swept (current_time : Q) (cache : gmap string Q) : Prop :=
  forall k seen, cache !! k = Some seen -> current_time - seen <= 10.

(** *** Socket *)

(** A business frame: not a control frame, with a non-blank message. *)
Definition business (m : Socket.Message) : Prop :=
  Socket.is_type m "ping" = false /\ Socket.is_type m "pong" = false
  /\ Socket.is_type m "connection_status" = false
  /\ is_blank (Router.or_default (Socket.message m) "") = false.

(** *** Streaming *)

(** What the arrival of [update] does to the session log. *)
Definition logged (update : Stream.StreamUpdate)
    (sessions : gmap string Stream.StreamingSession)
  : gmap string Stream.StreamingSession :=
  let key := Stream.session_key_of update in
  let sess := match sessions !! key with
              | Some sess => sess
              | None => {| Stream.updates := []; Stream.complete := false |}
              end in
  <[key := {| Stream.updates := Stream.updates sess ++ [update];
              Stream.complete :=
                Stream.complete sess || Stream.is_terminal (Stream.type update) |}]>
    sessions.

Definition deliver (time_time : nat -> Q) (s : Stream.St) (update : Stream.StreamUpdate)
  : Stream.St :=
  (Stream.receive_stream_update time_time update s).1.

Definition deliver_all (time_time : nat -> Q) (later : list Stream.StreamUpdate)
    (s : Stream.St) : Stream.St :=
  fold_left (deliver time_time) later s.

End Spec.

(** ** Concrete inputs used in examples *)

Module Fixtures.

Import Matcher.

Definition pricing_query : string := "compare pricing tiers for enterprise customers".

(** An interpreter whose products come out exact (as 0.5, 0.7 and 0.9 times
    100 do), with rounding and printing left as the identity and a fixed
    text. *)
Definition py : Builtins :=
  {| float_mul := Qmult; round := fun _ q => q; str_float := fun _ => "90.0"%string |}.

(** An interpreter that keeps whole numbers only: products are rounded
    down. *)
Definition coarse : Builtins :=
  {| float_mul := fun a b => inject_Z (Qfloor (a * b));
     round := fun _ q => q; str_float := fun _ => "70.0"%string |}.

(** Documents exist for two agents; the best document scores 0.9. *)
Definition upstream : Upstream :=
  {| agent_documents :=
       fun a => Some (String.eqb a "presaleskb" || String.eqb a "socialmediakb");
     get_query_embedding := fun _ => Some [1 # 2; 1 # 4];
     match_agent_documents := fun _ _ _ _ => Some [9 # 10];
     match_agents_by_similarity := fun _ _ _ =>
       Some [("socialmediakb"%string, 1 # 2); ("presaleskb"%string, 7 # 10);
             ("socialmediakb"%string, 9 # 10)] |}.

(** The same store, but the best document scores only 0.2. *)
Definition weak_upstream : Upstream :=
  {| agent_documents := agent_documents upstream;
     get_query_embedding := get_query_embedding upstream;
     match_agent_documents := fun _ _ _ _ => Some [1 # 5];
     match_agents_by_similarity := match_agents_by_similarity upstream |}.

(** The embedding service is down. *)
Definition embedding_down : Upstream :=
  {| agent_documents := agent_documents upstream;
     get_query_embedding := fun _ => None;
     match_agent_documents := match_agent_documents upstream;
     match_agents_by_similarity := match_agents_by_similarity upstream |}.

(** Two agents whose similarities differ, but not after [Fixtures.coarse]
    has rounded the products: 0.701 and 0.709 both give 70. *)
Definition tied_upstream : Upstream :=
  {| agent_documents := agent_documents upstream;
     get_query_embedding := get_query_embedding upstream;
     match_agent_documents := match_agent_documents upstream;
     match_agents_by_similarity := fun _ _ _ =>
       Some [("presaleskb"%string, 701 # 1000); ("socialmediakb"%string, 709 # 1000)] |}.

Definition fresh_self : Self := {| _cache := ∅; calls := [] |}.

(** A matcher holding one entry, stored at time 0. *)
Definition aged_self : Self :=
  {| _cache := {[ agent_match_key "presaleskb" pricing_query :=
                   {| result := VPair false (1 # 10); timestamp := 0 |} ]};
     calls := [] |}.

(** A request without [request_id]: the endpoint generates one. *)
Definition request (user_mssg : string) : Router.N8nMainRequest :=
  {| Router.user_id := "u1"; Router.user_mssg := user_mssg;
     Router.req_session_id := "s1"; Router.req_agent_name := "presaleskb";
     Router.timestamp_of_call_made := None; Router.request_id := None |}.

Definition n8n_reply : Router.N8nReply :=
  {| Router.r_user_id := None; Router.r_agent_name := None;
     Router.r_agent_response := Some "Our plans start at 10 per seat."%string;
     Router.r_agent_responses := None; Router.r_responses := None;
     Router.r_timestamp := Some "2025-01-01T00:00:00"%string;
     Router.r_status := None; Router.r_conversation_state := None;
     Router.r_missing_info := None |}.

(** The world at [time.time() = t], with a working engine. *)
Definition router_env (t : Q) (uuid : string) : Router.Env :=
  {| Router.time_time := t;
     Router.datetime_now := fun n => t + inject_Z (Z.of_nat n);
     Router.isoformat := fun _ => "2025-01-01T00:00:00"%string;
     Router.uuid4 := uuid;
     Router.post_n8n := fun _ _ _ _ => Some n8n_reply;
     Router.extract_image_urls := fun _ => [] |}.

Definition router_start : Router.St :=
  {| Router.request_cache := ∅; Router.handler_cache := ∅;
     Router.events := []; Router.dt_reads := 0 |}.

Definition hello_key : string := Router.request_key "s1" "hello there" "presaleskb".

(** "hello there" was seen at time 99, another message at time 0. *)
Definition router_stale : Router.St :=
  {| Router.request_cache := {[ hello_key := 99; "s0:old message:presaleskb"%string := 0 ]};
     Router.handler_cache := ∅; Router.events := []; Router.dt_reads := 0 |}.

(** "hello there" was seen at time 99 and a response is cached for "r1". *)
Definition router_cached : Router.St :=
  {| Router.request_cache := {[ hello_key := 99 ]};
     Router.handler_cache :=
       {[ Router.response_key "r1" :=
            (Router.CachedHandler (Router.HandlerError "error" "n8n"), 98) ]};
     Router.events := []; Router.dt_reads := 0 |}.

Definition socket_env : Socket.Env :=
  {| Socket.time_time := fun n => 1000 + inject_Z (Z.of_nat n);
     Socket.isoformat := fun _ => "2025-01-01T00:00:00"%string;
     Socket.uuid4 := fun n => if (n =? 0)%nat then "uuid-a"%string else "uuid-b"%string |}.

Definition hello_frame : Socket.Received :=
  Socket.Text {| Socket.type := None; Socket.requestId := Some "req-1"%string;
                 Socket.message := Some "hello"%string; Socket.agent := None |}.

(** A connection just opened, nothing in flight. *)
Definition socket_start : Socket.St :=
  {| Socket.active_requests := ∅;
     Socket.websocket := {| sent := []; peer_open := true |};
     Socket.tasks := []; Socket.clock_reads := 0; Socket.uuids := 0 |}.

Definition clock (n : nat) : Q := 1000 + inject_Z (Z.of_nat n).

(** A progress event for user "u1", session "s1", request "req-1". *)
Definition progress_event (type : string) (agent_response : option string)
  : Stream.StreamUpdate :=
  {| Stream.type := type; Stream.user_id := "u1";
     Stream.agent_name := Some "presaleskb"%string; Stream.agent_names := None;
     Stream.message := "done"; Stream.progress := 100;
     Stream.agent_response := agent_response;
     Stream.metadata := {[ "session_id"%string := "s1"%string;
                           "request_id"%string := "req-1"%string ]} |}.

(** No session logged yet; "u1" is connected on session "s1". *)
Definition stream_start : Stream.St :=
  {| Stream.streaming_sessions := ∅;
     Stream.active_connections :=
       {[ "u1_s1"%string := {| sent := []; peer_open := true |} ]};
     Stream.clock_reads := 0 |}.

Definition completed_session : Stream.StreamingSession :=
  {| Stream.updates := [progress_event "complete" None]; Stream.complete := true |}.

(** The session of "req-1" has been closed by a terminal event. *)
Definition stream_completed : Stream.St :=
  {| Stream.streaming_sessions := {[ "u1:req-1"%string := completed_session ]};
     Stream.active_connections := Stream.active_connections stream_start;
     Stream.clock_reads := 1 |}.

Definition succeeded (body : string) : Orchestrator.Completion :=
  Orchestrator.Returns {| Orchestrator.status := "success";
                          Orchestrator.message := "ok";
                          Orchestrator.body := body |}.

(** Content analysis after 3 seconds, icon after 2; the screenshot needs 40. *)
Definition fast_analysis : Orchestrator.Subtask :=
  {| Orchestrator.after := 3; Orchestrator.completion := succeeded "analysis" |}.
Definition slow_screenshot : Orchestrator.Subtask :=
  {| Orchestrator.after := 40; Orchestrator.completion := succeeded "screenshot" |}.
Definition fast_favicon : Orchestrator.Subtask :=
  {| Orchestrator.after := 2; Orchestrator.completion := succeeded "favicon" |}.

End Fixtures.

(** ** AgentMatcher.get_recommended_agent and the matcher endpoints *)

Module Recommender.

Import Matcher.

Definition recommended_agent_key (user_query : string) : string :=
  "recommended_agent_" +:+ user_query.

Definition default_agent : string := "presaleskb".

(** [if best_agents and best_agents[0][1] >= 60: agent = best_agents[0][0]
    else: agent = 'presaleskb'], on whatever [find_best_agents] returned;
    subscripting a bool or a one-character string raises. *)
Definition pick_agent (best_agents : value) : res exn string :=
  match best_agents with
  | VAgents ((name, score) :: _) => Ok (if Qleb 60 score then name else default_agent)
  | VAgents [] => Ok default_agent
  | VBool false => Ok default_agent
  | VStr EmptyString => Ok default_agent
  | VBool true | VPair _ _ | VStr (String _ _) => Raise (Exception "TypeError")
  end.

(** The four clock readings are, in order: this method's lookup, the lookup
    and the store of [find_best_agents], this method's store. *)
Definition get_recommended_agent (py : Builtins) (up : Upstream)
    (now_lookup best_lookup best_store now_store : Q) (user_query : string)
  : Py Self exn value :=
  try_except
    (let cache_key := recommended_agent_key user_query in
     cached <- cache_lookup cache_key now_lookup ;;
     match cached with
     | Some r => ret r
     | None =>
         best_agents <- find_best_agents py up best_lookup best_store user_query 1 ;;
         match pick_agent best_agents with
         | Raise e => raise e
         | Ok agent =>
             cache_store cache_key (VStr agent) now_store ;;;
             ret (VStr agent)
         end
     end)%py
    (fun _ => ret (VStr default_agent)).

(** *** POST /n8n/check_agent_match *)

Inductive CheckResponse : Type :=
| CheckSuccess (agent_name user_query : string) (is_match : bool) (confidence : Q)
               (threshold_used : Q) (recommendation status : string)
| CheckError (agent_name user_query : string) (is_match : bool)
             (error status : string).

Definition str_exn (e : exn) : string :=
  match e with
  | Exception m => m
  | CancelledError => ""
  | HTTPException _ d => d
  end.

Definition n8n_check_agent_match (py : Builtins) (up : Upstream) (now_lookup now_store : Q)
    (agent_name user_query : string) (threshold : Q) : Py Self exn CheckResponse :=
  try_except
    (r <- check_agent_match up now_lookup now_store agent_name user_query threshold ;;
     match unpack_pair r with
     | Raise e => raise e
     | Ok (is_match, confidence) =>
         let recommendation :=
           if is_match
           then "Agent '" +:+ agent_name +:+ "' is suitable for this query"
           else "Agent '" +:+ agent_name +:+ "' may not be optimal for this query" in
         ret (CheckSuccess agent_name user_query is_match (round py 3 confidence)
                           threshold recommendation "success")
     end)%py
    (fun e => ret (CheckError agent_name user_query false (str_exn e) "error")).

(** *** POST /n8n/find_best_agents *)

Record Recommendation : Type := {
  rec_agent_name : string;
  match_percentage : Q;
  rank : nat;
  description : string
}.

Inductive FindResponse : Type :=
| FindSuccess (user_query : string) (recommendations : list Recommendation)
              (total_agents_found : nat) (status best_agent : string)
              (best_agent_confidence : Q) (message : option string)
| FindError (user_query best_agent : string) (best_agent_confidence : Q)
            (error status message : string).

Definition quality (score : Q) : string :=
  if Qleb 90 score then "Excellent match"
  else if Qleb 75 score then "Good match"
  else if Qleb 60 score then "Fair match"
  else "Possible match".

(** [if request.min_threshold: best_agents = [... if score >= min_threshold * 100]];
    [None] and [0.0] are falsy. *)
Definition above_threshold (py : Builtins) (min_threshold : option Q)
    (best_agents : list (string * Q)) : list (string * Q) :=
  match min_threshold with
  | Some t =>
      if Qeq_bool t 0 then best_agents
      else List.filter (fun item => Qleb (float_mul py t 100) (snd item)) best_agents
  | None => best_agents
  end.

Definition recommend (py : Builtins) (descriptions : string -> option string)
    (idx : nat) (item : string * Q) : Recommendation :=
  {| rec_agent_name := fst item;
     match_percentage := round py 1 (snd item);
     rank := idx + 1;
     description := quality (snd item) +:+ " - "
                    +:+ Router.or_default (descriptions (fst item))
                                          "handles specialized queries" |}.

(** Iterating over what [find_best_agents] returned; only a list of pairs
    can be unpacked. *)
Definition as_agents (v : value) : res exn (list (string * Q)) :=
  match v with
  | VAgents l => Ok l
  | VStr EmptyString => Ok []
  | VBool _ | VPair _ _ | VStr (String _ _) => Raise (Exception "TypeError")
  end.

Definition n8n_find_best_agents (py : Builtins) (descriptions : string -> option string)
    (up : Upstream) (now_lookup now_store : Q)
    (user_query : string) (top_n : Z) (min_threshold : option Q)
  : Py Self exn FindResponse :=
  try_except
    (r <- find_best_agents py up now_lookup now_store user_query top_n ;;
     match as_agents r with
     | Raise e => raise e
     | Ok best_agents =>
         let best_agents := above_threshold py min_threshold best_agents in
         let recommendations := imap (recommend py descriptions) best_agents in
         ret match recommendations with
             | first :: _ =>
                 FindSuccess user_query recommendations (length recommendations) "success"
                             (rec_agent_name first) (match_percentage first) None
             | [] =>
                 FindSuccess user_query recommendations (length recommendations) "success"
                             "presaleskb" 100
                             (Some "No agents found above threshold, using default agent"%string)
             end
     end)%py
    (fun e => ret (FindError user_query "" 100 (str_exn e) "error"
                             "Error finding agents, using default")).

(** *** POST /n8n/analyze_agent_query *)

Record AnalyzeRequest : Type := {
  q_user_query : option string;
  q_current_agent : option string;
  q_get_recommendations : option bool;
  q_top_n : option Z
}.

Record AgentAnalysis : Type := {
  an_agent_name : string;
  is_suitable : bool;
  an_confidence : Q;
  an_recommendation : string
}.

Record Routing : Type := {
  routing_decision : string;
  suggested_agent : option string;
  routing_message : string
}.

Inductive AnalyzeResponse : Type :=
| AnalyzeSuccess (user_query analysis_timestamp status : string)
                 (current_agent_analysis : option AgentAnalysis)
                 (recommended_agents : option (list (string * Q * nat)))
                 (routing : option Routing)
| AnalyzeError (user_query error status routing_decision suggested_agent : string).

(** [if best_agents: ...] with its three-way decision. *)
Definition route (py : Builtins) (current_agent : option string)
    (best_agents : list (string * Q)) : option Routing :=
  match best_agents with
  | [] => None
  | (best_agent, best_score) :: _ =>
      Some
        (if match py_or current_agent None with
            | Some c => String.eqb c best_agent
            | None => false
            end
         then {| routing_decision := "keep_current";
                 suggested_agent := None;
                 routing_message :=
                   "Current agent '" +:+ Router.or_default current_agent "" +:+ "' is optimal" |}
         else if Qleb 70 best_score
         then {| routing_decision := "switch_agent";
                 suggested_agent := Some best_agent;
                 routing_message :=
                   "Switch to '" +:+ best_agent +:+ "' (confidence: "
                   +:+ str_float py best_score +:+ "%)" |}
         else {| routing_decision := "use_default";
                 suggested_agent := Some "presaleskb"%string;
                 routing_message := "No strong match found, use general agent" |})
  end.

(** [times] gives the clock readings in order: the analysis timestamp, the
    lookup and store of [check_agent_match], the lookup and store of
    [find_best_agents]. *)
Definition n8n_analyze_agent_query (py : Builtins) (isoformat : Q -> string)
    (up : Upstream) (times : nat -> Q) (request : AnalyzeRequest)
  : Py Self exn AnalyzeResponse :=
  let user_query := Router.or_default (q_user_query request) "" in
  try_except
    (let current_agent := q_current_agent request in
     let get_recommendations := Router.or_default (q_get_recommendations request) true in
     let top_n := Router.or_default (q_top_n request) 3%Z in
     analysis <-
       match py_or current_agent None with
       | Some agent =>
           r <- check_agent_match up (times 1%nat) (times 2%nat) agent user_query (3 # 10) ;;
           match unpack_pair r with
           | Raise e => raise e
           | Ok (is_match, match_confidence) =>
               ret (Some {| an_agent_name := agent;
                            is_suitable := is_match;
                            an_confidence := round py 3 match_confidence;
                            an_recommendation :=
                              if is_match then "Keep current agent"
                              else "Consider switching agents" |})
           end
       | None => ret None
       end ;;
     if get_recommendations
     then
       r <- find_best_agents py up (times 3%nat) (times 4%nat) user_query top_n ;;
       match as_agents r with
       | Raise e => raise e
       | Ok best_agents =>
           ret (AnalyzeSuccess user_query (isoformat (times 0%nat)) "success" analysis
                  (Some (imap (fun idx item => (fst item, round py 1 (snd item), (idx + 1)%nat))
                              best_agents))
                  (route py current_agent best_agents))
       end
     else ret (AnalyzeSuccess user_query (isoformat (times 0%nat)) "success" analysis
                              None None))%py
    (fun e => ret (AnalyzeError user_query (str_exn e) "error" "use_default" "presaleskb")).

End Recommender.

(** ** The in-memory log: [app_logs], [InMemoryLogHandler], [/logs] *)

Module Logs.

(** The attributes of a [logging.LogRecord] the handler reads. *)
Record LogRecord : Type := {
  created : Q;
  levelname : string;
  getMessage : string;
  module : string;
  funcName : string
}.

(** An entry of [app_logs]; [A] is the type of its ['timestamp']: a float in
    the buffer, a string in the endpoint's reply. *)
Record LogEntry (A : Type) : Type := {
  timestamp : A;
  level : string;
  message : string;
  module_name : string;
  function : string
}.

Arguments timestamp {A}.
Arguments level {A}.
Arguments message {A}.
Arguments module_name {A}.
Arguments function {A}.

Definition maxlen : nat := 100.

(** [deque.append] on a [deque(maxlen=100)]: once the deque is full, the
    item at the left end is discarded. *)
Definition append {A} (app_logs : list A) (x : A) : list A :=
  if (maxlen <=? length app_logs)%nat then drop 1 app_logs ++ [x] else app_logs ++ [x].

(** [InMemoryLogHandler.emit] *)
Definition emit (record : LogRecord) (app_logs : list (LogEntry Q)) : list (LogEntry Q) :=
  append app_logs
         {| timestamp := created record; level := levelname record;
            message := getMessage record; module_name := module record;
            function := funcName record |}.

(** [l[start:]], for either sign of [start]. *)
Definition slice_from {A} (l : list A) (start : Z) : list A :=
  if (0 <=? start)%Z then drop (Z.to_nat start) l
  else drop (length l - Z.to_nat (- start)) l.

Inductive Reply : Type :=
| LogsSuccess (logs : list (LogEntry string)) (count total_available : nat)
| LogsError (message : string).

(** [datetime.fromtimestamp(log['timestamp']).isoformat()] raises for a
    timestamp out of the platform's range: [None]. *)
Fixpoint format_logs (fromtimestamp : Q -> option string) (recent_logs : list (LogEntry Q))
  : res exn (list (LogEntry string)) :=
  match recent_logs with
  | [] => Ok []
  | log :: rest =>
      match fromtimestamp (timestamp log) with
      | None => Raise (Exception "timestamp out of range")
      | Some iso =>
          match format_logs fromtimestamp rest with
          | Ok formatted_logs =>
              Ok ({| timestamp := iso; level := level log; message := message log;
                     module_name := module_name log; function := function log |}
                    :: formatted_logs)
          | Raise e => Raise e
          end
      end
  end.

Definition get_application_logs (fromtimestamp : Q -> option string)
    (app_logs : list (LogEntry Q)) (limit : Z) : Reply :=
  let recent_logs := slice_from app_logs (- limit) in
  match format_logs fromtimestamp recent_logs with
  | Ok formatted_logs =>
      LogsSuccess formatted_logs (length formatted_logs) (length app_logs)
  | Raise e => LogsError match e with Exception m => m | _ => "" end
  end.

End Logs.

(** ** Analysis in the background: [/api/website/full-analysis-async] and
    [/api/website/task/{task_id}] *)

Module Background.

Import Orchestrator.

(** An entry of [background_results]. *)
Record Entry : Type := {
  e_status : string;
  e_url : string;
  e_session_id : string;
  started_at : string;
  e_analysis : SubResult;
  e_screenshot : SubResult;
  e_favicon : SubResult;
  e_overall_status : option string;
  completed_at : option string;
  e_error : option string
}.

(** [background_results], module level. *)
Definition St : Type := gmap string Entry.

Definition pending : SubResult := {| status := "pending"; message := ""; body := "" |}.

Inductive Accepted : Type :=
| Started (task_id status message check_url url started_at : string).

(** The endpoint up to its [return]: the entry is written before the
    background coroutine is scheduled, and the coroutine has not run yet
    when the endpoint returns. *)
Definition full_website_analysis_async (task_id session_id started_at returned_at url : string)
  : Py St exn Accepted :=
  (modify (fun s : gmap string Entry =>
             <[task_id := {| e_status := "started"; e_url := url;
                            e_session_id := session_id; started_at := started_at;
                            e_analysis := pending; e_screenshot := pending;
                            e_favicon := pending; e_overall_status := None;
                            completed_at := None; e_error := None |}]> s) ;;;
   ret (Started task_id "accepted" "Analysis started in background"
                ("/api/website/task/" +:+ task_id) url returned_at))%py.










(** [GET /api/website/task/{task_id}] *)
Definition get_background_task_result (task_id : string) : Py St exn Entry :=
  fun s : gmap string Entry => match s !! task_id with
           | Some e => (s, Ok e)
           | None => (s, Raise (HTTPException 404 "Task not found"))
           end.

End Background.

(** ** More concrete inputs *)

Module Samples.

Definition descriptions (agent_name : string) : option string :=
  if String.eqb agent_name "presaleskb" then Some "Pre-sales consultant"%string else None.

(** A request that carries its own [request_id]. *)
Definition request_with_id (request_id user_mssg : string) : Router.N8nMainRequest :=
  {| Router.user_id := "u1"; Router.user_mssg := user_mssg;
     Router.req_session_id := "s1"; Router.req_agent_name := "presaleskb";
     Router.timestamp_of_call_made := None; Router.request_id := Some request_id |}.

Definition log_record : Logs.LogRecord :=
  {| Logs.created := 5; Logs.levelname := "INFO"; Logs.getMessage := "Application started";
     Logs.module := "main"; Logs.funcName := "health_check" |}.

Definition log_entry (created : Q) : Logs.LogEntry Q :=
  {| Logs.timestamp := created; Logs.level := "INFO"; Logs.message := "Application started";
     Logs.module_name := "main"; Logs.function := "health_check" |}.

Definition analyze_request : Recommender.AnalyzeRequest :=
  {| Recommender.q_user_query := Some Fixtures.pricing_query;
     Recommender.q_current_agent := Some "socialmediakb"%string;
     Recommender.q_get_recommendations := None;
     Recommender.q_top_n := None |}.

End Samples.

(* ===================================================================== *)
(** * Part II: properties                                                  *)
(* ===================================================================== *)

(** ** Frame rules of the monad *)

Section Frame.

Context {S E B : Type} (proj : S -> B).

Lemma preserves_ret {A} (a : A) : preserves proj (@ret S E A a).
Proof. done. Qed.

Lemma preserves_raise {A} (e : E) : preserves proj (@raise S E A e).
Proof. done. Qed.

Lemma preserves_get : preserves proj (@get S E).
Proof. done. Qed.

Lemma preserves_bind {A A'} (m : Py S E A) (k : A -> Py S E A') :
  preserves proj m -> (forall a, preserves proj (k a)) -> preserves proj (bind m k).
Proof.
  intros Hm Hk s. unfold bind. specialize (Hm s).
  destruct (m s) as [s' [a|e]]; cbn in *; [|done]. by rewrite Hk.
Qed.

Lemma preserves_try_except {A} (m : Py S E A) (h : E -> Py S E A) :
  preserves proj m -> (forall e, preserves proj (h e)) -> preserves proj (try_except m h).
Proof.
  intros Hm Hh s. unfold try_except. specialize (Hm s).
  destruct (m s) as [s' [a|e]]; cbn in *; [done|]. by rewrite Hh.
Qed.

End Frame.

Lemma bind_ok {S E A B} (m : Py S E A) (k : A -> Py S E B) (s s' : S) (a : A) :
  m s = (s', Ok a) -> bind m k s = k a s'.
Proof. intros H. unfold bind. by rewrite H. Qed.

(** ** Comparisons *)

Lemma Qltb_lt (x y : Q) : Qltb x y = true <-> x < y.
Proof.
  unfold Qltb. rewrite negb_true_iff, <- not_true_iff_false, Qle_bool_iff.
  split; [apply Qnot_le_lt | apply Qlt_not_le].
Qed.

Lemma Qltb_ge (x y : Q) : Qltb x y = false <-> y <= x.
Proof.
  unfold Qltb. rewrite negb_false_iff. apply Qle_bool_iff.
Qed.

Lemma Qleb_le (x y : Q) : Qleb x y = true <-> x <= y.
Proof. apply Qle_bool_iff. Qed.

(** ** Facts about the string methods *)

Section StringFacts.

Import PyStr.

Lemma startswith_app (p s : list ascii) :
  startswith p s = true <-> exists b, s = p ++ b.
Proof.
  revert s. induction p as [|a p IH]; intros s; simpl.
  - split; [intros _; by exists s | done].
  - destruct s as [|c s].
    + split; [done | intros [b Hb]; discriminate].
    + rewrite andb_true_iff, Ascii.eqb_eq, IH. split.
      * intros [-> [b ->]]. by exists b.
      * intros [b Hb]. injection Hb as -> ->. split; [done | by exists b].
Qed.

Lemma contains_app (p s : list ascii) :
  contains p s = true <-> exists a b, s = a ++ p ++ b.
Proof.
  induction s as [|c s IH]; simpl.
  - rewrite orb_false_r, startswith_app. split.
    + intros [b Hb]. by exists [], b.
    + intros [a [b Hb]]. destruct a; [by exists b | discriminate].
  - rewrite orb_true_iff, startswith_app, IH. split.
    + intros [[b Hb] | [a [b Hb]]].
      * by exists [], b.
      * exists (c :: a), b. by rewrite Hb.
    + intros [a [b Hb]]. destruct a as [|c' a]; simpl in Hb.
      * left. by exists b.
      * right. injection Hb as -> ->. by exists a, b.
Qed.

Lemma contains_rev (p s : list ascii) :
  contains (rev p) (rev s) = contains p s.
Proof.
  apply eq_true_iff_eq. rewrite !contains_app. split.
  - intros [a [b Hb]]. exists (rev b), (rev a).
    rewrite <- (rev_involutive s), Hb, !rev_app_distr, rev_involutive.
    by rewrite <- app_assoc.
  - intros [a [b ->]]. exists (rev b), (rev a).
    by rewrite !rev_app_distr, <- app_assoc.
Qed.

(** A pattern that starts with a non-blank character lies past the
    leading whitespace. *)
Lemma contains_lstrip (c : ascii) (p s : list ascii) :
  isspace c = false ->
  contains (c :: p) (lstrip s) = contains (c :: p) s.
Proof.
  intros Hc. induction s as [|x s IH]; [done|].
  cbn [lstrip]. destruct (isspace x) eqn:Hx; [|done].
  rewrite IH. cbn [contains startswith].
  destruct (Ascii.eqb c x) eqn:Hcx; [|done].
  apply Ascii.eqb_eq in Hcx. congruence.
Qed.

Lemma contains_rstrip (c : ascii) (p s : list ascii) :
  isspace c = false ->
  contains (p ++ [c]) (rstrip s) = contains (p ++ [c]) s.
Proof.
  intros Hc. unfold rstrip.
  rewrite <- (contains_rev (p ++ [c]) (rev (lstrip (rev s)))), rev_involutive.
  rewrite <- (contains_rev (p ++ [c]) s), rev_app_distr. simpl.
  by apply contains_lstrip.
Qed.

Lemma contains_strip (p s : list ascii) :
  Spec.solid p = true -> contains p (strip s) = contains p s.
Proof.
  unfold Spec.solid, strip. intros Hp.
  destruct p as [|c p]; [done|].
  destruct (rev (c :: p)) as [|d q] eqn:Hrev; [done|].
  apply andb_true_iff in Hp as [Hc Hd].
  apply negb_true_iff in Hc, Hd.
  assert (c :: p = rev q ++ [d]) as Hcp.
  { rewrite <- (rev_involutive (c :: p)), Hrev. done. }
  rewrite Hcp, contains_rstrip by done.
  rewrite <- Hcp. by apply contains_lstrip.
Qed.

Lemma split_lstrip (s : list ascii) : split (lstrip s) = split s.
Proof.
  unfold split. induction s as [|x s IH]; [done|].
  cbn [lstrip split_from]. destruct (isspace x) eqn:Hx; [done|].
  cbn [split_from]. by rewrite Hx.
Qed.

Lemma split_from_blank_tail (cur s ws : list ascii) :
  forallb isspace ws = true ->
  split_from cur (s ++ ws) = split_from cur s.
Proof.
  intros Hws. revert cur. induction s as [|x s IH]; intros cur.
  - simpl. revert cur. induction ws as [|w ws IHw]; intros cur; [done|].
    simpl in Hws. apply andb_true_iff in Hws as [Hw Hws].
    cbn [split_from]. rewrite Hw. destruct cur.
    + by rewrite IHw.
    + rewrite (IHw Hws []). done.
  - cbn [app split_from]. destruct (isspace x).
    + destruct cur; by rewrite IH.
    + apply IH.
Qed.

Lemma lstrip_decompose (s : list ascii) :
  exists ws, forallb isspace ws = true /\ s = ws ++ lstrip s.
Proof.
  induction s as [|x s [ws [Hws Hs]]].
  - by exists [].
  - cbn [lstrip]. destruct (isspace x) eqn:Hx.
    + exists (x :: ws). simpl. rewrite Hx, Hws. split; [done|]. by rewrite <- Hs.
    + by exists [].
Qed.

Lemma rstrip_decompose (s : list ascii) :
  exists ws, forallb isspace ws = true /\ s = rstrip s ++ ws.
Proof.
  destruct (lstrip_decompose (rev s)) as [ws [Hws Hs]].
  exists (rev ws). split.
  - rewrite forallb_forall in *. intros x Hx. apply Hws. by apply in_rev.
  - unfold rstrip. by rewrite <- rev_app_distr, <- Hs, rev_involutive.
Qed.

Lemma split_rstrip (s : list ascii) : split (rstrip s) = split s.
Proof.
  destruct (rstrip_decompose s) as [ws [Hws Hs]].
  unfold split. rewrite Hs at 2. by rewrite split_from_blank_tail.
Qed.

(** [s.strip().split() == s.split()] *)
Lemma split_strip (s : list ascii) : split (strip s) = split s.
Proof. unfold strip. by rewrite split_rstrip, split_lstrip. Qed.

End StringFacts.

(** ** AgentMatcher.check_agent_match *)

Section CheckAgentMatch.

Import Matcher.

Lemma basic_patterns_solid :
  forallb (fun p => Spec.solid (PyStr.chars p)) basic_patterns = true.
Proof. vm_compute. reflexivity. Qed.

(** The classification computed on [user_query.lower().strip()] is the one
    the specification words on the lowercased query. *)
Lemma is_basic_classified (q : string) : is_basic q = Spec.classified_basic q.
Proof.
  unfold is_basic, Spec.classified_basic. cbv zeta.
  rewrite split_strip. f_equal.
  pose proof basic_patterns_solid as Hs.
  induction basic_patterns as [|p ps IH]; [done|].
  simpl in Hs. apply andb_true_iff in Hs as [Hp Hps].
  simpl. rewrite contains_strip by done. by rewrite IH.
Qed.

Lemma floor_is_max (x y : Q) : (if Qltb x y then y else x) = Qmax x y.
Proof.
  unfold Qmax, GenericMinMax.gmax.
  destruct (Qltb x y) eqn:H.
  - apply Qltb_lt in H. rewrite Qlt_alt in H. by rewrite H.
  - apply Qltb_ge in H. destruct (x ?= y) eqn:Hc; try done.
    rewrite <- Qlt_alt in Hc. lra.
Qed.

Lemma cache_lookup_miss (self : Self) (key : string) (now : Q) :
  Spec.cache_miss self key now -> cache_lookup key now self = (self, Ok None).
Proof.
  unfold Spec.cache_miss, cache_lookup. intros H.
  destruct (_cache self !! key) as [e|] eqn:He; [|done].
  specialize (H e eq_refl). apply Qltb_ge in H. by rewrite H.
Qed.

Lemma cache_lookup_hit (self : Self) (key : string) (now : Q) (e : CacheEntry) :
  _cache self !! key = Some e -> now - timestamp e < _cache_ttl ->
  cache_lookup key now self = (self, Ok (Some (result e))).
Proof.
  unfold cache_lookup. intros -> H. apply Qltb_lt in H. by rewrite H.
Qed.

(** C1. For an agent with indexed documents and a query classified basic,
    a call that misses the cache and whose upstream calls succeed returns
    the pair (true, max(similarity, 0.4)), whatever the similarity and the
    threshold; in particular the confidence is at least 0.4. *)
Theorem check_agent_match_basic
    (up : Upstream) (self : Self) (now_lookup now_store : Q)
    (agent_name user_query : string) (threshold : Q)
    (query_embedding : Embedding) (data : list Q) :
  agent_documents up agent_name = Some true ->
  Spec.cache_miss self (agent_match_key agent_name user_query) now_lookup ->
  get_query_embedding up user_query = Some query_embedding ->
  match_agent_documents up query_embedding threshold 1 agent_name = Some data ->
  Spec.classified_basic user_query = true ->
  let similarity := hd 0 data in
  snd (check_agent_match up now_lookup now_store agent_name user_query threshold self)
    = Ok (VPair true (Qmax similarity (2 # 5)))
  /\ 2 # 5 <= Qmax similarity (2 # 5).
Proof.
  intros Hdocs Hmiss Hemb Hdata Hbasic similarity. split.
  - unfold check_agent_match, try_except, bind.
    unfold remote at 1. rewrite Hdocs. cbn [negb].
    rewrite cache_lookup_miss by exact Hmiss.
    unfold remote. rewrite Hemb, Hdata.
    rewrite is_basic_classified, Hbasic, floor_is_max.
    unfold cache_store, modify, ret. simpl. by destruct data.
  - apply Q.le_max_r.
Qed.

End CheckAgentMatch.

Section CheckAgentMatchCache.

Import Matcher.

Lemma fresh_self_misses (key : string) (now : Q) :
  Spec.cache_miss Fixtures.fresh_self key now.
Proof. intros e He. simpl in He. rewrite lookup_empty in He. discriminate. Defined.

(** The floor at work: a similarity of 0.2 on the query "hi". *)
Lemma check_agent_match_basic_witness :
  snd (check_agent_match Fixtures.weak_upstream 0 0 "presaleskb" "hi" (3 # 10)
                         Fixtures.fresh_self)
    = Ok (VPair true (Qmax (1 # 5) (2 # 5)))
  /\ 2 # 5 <= Qmax (1 # 5) (2 # 5).
Proof.
  apply (check_agent_match_basic Fixtures.weak_upstream Fixtures.fresh_self 0 0
           "presaleskb" "hi" (3 # 10) [1 # 2; 1 # 4] [1 # 5]);
    try reflexivity.
  apply fresh_self_misses.
Defined.

Lemma check_agent_match_no_documents
    (up : Upstream) (self : Self) (now_lookup now_store : Q)
    (agent_name user_query : string) (threshold : Q) :
  agent_documents up agent_name = Some false ->
  check_agent_match up now_lookup now_store agent_name user_query threshold self
  = ({| _cache := _cache self; calls := calls self ++ [AgentDocuments agent_name] |},
     Ok (VBool false)).
Proof.
  intros H. unfold check_agent_match, try_except, bind, remote. by rewrite H.
Qed.

(** C5. For an agent without indexed documents the call ends at once: the
    only remote call is the document check (no embedding, no similarity
    lookup).  What it returns is the bare [False], not the pair
    (False, 0.0); a caller that unpacks two values raises on it. *)
Theorem check_agent_match_no_documents_bare_false :
  check_agent_match Fixtures.upstream 0 0 "ghostkb" "hello" (3 # 10) Fixtures.fresh_self
  = ({| _cache := ∅; calls := [AgentDocuments "ghostkb"] |}, Ok (VBool false))
  /\ VBool false <> VPair false 0
  /\ unpack_pair (VBool false)
     = Raise (Exception "cannot unpack non-iterable bool object").
Proof.
  split; [|split].
  - by rewrite check_agent_match_no_documents.
  - discriminate.
  - reflexivity.
Qed.

Lemma check_agent_match_hit
    (up : Upstream) (self : Self) (now_lookup now_store : Q)
    (agent_name user_query : string) (threshold : Q) (e : CacheEntry) :
  agent_documents up agent_name = Some true ->
  _cache self !! agent_match_key agent_name user_query = Some e ->
  now_lookup - timestamp e < _cache_ttl ->
  check_agent_match up now_lookup now_store agent_name user_query threshold self
  = ({| _cache := _cache self; calls := calls self ++ [AgentDocuments agent_name] |},
     Ok (result e)).
Proof.
  intros Hdocs He Hage. unfold check_agent_match, try_except, bind.
  unfold remote at 1. rewrite Hdocs. cbn [negb].
  rewrite (cache_lookup_hit _ _ _ e) by done. reflexivity.
Qed.

Lemma check_agent_match_computed
    (up : Upstream) (self : Self) (now_lookup now_store : Q)
    (agent_name user_query : string) (threshold : Q)
    (query_embedding : Embedding) (data : list Q) :
  agent_documents up agent_name = Some true ->
  Spec.cache_miss self (agent_match_key agent_name user_query) now_lookup ->
  get_query_embedding up user_query = Some query_embedding ->
  match_agent_documents up query_embedding threshold 1 agent_name = Some data ->
  exists m c,
    check_agent_match up now_lookup now_store agent_name user_query threshold self
    = ({| _cache := <[agent_match_key agent_name user_query :=
                       {| result := VPair m c; timestamp := now_store |}]> (_cache self);
          calls := calls self ++ [AgentDocuments agent_name; QueryEmbedding user_query;
                                  MatchAgentDocuments threshold 1 agent_name] |},
       Ok (VPair m c)).
Proof.
  intros Hdocs Hmiss Hemb Hdata. unfold check_agent_match, try_except, bind.
  unfold remote at 1. rewrite Hdocs. cbn [negb].
  rewrite cache_lookup_miss by exact Hmiss.
  unfold remote. rewrite Hemb, Hdata.
  destruct (is_basic user_query);
    eexists _, _; unfold cache_store, modify, ret; simpl;
    rewrite <- !app_assoc; reflexivity.
Qed.

(** C6, as amended.  When a call for (agent, query) computed and stored its
    result (the agent has documents, the cache missed, the upstream calls
    succeeded), a second call for the same agent and query made less than
    300 seconds after the entry was stored, the agent still having
    documents, returns the identical pair from the cache: its only remote
    call is the document check, and the cache is unchanged. *)
Theorem check_agent_match_cached
    (up1 up2 : Upstream) (self : Self) (lookup1 store1 lookup2 store2 : Q)
    (agent_name user_query : string) (threshold1 threshold2 : Q)
    (query_embedding : Embedding) (data : list Q) :
  agent_documents up1 agent_name = Some true ->
  Spec.cache_miss self (agent_match_key agent_name user_query) lookup1 ->
  get_query_embedding up1 user_query = Some query_embedding ->
  match_agent_documents up1 query_embedding threshold1 1 agent_name = Some data ->
  agent_documents up2 agent_name = Some true ->
  lookup2 - store1 < 300 ->
  let first := check_agent_match up1 lookup1 store1 agent_name user_query threshold1 self in
  let second := check_agent_match up2 lookup2 store2 agent_name user_query threshold2
                                  (fst first) in
  (exists m c, snd first = Ok (VPair m c))
  /\ snd second = snd first
  /\ calls (fst second) = calls (fst first) ++ [AgentDocuments agent_name]
  /\ _cache (fst second) = _cache (fst first).
Proof.
  intros Hdocs1 Hmiss Hemb Hdata Hdocs2 Hage first second.
  destruct (check_agent_match_computed up1 self lookup1 store1 agent_name user_query
              threshold1 query_embedding data Hdocs1 Hmiss Hemb Hdata) as (m & c & Hfirst).
  subst second first. rewrite Hfirst. cbn [fst snd].
  rewrite (check_agent_match_hit _ _ _ _ _ _ _
             {| result := VPair m c; timestamp := store1 |}); cbn [_cache calls timestamp].
  - repeat split; eauto.
  - done.
  - apply lookup_insert_eq.
  - exact Hage.
Qed.

(** A second call 299 seconds after the store, with the embedding service
    down and another threshold. *)
Lemma check_agent_match_cached_witness :
  let first := check_agent_match Fixtures.upstream 0 1 "presaleskb"
                                 Fixtures.pricing_query (3 # 10) Fixtures.fresh_self in
  let second := check_agent_match Fixtures.embedding_down 300 300 "presaleskb"
                                  Fixtures.pricing_query (1 # 2) (fst first) in
  (exists m c, snd first = Ok (VPair m c))
  /\ snd second = snd first
  /\ calls (fst second) = calls (fst first) ++ [AgentDocuments "presaleskb"]
  /\ _cache (fst second) = _cache (fst first).
Proof.
  apply (check_agent_match_cached Fixtures.upstream Fixtures.embedding_down
           Fixtures.fresh_self 0 1 300 300 "presaleskb" Fixtures.pricing_query
           (3 # 10) (1 # 2) [1 # 2; 1 # 4] [9 # 10]);
    try reflexivity.
  apply fresh_self_misses.
Defined.

(** C6 as stated fails.  (i) The first of the two calls may itself be
    answered from an entry stored earlier: a second call 101 seconds later
    finds the entry expired, calls the embedding and similarity services
    and returns another pair.  (ii) A first call that fails upstream stores
    nothing, so the second call computes again. *)
Lemma check_agent_match_twice_counterexample :
  let up := Fixtures.upstream in
  let q := Fixtures.pricing_query in
  (let first := check_agent_match up 299 299 "presaleskb" q (3 # 10) Fixtures.aged_self in
   let second := check_agent_match up 400 400 "presaleskb" q (3 # 10) (fst first) in
   400 - 299 < 300
   /\ snd first = Ok (VPair false (1 # 10))
   /\ snd second = Ok (VPair true (9 # 10))
   /\ calls (fst second)
      = calls (fst first) ++ [AgentDocuments "presaleskb"; QueryEmbedding q;
                              MatchAgentDocuments (3 # 10) 1 "presaleskb"])
  /\
  (let first := check_agent_match Fixtures.embedding_down 0 0 "presaleskb" q (3 # 10)
                                  Fixtures.fresh_self in
   let second := check_agent_match up 10 10 "presaleskb" q (3 # 10) (fst first) in
   10 - 0 < 300
   /\ snd first = Ok (VPair false 0)
   /\ snd second = Ok (VPair true (9 # 10))
   /\ calls (fst second)
      = calls (fst first) ++ [AgentDocuments "presaleskb"; QueryEmbedding q;
                              MatchAgentDocuments (3 # 10) 1 "presaleskb"]).
Proof.
  cbv zeta. split; (split; [reflexivity|]); vm_compute; repeat split.
Qed.

End CheckAgentMatchCache.

(** ** AgentMatcher.find_best_agents *)

Section FindBestAgents.

Import Matcher.

Lemma update_score_keys (scores : list (string * Q)) (a : string) (v : Q) :
  (update_score scores a v).*1 = if decide (a ∈ scores.*1) then scores.*1 else scores.*1 ++ [a].
Proof.
  induction scores as [|[b s] rest IH]; [done|].
  cbn [update_score]. destruct (String.eqb_spec b a) as [->|Hne].
  - cbn. rewrite decide_True by (by left). done.
  - cbn. rewrite IH. destruct (decide (a ∈ rest.*1)) as [Hin|Hout].
    + rewrite decide_True by (by right). done.
    + rewrite decide_False; [done|].
      intros [?|?]%elem_of_cons; [congruence | done].
Qed.

Lemma update_score_elem (scores : list (string * Q)) (a : string) (v : Q) x sc :
  (x, sc) ∈ update_score scores a v -> (x, sc) ∈ scores \/ (x = a /\ sc = v).
Proof.
  induction scores as [|[b s] rest IH]; cbn [update_score].
  - rewrite list_elem_of_singleton. intros [= -> ->]. by right.
  - destruct (String.eqb_spec b a) as [->|Hne].
    + rewrite !elem_of_cons. intros [[= -> ->]|H].
      * destruct (Qltb s v); [by right | by left; left].
      * left. by right.
    + rewrite !elem_of_cons. intros [H|H]; [by left; left|].
      destruct (IH H) as [?|?]; [left; by right | by right].
Qed.

Lemma update_score_other (scores : list (string * Q)) (a : string) (v : Q) x sc :
  x <> a -> (x, sc) ∈ update_score scores a v -> (x, sc) ∈ scores.
Proof. intros Hne H. destruct (update_score_elem _ _ _ _ _ H) as [?|[? _]]; done. Qed.

Lemma update_score_same (scores : list (string * Q)) (a : string) (v sc : Q) :
  NoDup (scores.*1) ->
  (a, sc) ∈ update_score scores a v ->
  (sc = v /\ forall old, (a, old) ∈ scores -> old <= v)
  \/ ((a, sc) ∈ scores /\ v <= sc).
Proof.
  induction scores as [|[b s] rest IH]; cbn [update_score]; intros Hnd.
  - rewrite list_elem_of_singleton. intros [= ->]. left. split; [done|].
    intros old H. by apply elem_of_nil in H.
  - cbn in Hnd. apply NoDup_cons in Hnd as [Hb Hnd].
    destruct (String.eqb_spec b a) as [->|Hne].
    + assert (forall o, (a, o) ∉ rest) as Hrest.
      { intros o Ho. apply Hb. apply list_elem_of_fmap. by exists (a, o). }
      rewrite elem_of_cons. intros [[= ->]|H]; [|by apply Hrest in H].
      destruct (Qltb s v) eqn:Hsv.
      * left. split; [done|]. intros old Hold.
        apply elem_of_cons in Hold as [[= ->]|Hold]; [|by apply Hrest in Hold].
        apply Qltb_lt in Hsv. lra.
      * right. split; [by left|]. by apply Qltb_ge in Hsv.
    + rewrite elem_of_cons. intros [[= ? ?]|H]; [congruence|].
      destruct (IH Hnd H) as [[-> Hold]|[Hin Hle]].
      * left. split; [done|]. intros old Ho.
        apply elem_of_cons in Ho as [[= ? ?]|Ho]; [congruence | by apply Hold].
      * right. split; [by right | done].
Qed.

Lemma score_step (py : Builtins) (prefix scores : list (string * Q)) (a : string) (r : Q) :
  Spec.best_products py prefix scores ->
  Spec.best_products py (prefix ++ [(a, r)]) (update_score scores a (float_mul py r 100)).
Proof.
  intros (Hnd & Hall & Hmax). split; [|split].
  - rewrite update_score_keys. destruct (decide (a ∈ scores.*1)); [done|].
    apply NoDup_app. split; [done|]. split; [|apply NoDup_singleton].
    intros x Hx Hx'. apply list_elem_of_singleton in Hx'. by subst.
  - intros x r' Hx. rewrite update_score_keys.
    apply elem_of_app in Hx as [Hx|Hx].
    + apply Hall in Hx. destruct (decide (a ∈ scores.*1)); [done|].
      apply elem_of_app. by left.
    + apply list_elem_of_singleton in Hx. injection Hx as -> ->.
      destruct (decide (a ∈ scores.*1)); [done|]. apply elem_of_app. right. by left.
  - intros x sc Hx. destruct (decide (x = a)) as [->|Hne].
    + destruct (update_score_same _ _ _ _ Hnd Hx) as [[-> Hold]|[Hin Hle]].
      * split.
        { exists r. split; [|done]. apply elem_of_app. right. by left. }
        intros r' Hr'. apply elem_of_app in Hr' as [Hr'|Hr'].
        -- pose proof (Hall _ _ Hr') as Hkey.
           apply list_elem_of_fmap in Hkey as [[a' old] [Heq Hin]]. cbn in Heq. subst a'.
           destruct (Hmax _ _ Hin) as [_ Hub]. specialize (Hub _ Hr').
           specialize (Hold _ Hin). lra.
        -- apply list_elem_of_singleton in Hr'. injection Hr' as ->. lra.
      * destruct (Hmax _ _ Hin) as [[r0 [Hr0 ->]] Hub]. split.
        { exists r0. split; [|done]. apply elem_of_app. by left. }
        intros r' Hr'. apply elem_of_app in Hr' as [Hr'|Hr'].
        -- by apply Hub.
        -- apply list_elem_of_singleton in Hr'. injection Hr' as ->. done.
    + apply update_score_other in Hx; [|done].
      destruct (Hmax _ _ Hx) as [[r0 [Hr0 ->]] Hub]. split.
      { exists r0. split; [|done]. apply elem_of_app. by left. }
      intros r' Hr'. apply elem_of_app in Hr' as [Hr'|Hr'].
      * by apply Hub.
      * apply list_elem_of_singleton in Hr'. congruence.
Qed.

Lemma score_agents_from (py : Builtins) (data prefix scores : list (string * Q)) :
  Spec.best_products py prefix scores ->
  Spec.best_products py (prefix ++ data)
    (fold_left (fun agent_scores item =>
                  update_score agent_scores (fst item) (float_mul py (snd item) 100))
               data scores).
Proof.
  revert prefix scores. induction data as [|[a r] data IH]; intros prefix scores H.
  - by rewrite app_nil_r.
  - cbn [fold_left fst snd]. 
    replace (prefix ++ (a, r) :: data) with ((prefix ++ [(a, r)]) ++ data)
      by (by rewrite <- app_assoc).
    apply IH. by apply score_step.
Qed.

Lemma score_agents_best (py : Builtins) (data : list (string * Q)) :
  Spec.best_products py data (score_agents py data).
Proof.
  apply (score_agents_from py data [] []). split; [apply NoDup_nil_2|].
  split; intros ? ? H; by apply elem_of_nil in H.
Qed.

Lemma insert_desc_perm (x : string * Q) (l : list (string * Q)) :
  insert_desc x l ≡ₚ x :: l.
Proof.
  induction l as [|y l IH]; [done|]. cbn [insert_desc].
  destruct (Qltb x.2 y.2); [|done]. rewrite IH. apply Permutation_swap.
Qed.

Lemma sorted_desc_perm (l : list (string * Q)) : sorted_desc l ≡ₚ l.
Proof.
  induction l as [|x l IH]; [done|]. cbn. by rewrite insert_desc_perm, IH.
Qed.

Lemma insert_desc_descending (x : string * Q) (l : list (string * Q)) :
  Spec.descending l -> Spec.descending (insert_desc x l).
Proof.
  unfold Spec.descending. induction l as [|y l IH]; intros Hl; cbn [insert_desc].
  - repeat constructor.
  - apply StronglySorted_cons in Hl as [Hy Hl].
    destruct (Qltb x.2 y.2) eqn:Hxy.
    + apply StronglySorted_cons. split; [|by apply IH].
      rewrite insert_desc_perm. constructor; [|done].
      apply Qltb_lt in Hxy. lra.
    + apply Qltb_ge in Hxy. apply StronglySorted_cons. split.
      * constructor; [done|]. eapply Forall_impl; [exact Hy|].
        intros z Hz. cbn in Hz. lra.
      * apply StronglySorted_cons. done.
Qed.

Lemma sorted_desc_descending (l : list (string * Q)) : Spec.descending (sorted_desc l).
Proof.
  induction l as [|x l IH]; [constructor|]. cbn. by apply insert_desc_descending.
Qed.

Lemma best_products_perm (py : Builtins) (rows l l' : list (string * Q)) :
  l ≡ₚ l' -> Spec.best_products py rows l -> Spec.best_products py rows l'.
Proof.
  intros Hp (Hnd & Hall & Hmax). split; [|split].
  - by rewrite <- Hp.
  - intros a r Hr. rewrite <- Hp. by eapply Hall.
  - intros a sc Hin. apply Hmax. by rewrite Hp.
Qed.

Lemma largest_similarity_or_none (rows : list (string * Q)) (a : string) :
  (forall r, (a, r) ∉ rows)
  \/ exists r, (a, r) ∈ rows /\ forall r', (a, r') ∈ rows -> r' <= r.
Proof.
  induction rows as [|[b q] rows IH].
  - left. intros r Hr. by apply elem_of_nil in Hr.
  - destruct (String.eqb_spec b a) as [->|Hne].
    + right. destruct IH as [Hnone|(r & Hr & Hub)].
      * exists q. split; [by left|]. intros r' Hr'.
        apply elem_of_cons in Hr' as [[= ->]|Hr']; [lra | by apply Hnone in Hr'].
      * destruct (Qlt_le_dec r q) as [Hlt|Hle].
        -- exists q. split; [by left|]. intros r' Hr'.
           apply elem_of_cons in Hr' as [[= ->]|Hr']; [lra|].
           specialize (Hub _ Hr'). lra.
        -- exists r. split; [by right|]. intros r' Hr'.
           apply elem_of_cons in Hr' as [[= ->]|Hr']; [done | by apply Hub].
    + destruct IH as [Hnone|(r & Hr & Hub)].
      * left. intros r Hr.
        apply elem_of_cons in Hr as [[= ? ?]|Hr]; [congruence | by apply Hnone in Hr].
      * right. exists r. split; [by right|]. intros r' Hr'.
        apply elem_of_cons in Hr' as [[= ? ?]|Hr']; [congruence | by apply Hub].
Qed.

Lemma largest_similarity (rows : list (string * Q)) (a : string) (r0 : Q) :
  (a, r0) ∈ rows ->
  exists r, (a, r) ∈ rows /\ forall r', (a, r') ∈ rows -> r' <= r.
Proof.
  intros Hin. destruct (largest_similarity_or_none rows a) as [Hnone|H]; [|done].
  by apply Hnone in Hin.
Qed.

Lemma best_products_maximum (py : Builtins) (rows agents : list (string * Q)) :
  Spec.monotone_product py ->
  Spec.best_products py rows agents -> Spec.scored_by_maximum py rows agents.
Proof.
  intros Hmono (Hnd & Hall & Hbest). split; [done|]. split; [done|].
  intros a sc Hin. destruct (Hbest a sc Hin) as [(r0 & Hr0 & ->) Hub].
  destruct (largest_similarity rows a r0 Hr0) as (r & Hr & Hmax).
  exists r. split; [done|]. split; [done|].
  apply Qle_antisym; [apply Hmono, Hmax, Hr0 | apply Hub, Hr].
Qed.

Lemma find_best_agents_hit (py : Builtins) (up : Upstream) (self : Self) (now_lookup now_store : Q)
    (user_query : string) (top_n : Z) (e : CacheEntry) :
  _cache self !! best_agents_key user_query = Some e ->
  now_lookup - timestamp e < _cache_ttl ->
  find_best_agents py up now_lookup now_store user_query top_n self = (self, Ok (result e)).
Proof.
  intros He Hage. unfold find_best_agents, try_except, bind.
  rewrite (cache_lookup_hit _ _ _ e) by done. reflexivity.
Qed.

Lemma find_best_agents_miss (py : Builtins) (up : Upstream) (self : Self) (now_lookup now_store : Q)
    (user_query : string) (top_n : Z) :
  Spec.cache_miss self (best_agents_key user_query) now_lookup ->
  let out := find_best_agents py up now_lookup now_store user_query top_n self in
  let data := Spec.candidates up user_query top_n in
  let best := slice_to (sorted_desc (score_agents py data)) top_n in
  (data = [] /\ _cache out.1 = _cache self /\ out.2 = Ok (VAgents default_agents))
  \/ (data <> []
      /\ _cache out.1 = <[best_agents_key user_query :=
                           {| result := VAgents best; timestamp := now_store |}]> (_cache self)
      /\ out.2 = Ok (VAgents best)).
Proof.
  intros Hmiss. unfold Spec.candidates, find_best_agents, try_except, bind. cbv zeta.
  rewrite cache_lookup_miss by exact Hmiss.
  unfold remote.
  destruct (get_query_embedding up user_query) as [emb|]; [|by left].
  destruct (match_agents_by_similarity up emb (3 # 10) (top_n * 5)) as [[|row data]|];
    [by left | by right | by left].
Qed.

Lemma slice_to_nonempty (l : list (string * Q)) (n : Z) :
  l <> [] -> (1 <= n)%Z -> slice_to l n <> [] /\ (Z.of_nat (length (slice_to l n)) <= n)%Z
                          /\ slice_to l n = take (Z.to_nat n) l.
Proof.
  intros Hl Hn. unfold slice_to. rewrite (proj2 (Z.leb_le 0 n)) by lia.
  split; [|split; [|done]].
  - destruct l as [|x l]; [done|]. destruct (Z.to_nat n) eqn:Hz; [lia|]. done.
  - rewrite length_take. lia.
Qed.

Lemma candidates_positive (up : Upstream) (user_query : string) (top_n : Z) :
  Spec.respects_match_count up top_n -> Spec.candidates up user_query top_n <> [] -> (1 <= top_n)%Z.
Proof.
  unfold Spec.candidates, Spec.respects_match_count. intros Hcount Hne.
  destruct (get_query_embedding up user_query) as [emb|]; [|done].
  destruct (match_agents_by_similarity up emb (3 # 10) (top_n * 5)) as [data|] eqn:Hd;
    [|done].
  specialize (Hcount _ _ Hd). destruct data; [done|]. cbn in Hcount. lia.
Qed.

Lemma best_agents_nonempty_insert (cache : gmap string CacheEntry) (key : string)
    (agents : list (string * Q)) (now : Q) :
  agents <> [] -> Spec.best_agents_nonempty cache ->
  Spec.best_agents_nonempty (<[key := {| result := VAgents agents; timestamp := now |}]> cache).
Proof.
  intros Hne Hinv q e. rewrite lookup_insert. case_decide.
  - intros [= <-]. by exists agents.
  - apply Hinv.
Qed.

Lemma find_best_agents_computed
    (py : Builtins) (up : Upstream) (self : Self) (now_lookup now_store : Q)
    (user_query : string) (top_n : Z) :
  Spec.monotone_product py ->
  Spec.respects_match_count up top_n ->
  Spec.best_agents_nonempty (_cache self) ->
  Spec.cache_miss self (best_agents_key user_query) now_lookup ->
  let out := find_best_agents py up now_lookup now_store user_query top_n self in
  exists agents,
    out.2 = Ok (VAgents agents)
    /\ agents <> []
    /\ Spec.best_agents_nonempty (_cache out.1)
    /\ (forall e, _cache self !! best_agents_key user_query = Some e ->
                  now_lookup - timestamp e < 300 -> result e = VAgents agents)
    /\ (Spec.cache_miss self (best_agents_key user_query) now_lookup ->
        (Spec.candidates up user_query top_n = [] -> agents = default_agents)
        /\ (Spec.candidates up user_query top_n <> [] ->
            exists ranked,
              Spec.scored_by_maximum py (Spec.candidates up user_query top_n) ranked
              /\ Spec.descending ranked
              /\ agents = take (Z.to_nat top_n) ranked
              /\ (Z.of_nat (length agents) <= top_n)%Z)).
Proof.
  intros Hmono Hcount Hinv Hmiss out.
  destruct (find_best_agents_miss py up self now_lookup now_store user_query top_n Hmiss)
    as [(Hnone & Hcache & Hout)|(Hsome & Hcache & Hout)]; fold out in Hcache, Hout.
  - exists default_agents. rewrite Hcache. repeat split; try done.
    intros e He Hage. specialize (Hmiss e He). unfold _cache_ttl in Hmiss. lra.
  - set (ranked := sorted_desc (score_agents py (Spec.candidates up user_query top_n))) in *.
    pose proof (candidates_positive _ _ _ Hcount Hsome) as Hpos.
    assert (Spec.scored_by_maximum py (Spec.candidates up user_query top_n) ranked) as Hmax.
    { apply best_products_maximum; [done|].
      eapply best_products_perm; [|apply score_agents_best].
      symmetry. apply sorted_desc_perm. }
    assert (ranked <> []) as Hranked.
    { destruct Hmax as (_ & Hall & _).
      destruct (Spec.candidates up user_query top_n) as [|[a r] rest]; [done|].
      intros Heq. specialize (Hall a r ltac:(by left)). rewrite Heq in Hall.
      by apply elem_of_nil in Hall. }
    destruct (slice_to_nonempty ranked top_n Hranked Hpos) as (Hne & Hlen & Htake).
    exists (slice_to ranked top_n). rewrite Hcache.
    split; [done|]. split; [done|]. split; [|split; [|split; [done|]]].
    + by apply best_agents_nonempty_insert.
    + intros e He Hage. specialize (Hmiss e He). unfold _cache_ttl in Hmiss. lra.
    + intros _. exists ranked.
      split; [exact Hmax|]. split; [apply sorted_desc_descending|]. by split.
Qed.

(** C2, as amended.  Provided the similarity service returns at most
    [match_count] = 5 * top_n rows, [find_best_agents] never returns an
    empty list, and every list it caches is non-empty.  On a fresh cache
    hit it returns the list stored by the earlier call for that query,
    whatever [top_n] is now.  On a miss: when the lookup yields no
    candidate (or a call raises) it returns exactly [('presaleskb', 50.0)];
    otherwise it gives each agent the maximum similarity of its candidates
    scaled by 100, that is the float product [r * 100] for the largest
    similarity [r] of the agent's rows (the float product being monotone
    in [r]), sorts the agents by descending score, and returns the first
    [top_n] of them, at most [top_n] entries. *)
Theorem find_best_agents_never_empty
    (py : Builtins) (up : Upstream) (self : Self) (now_lookup now_store : Q)
    (user_query : string) (top_n : Z) :
  Spec.monotone_product py ->
  Spec.respects_match_count up top_n ->
  Spec.best_agents_nonempty (_cache self) ->
  let out := find_best_agents py up now_lookup now_store user_query top_n self in
  exists agents,
    out.2 = Ok (VAgents agents)
    /\ agents <> []
    /\ Spec.best_agents_nonempty (_cache out.1)
    /\ (forall e, _cache self !! best_agents_key user_query = Some e ->
                  now_lookup - timestamp e < 300 -> result e = VAgents agents)
    /\ (Spec.cache_miss self (best_agents_key user_query) now_lookup ->
        (Spec.candidates up user_query top_n = [] -> agents = default_agents)
        /\ (Spec.candidates up user_query top_n <> [] ->
            exists ranked,
              Spec.scored_by_maximum py (Spec.candidates up user_query top_n) ranked
              /\ Spec.descending ranked
              /\ agents = take (Z.to_nat top_n) ranked
              /\ (Z.of_nat (length agents) <= top_n)%Z)).
Proof.
  intros Hmono Hcount Hinv out.
  destruct (_cache self !! best_agents_key user_query) as [e|] eqn:He.
  - destruct (Qlt_le_dec (now_lookup - timestamp e) _cache_ttl) as [Hfresh|Hold].
    + (* answered from the cache *)
      subst out. rewrite (find_best_agents_hit _ _ _ _ _ _ _ e) by done.
      destruct (Hinv _ _ He) as (agents & Hres & Hne).
      exists agents. cbn [fst snd]. rewrite Hres.
      split; [done|]. split; [done|]. split; [done|]. split.
      * by intros e' [= <-] _.
      * intros Hmiss. exfalso. specialize (Hmiss e He). unfold _cache_ttl in *. lra.
    + rewrite <- He. apply find_best_agents_computed; [done | done | done |].
      intros e' He'. congruence.
  - rewrite <- He. apply find_best_agents_computed; [done | done | done |].
    intros e' He'. congruence.
Qed.

Lemma keys_apart (agent_name user_query q : string) :
  agent_match_key agent_name user_query <> best_agents_key q.
Proof. discriminate. Qed.

Lemma check_agent_match_keeps_best_agents
    (up : Upstream) (self : Self) (now_lookup now_store : Q)
    (agent_name user_query : string) (threshold : Q) :
  Spec.best_agents_nonempty (_cache self) ->
  Spec.best_agents_nonempty
    (_cache (check_agent_match up now_lookup now_store agent_name user_query threshold self).1).
Proof.
  intros Hinv. unfold check_agent_match, try_except, bind, remote, cache_lookup.
  destruct (agent_documents up agent_name) as [[|]|]; cbn; try done.
  destruct (_cache self !! agent_match_key agent_name user_query) as [e|]; cbn.
  1: destruct (Qltb (now_lookup - timestamp e) _cache_ttl); cbn; try done.
  all: destruct (get_query_embedding up user_query) as [emb|]; cbn; try done.
  all: destruct (match_agent_documents up emb threshold 1 agent_name) as [data|];
    cbn; try done.
  all: destruct (is_basic user_query); cbn.
  all: intros q e'; rewrite lookup_insert_ne by apply keys_apart; apply Hinv.
Qed.

(** C2 as stated fails on a cache hit: the entry is keyed by the query
    alone, so a call with [top_n = 1] that follows a call with [top_n = 3]
    for the same query returns the two agents cached by the first. *)
Lemma find_best_agents_more_than_top_n :
  let first := find_best_agents Fixtures.py Fixtures.upstream 0 0 Fixtures.pricing_query 3
                                Fixtures.fresh_self in
  let second := find_best_agents Fixtures.py Fixtures.upstream 10 10 Fixtures.pricing_query 1
                                 first.1 in
  second.2 = first.2
  /\ exists agents, second.2 = Ok (VAgents agents) /\ (1 < Z.of_nat (length agents))%Z.
Proof.
  cbv zeta. split; [by vm_compute|]. eexists. split; [vm_compute; reflexivity|]. cbn. lia.
Qed.

(** Scores that tie after rounding keep the order in which their agents
    first appear in the rows: the sort is stable. *)
Lemma find_best_agents_tie_keeps_first :
  (find_best_agents Fixtures.coarse Fixtures.tied_upstream 0 0 Fixtures.pricing_query 1
                    Fixtures.fresh_self).2
  = Ok (VAgents [("presaleskb"%string, 70)]).
Proof. by vm_compute. Qed.

Lemma rounded_product_monotone : Spec.monotone_product Fixtures.coarse.
Proof.
  intros a b Hab. unfold Fixtures.coarse. cbn [float_mul].
  rewrite <- Zle_Qle. apply Qfloor_resp_le. lra.
Qed.

Lemma fixture_respects_match_count (top_n : Z) :
  (1 <= top_n)%Z -> Spec.respects_match_count Fixtures.upstream top_n.
Proof. intros Hn emb data [= <-]. cbn. lia. Defined.

Lemma exact_product_monotone : Spec.monotone_product Fixtures.py.
Proof. intros a b Hab. cbn. lra. Defined.

Lemma empty_cache_nonempty : Spec.best_agents_nonempty ∅.
Proof. intros q e He. rewrite lookup_empty in He. discriminate. Defined.

(** Three candidate rows for two agents, [top_n = 3], empty cache. *)
Lemma find_best_agents_never_empty_witness :
  let out := find_best_agents Fixtures.py Fixtures.upstream 0 0 Fixtures.pricing_query 3
                              Fixtures.fresh_self in
  exists agents,
    out.2 = Ok (VAgents agents)
    /\ agents <> []
    /\ Spec.best_agents_nonempty (_cache out.1)
    /\ (forall e, _cache Fixtures.fresh_self !! best_agents_key Fixtures.pricing_query
                  = Some e ->
                  0 - timestamp e < 300 -> result e = VAgents agents)
    /\ (Spec.cache_miss Fixtures.fresh_self (best_agents_key Fixtures.pricing_query) 0 ->
        (Spec.candidates Fixtures.upstream Fixtures.pricing_query 3 = [] ->
         agents = default_agents)
        /\ (Spec.candidates Fixtures.upstream Fixtures.pricing_query 3 <> [] ->
            exists ranked,
              Spec.scored_by_maximum Fixtures.py
                (Spec.candidates Fixtures.upstream Fixtures.pricing_query 3) ranked
              /\ Spec.descending ranked
              /\ agents = take (Z.to_nat 3) ranked
              /\ (Z.of_nat (length agents) <= 3)%Z)).
Proof.
  apply (find_best_agents_never_empty Fixtures.py Fixtures.upstream Fixtures.fresh_self 0 0
           Fixtures.pricing_query 3).
  - apply exact_product_monotone.
  - apply fixture_respects_match_count. lia.
  - apply empty_cache_nonempty.
Defined.

End FindBestAgents.

(** ** The router's duplicate check *)

Section RouterDedup.

Import Router.

Lemma keeps_now env : preserves request_cache (now env).
Proof. done. Qed.
Lemma keeps_emit e : preserves request_cache (emit e).
Proof. done. Qed.
Lemma keeps_set_handler_cache f : preserves request_cache (set_handler_cache f).
Proof. done. Qed.

Create HintDb keeps.
#[local] Hint Resolve preserves_ret preserves_raise preserves_get keeps_now keeps_emit
  keeps_set_handler_cache : keeps.

Ltac keeps_step :=
  first [ apply preserves_bind; [|intros ?]
        | apply preserves_try_except; [|intros ?]
        | progress auto with keeps
        | match goal with
          | |- preserves _ (match ?x with _ => _ end) => destruct x
          | |- preserves _ (let _ := _ in _) => cbv zeta
          end ].

Lemma keeps_get_cached_response env rid : preserves request_cache (get_cached_response env rid).
Proof. unfold get_cached_response. repeat keeps_step. Qed.

Lemma keeps_cache_response env rid r : preserves request_cache (cache_response env rid r).
Proof. unfold cache_response. repeat keeps_step. Qed.

#[local] Hint Resolve keeps_get_cached_response keeps_cache_response : keeps.

Lemma keeps_process_message env m sid uid a : preserves request_cache (process_message env m sid uid a).
Proof. unfold process_message. repeat keeps_step. Qed.

#[local] Hint Resolve keeps_process_message : keeps.

Lemma keeps_handle_message env m sid uid a rid : preserves request_cache (handle_message env m sid uid a rid).
Proof. unfold handle_message. repeat keeps_step. Qed.

#[local] Hint Resolve keeps_handle_message : keeps.

Lemma keeps_save_to_history env sid uid m r : preserves request_cache (save_to_history env sid uid m r).
Proof. unfold save_to_history. repeat keeps_step. Qed.

#[local] Hint Resolve keeps_save_to_history : keeps.

Lemma keeps_call_n8n_webhook payload : preserves request_cache (call_n8n_webhook payload).
Proof. apply preserves_raise. Qed.

#[local] Hint Resolve keeps_call_n8n_webhook : keeps.

Lemma keeps_process_request env request a sid rid :
  preserves request_cache (process_request env request a sid rid).
Proof. unfold process_request. repeat keeps_step. Qed.

Lemma keeps_to_http_error {A} e : preserves request_cache (@to_http_error A e).
Proof. destruct e; apply preserves_raise. Qed.

Lemma n8n_main_request_empty env request agent_name session_id s :
  ~ Spec.has_text request ->
  n8n_main_request env request agent_name session_id s
  = (s, Ok (StatusMessage "success" "Empty message ignored" (request_id_of env request))).
Proof.
  unfold Spec.has_text. intros Htext. apply not_false_is_true in Htext.
  unfold n8n_main_request, try_except. cbv zeta. rewrite Htext. reflexivity.
Qed.

Lemma n8n_main_request_duplicate env request agent_name session_id s :
  Spec.has_text request ->
  is_duplicate (request_cache s) (Spec.key_of request agent_name session_id) (time_time env) = true ->
  n8n_main_request env request agent_name session_id s
  = (s, Ok (duplicate_ack (request_id_of env request))).
Proof.
  unfold Spec.has_text, Spec.key_of. intros Htext Hdup.
  unfold n8n_main_request, try_except, bind, get. cbv zeta. rewrite Htext. cbn.
  rewrite Hdup. reflexivity.
Qed.

Lemma n8n_main_request_cache env request agent_name session_id s :
  Spec.has_text request ->
  request_cache (n8n_main_request env request agent_name session_id s).1
  = Spec.dedup (time_time env) (Spec.key_of request agent_name session_id) (request_cache s).
Proof.
  unfold Spec.key_of, Spec.dedup. intros Htext.
  destruct (is_duplicate _ _ _) eqn:Hdup.
  - by rewrite n8n_main_request_duplicate.
  - unfold Spec.has_text in Htext. unfold n8n_main_request. cbv zeta. rewrite Htext.
    unfold try_except, bind at 1, get. rewrite Hdup.
    unfold bind at 1, set_request_cache at 1, modify at 1.
    unfold bind at 1, set_request_cache at 1, modify at 1.
    match goal with
    | |- context [(if ?c then ?m else ?m') ?s0] =>
        assert (preserves request_cache (if c then m else m')) as Hk
    end.
    { destruct (_ && _); [apply keeps_process_request | apply preserves_ret]. }
    match goal with
    | |- context [(if ?c then ?m else ?m') ?s0] =>
        pose proof (Hk s0) as Hs0; destruct ((if c then m else m') s0) as [s1 [r|e]]
    end; cbn in Hs0 |- *; [done|].
    rewrite keeps_to_http_error. done.
Qed.

Lemma clean_old_entries_lookup (current_time : Q) (cache : gmap string Q) (k : string) (seen : Q) :
  clean_old_entries current_time cache !! k = Some seen
  <-> cache !! k = Some seen /\ current_time - seen <= 10.
Proof.
  unfold clean_old_entries. rewrite map_lookup_filter_Some. cbn.
  by rewrite Qltb_ge.
Qed.

Lemma clean_old_entries_swept (current_time : Q) (cache : gmap string Q) :
  Spec.swept current_time (clean_old_entries current_time cache).
Proof. intros k seen H. by apply clean_old_entries_lookup in H as [_ ?]. Qed.

Lemma is_duplicate_true (cache : gmap string Q) (key : string) (current_time : Q) :
  is_duplicate cache key current_time = true
  <-> exists seen, cache !! key = Some seen /\ current_time - seen < 2.
Proof.
  unfold is_duplicate. destruct (cache !! key) as [seen|].
  - rewrite Qltb_lt. split; [intros H; by exists seen | by intros (? & [= <-] & ?)].
  - split; [done | by intros (? & ? & ?)].
Qed.

(** Once a processed request has recorded its arrival at [t1], requests
    arriving between [t1] and [t2 < t1 + 2] leave an arrival time not older
    than [t1] under that key. *)
Lemma dedup_keeps_recent (t1 t2 t : Q) (key key' : string) (cache : gmap string Q) (seen : Q) :
  cache !! key = Some seen -> t1 <= seen -> t1 <= t -> t <= t2 -> t2 - t1 < 2 ->
  exists seen', Spec.dedup t key' cache !! key = Some seen' /\ t1 <= seen'.
Proof.
  intros Hkey Hseen Ht1 Ht2 Hwin. unfold Spec.dedup.
  destruct (is_duplicate cache key' t); [by exists seen|].
  destruct (decide (key' = key)) as [->|Hne].
  - exists t. split; [|done]. apply clean_old_entries_lookup.
    rewrite lookup_insert_eq. split; [done|]. lra.
  - exists seen. split; [|done]. apply clean_old_entries_lookup.
    rewrite lookup_insert_ne by done. split; [done|]. lra.
Qed.

Lemma serve_keeps_recent (t1 t2 : Q) (key : string) (a : Spec.Arrival) (s : St) (seen : Q) :
  request_cache s !! key = Some seen -> t1 <= seen ->
  t1 <= time_time (Spec.a_env a) -> time_time (Spec.a_env a) <= t2 -> t2 - t1 < 2 ->
  exists seen', request_cache (Spec.serve s a) !! key = Some seen' /\ t1 <= seen'.
Proof.
  intros Hkey Hseen Ht1 Ht2 Hwin. unfold Spec.serve.
  destruct (decide (Spec.has_text (Spec.a_request a))) as [Htext|Hblank].
  - rewrite n8n_main_request_cache by done. by eapply dedup_keeps_recent.
  - rewrite n8n_main_request_empty by done. by exists seen.
Qed.

Lemma serve_all_keeps_recent (t1 t2 : Q) (key : string) (between : list Spec.Arrival)
    (s : St) (seen : Q) :
  request_cache s !! key = Some seen -> t1 <= seen ->
  Forall (fun a => t1 <= time_time (Spec.a_env a) /\ time_time (Spec.a_env a) <= t2) between ->
  t2 - t1 < 2 ->
  exists seen', request_cache (Spec.serve_all between s) !! key = Some seen' /\ t1 <= seen'.
Proof.
  intros Hkey Hseen Hall Hwin. revert s seen Hkey Hseen.
  induction Hall as [|a between [Ha1 Ha2] _ IH]; intros s seen Hkey Hseen.
  - by exists seen.
  - cbn. destruct (serve_keeps_recent t1 t2 key a s seen) as (seen' & Hk' & Hs'); try done.
    by eapply IH.
Qed.

Lemma processed_records_arrival env request agent_name session_id s :
  Spec.has_text request ->
  is_duplicate (request_cache s) (Spec.key_of request agent_name session_id) (time_time env) = false ->
  request_cache (n8n_main_request env request agent_name session_id s).1
    !! Spec.key_of request agent_name session_id = Some (time_time env)
  /\ Spec.swept (time_time env) (request_cache (n8n_main_request env request agent_name session_id s).1).
Proof.
  intros Htext Hdup. rewrite n8n_main_request_cache by done. unfold Spec.dedup. rewrite Hdup.
  split; [|apply clean_old_entries_swept].
  apply clean_old_entries_lookup. rewrite lookup_insert_eq. split; [done|]. lra.
Qed.

Lemma n8n_main_request_processed (env : Env) (request : N8nMainRequest)
    (agent_name session_id : string) (s : St) :
  Spec.has_text request ->
  is_duplicate (request_cache s) (Spec.key_of request agent_name session_id) (time_time env)
    = false ->
  exists s0,
    n8n_main_request env request agent_name session_id s
    = try_except (process_request env request agent_name session_id
                    (request_id_of env request)) to_http_error s0
    /\ handler_cache s0 = handler_cache s /\ events s0 = events s
    /\ dt_reads s0 = dt_reads s.
Proof.
  unfold Spec.has_text, Spec.key_of. intros Htext Hdup.
  unfold n8n_main_request. cbv zeta. rewrite Htext.
  unfold try_except, bind at 1, get. rewrite Hdup.
  unfold bind at 1, set_request_cache at 1, modify at 1.
  unfold bind at 1, set_request_cache at 1, modify at 1.
  apply orb_false_iff in Htext as [-> ->]. cbn [negb andb].
  eexists. split; [reflexivity|]. done.
Qed.

Lemma to_http_error_state {A} (e : exn) (s : St) : (@to_http_error A e s).1 = s.
Proof. by destruct e. Qed.

(** [process_request] posts to the engine at most once. *)
Lemma process_request_engine (env : Env) (request : N8nMainRequest)
    (agent_name session_id request_id : string) (s : St) :
  exists n, engine_calls (process_request env request agent_name session_id request_id s).1
            = (engine_calls s + n)%nat /\ (n <= 1)%nat.
Proof.
  unfold process_request, handle_message, process_message, get_cached_response,
    cache_response, call_n8n_webhook, try_except, bind, now, get, emit,
    set_handler_cache, modify, ret, raise, engine_calls.
  cbn. repeat case_match; simplify_eq/=;
    rewrite ?List.filter_app, ?length_app; cbn;
    first [ by (exists 0%nat; split; lia) | by (exists 1%nat; split; lia) ].
Qed.

(** So does the endpoint. *)
Lemma n8n_main_request_engine (env : Env) (request : N8nMainRequest)
    (agent_name session_id : string) (s : St) :
  exists n, engine_calls (n8n_main_request env request agent_name session_id s).1
            = (engine_calls s + n)%nat /\ (n <= 1)%nat.
Proof.
  destruct (decide (Spec.has_text request)) as [Htext|Hblank].
  2:{ rewrite n8n_main_request_empty by done. exists 0%nat. cbn. lia. }
  destruct (is_duplicate (request_cache s) (Spec.key_of request agent_name session_id)
                         (time_time env)) eqn:Hdup.
  { rewrite n8n_main_request_duplicate by done. exists 0%nat. cbn. lia. }
  destruct (n8n_main_request_processed env request agent_name session_id s Htext Hdup)
    as (s0 & -> & _ & Hevents & _).
  destruct (process_request_engine env request agent_name session_id
              (request_id_of env request) s0) as (n & Hn & Hle).
  exists n. split; [|done]. unfold try_except.
  destruct (process_request _ _ _ _ _ s0) as [s1 [r|e]]; cbn [fst] in *.
  - rewrite Hn. unfold engine_calls. by rewrite Hevents.
  - rewrite to_http_error_state, Hn. unfold engine_calls. by rewrite Hevents.
Qed.

(** C3, as amended.  For two requests with the same (session_id, message
    text, agent_name) arriving less than 2 seconds apart, whatever arrives
    between them: when the first is processed (its message is not blank and
    it is not itself answered as a duplicate) the second is answered with the
    duplicate acknowledgment and leaves the state as it was, the engine not
    being called; in every case the workflow engine is called at most once
    for the pair; and a request that is neither empty nor a duplicate
    leaves no entry older than 10 seconds in the map. *)
Theorem duplicate_within_two_seconds
    (env1 env2 : Env) (request1 request2 : N8nMainRequest) (agent_name session_id : string)
    (between : list Spec.Arrival) (s : St) :
  user_mssg request1 = user_mssg request2 ->
  time_time env2 - time_time env1 < 2 ->
  Forall (fun a => time_time env1 <= time_time (Spec.a_env a)
                   /\ time_time (Spec.a_env a) <= time_time env2) between ->
  let s1 := (n8n_main_request env1 request1 agent_name session_id s).1 in
  let s2 := Spec.serve_all between s1 in
  let second := n8n_main_request env2 request2 agent_name session_id s2 in
  (* the first request was processed: the second is acknowledged as a duplicate *)
  (Spec.has_text request1 ->
   is_duplicate (request_cache s) (Spec.key_of request1 agent_name session_id) (time_time env1)
     = false ->
   second = (s2, Ok (duplicate_ack (request_id_of env2 request2))))
  (* the engine is called at most once for the pair *)
  /\ (exists n1 n2 : nat,
        engine_calls s1 = (engine_calls s + n1)%nat
        /\ engine_calls second.1 = (engine_calls s2 + n2)%nat
        /\ (n1 + n2 <= 1)%nat)
  (* a request that is neither empty nor a duplicate sweeps the map *)
  /\ (Spec.has_text request1 ->
      is_duplicate (request_cache s) (Spec.key_of request1 agent_name session_id) (time_time env1)
        = false ->
      Spec.swept (time_time env1) (request_cache s1)).
Proof.
  intros Hmsg Hwin Hbetween s1 s2 second.
  assert (Spec.has_text request1 ->
          is_duplicate (request_cache s) (Spec.key_of request1 agent_name session_id)
                       (time_time env1) = false ->
          second = (s2, Ok (duplicate_ack (request_id_of env2 request2)))) as Hack.
  { intros Htext Hdup.
    destruct (processed_records_arrival env1 request1 agent_name session_id s Htext Hdup)
      as [Hrec _]. fold s1 in Hrec.
    destruct (serve_all_keeps_recent (time_time env1) (time_time env2)
                (Spec.key_of request1 agent_name session_id) between s1 (time_time env1))
      as (seen & Hseen & Hle); try done; [lra|]. fold s2 in Hseen.
    subst second. apply n8n_main_request_duplicate.
    - unfold Spec.has_text in *. by rewrite <- Hmsg.
    - apply is_duplicate_true. exists seen. unfold Spec.key_of in *. rewrite <- Hmsg.
      split; [done|]. lra. }
  split; [exact Hack|]. split.
  - destruct (n8n_main_request_engine env1 request1 agent_name session_id s)
      as (n1 & Hn1 & Hle1). fold s1 in Hn1.
    destruct (n8n_main_request_engine env2 request2 agent_name session_id s2)
      as (n2 & Hn2 & Hle2). fold second in Hn2.
    destruct (decide (Spec.has_text request1)) as [Htext|Hblank].
    + destruct (is_duplicate (request_cache s) (Spec.key_of request1 agent_name session_id)
                             (time_time env1)) eqn:Hdup.
      * exists 0%nat, n2. split; [|split; [done | lia]].
        subst s1. rewrite n8n_main_request_duplicate by done. cbn. lia.
      * exists n1, 0%nat. split; [done|]. split; [|lia].
        rewrite Hack by done. cbn. lia.
    + exists 0%nat, n2. split; [|split; [done | lia]].
      subst s1. rewrite n8n_main_request_empty by done. cbn. lia.
  - intros Htext Hdup.
    by destruct (processed_records_arrival env1 request1 agent_name session_id s Htext Hdup).
Qed.

(** C10. In the main routed endpoint the content-based duplicate check
    comes before the response-cache lookup: a duplicate submission within
    2 seconds gets the synthetic acknowledgment although a fresh cached
    response exists for its request id (a response the block below the
    duplicate check would have returned). *)
Theorem dedup_precedes_response_cache
    (env : Env) (request : N8nMainRequest) (agent_name session_id : string) (s : St)
    (seen : Q) (cached : CachedResponse) (stored : Q) :
  Spec.has_text request ->
  request_cache s !! Spec.key_of request agent_name session_id = Some seen ->
  time_time env - seen < 2 ->
  handler_cache s !! response_key (request_id_of env request) = Some (cached, stored) ->
  datetime_now env (S (dt_reads s)) - stored < _cache_ttl ->
  n8n_main_request env request agent_name session_id s
  = (s, Ok (duplicate_ack (request_id_of env request)))
  /\ (process_request env request agent_name session_id (request_id_of env request) s).2
     = Ok (FromCache cached).
Proof.
  intros Htext Hseen Hwin Hcached Hfresh. split.
  - apply n8n_main_request_duplicate; [done|].
    apply is_duplicate_true. by exists seen.
  - unfold process_request, get_cached_response, bind, get, now. cbn.
    rewrite Hcached. cbn. apply Qltb_lt in Hfresh. by rewrite Hfresh.
Qed.

(** "hello there" at 100 and at 101.5, another message in between. *)
Lemma duplicate_within_two_seconds_witness :
  let env1 := Fixtures.router_env 100 "uuid-1" in
  let env2 := Fixtures.router_env (203 # 2) "uuid-3" in
  let other := {| Spec.a_env := Fixtures.router_env 101 "uuid-2";
                  Spec.a_request := Fixtures.request "what does it cost";
                  Spec.a_agent_name := "presaleskb"; Spec.a_session_id := "s1" |} in
  let request := Fixtures.request "hello there" in
  let s1 := (n8n_main_request env1 request "presaleskb" "s1" Fixtures.router_start).1 in
  let s2 := Spec.serve_all [other] s1 in
  let second := n8n_main_request env2 request "presaleskb" "s1" s2 in
  (Spec.has_text request ->
   is_duplicate (request_cache Fixtures.router_start)
                (Spec.key_of request "presaleskb" "s1") (time_time env1) = false ->
   second = (s2, Ok (duplicate_ack (request_id_of env2 request))))
  /\ (exists n1 n2 : nat,
        engine_calls s1 = (engine_calls Fixtures.router_start + n1)%nat
        /\ engine_calls second.1 = (engine_calls s2 + n2)%nat
        /\ (n1 + n2 <= 1)%nat)
  /\ (Spec.has_text request ->
      is_duplicate (request_cache Fixtures.router_start)
                   (Spec.key_of request "presaleskb" "s1") (time_time env1) = false ->
      Spec.swept (time_time env1) (request_cache s1)).
Proof.
  apply (duplicate_within_two_seconds
           (Fixtures.router_env 100 "uuid-1") (Fixtures.router_env (203 # 2) "uuid-3")
           (Fixtures.request "hello there") (Fixtures.request "hello there")
           "presaleskb" "s1").
  - reflexivity.
  - reflexivity.
  - repeat constructor; cbn; discriminate.
Defined.

(** "hello there" seen one second ago, a response cached for "r1". *)
Lemma dedup_precedes_response_cache_witness :
  let env := Fixtures.router_env 100 "uuid-1" in
  let request := {| user_id := "u1"; user_mssg := "hello there"; req_session_id := "s1";
                    req_agent_name := "presaleskb"; timestamp_of_call_made := None;
                    request_id := Some "r1"%string |} in
  n8n_main_request env request "presaleskb" "s1" Fixtures.router_cached
  = (Fixtures.router_cached, Ok (duplicate_ack "r1"))
  /\ (process_request env request "presaleskb" "s1" "r1" Fixtures.router_cached).2
     = Ok (FromCache (CachedHandler (HandlerError "error" "n8n"))).
Proof.
  apply (dedup_precedes_response_cache
           (Fixtures.router_env 100 "uuid-1")
           {| user_id := "u1"; user_mssg := "hello there"; req_session_id := "s1";
              req_agent_name := "presaleskb"; timestamp_of_call_made := None;
              request_id := Some "r1"%string |}
           "presaleskb" "s1" Fixtures.router_cached 99
           (CachedHandler (HandlerError "error" "n8n")) 98);
    reflexivity.
Defined.

(** C3 as stated fails twice.  The sweep is not run on every call: a
    request answered as a duplicate returns before it.  And the second of
    two requests less than 2 seconds apart is not answered as a duplicate
    when the first was itself answered as one, since a duplicate does not
    refresh the arrival time: it is processed, calls the engine, and ends
    in the error of the unbound [call_n8n_webhook]. *)
Lemma dedup_counterexample :
  (* a duplicate returns before the sweep: the entry seen at time 0 survives a call at 100 *)
  (let out := n8n_main_request (Fixtures.router_env 100 "uuid-1")
                               (Fixtures.request "hello there") "presaleskb" "s1"
                               Fixtures.router_stale in
   out.2 = Ok (duplicate_ack "uuid-1")
   /\ request_cache out.1 !! "s0:old message:presaleskb"%string = Some 0
   /\ 10 < 100 - 0)
  /\
  (* three submissions at 0, 1.5 and 3: the third is 1.5 seconds after the second
     and is processed *)
  (let request := Fixtures.request "hello there" in
   let first := n8n_main_request (Fixtures.router_env 0 "uuid-1") request "presaleskb" "s1"
                                 Fixtures.router_start in
   let second := n8n_main_request (Fixtures.router_env (3 # 2) "uuid-2") request
                                  "presaleskb" "s1" first.1 in
   let third := n8n_main_request (Fixtures.router_env 3 "uuid-3") request
                                 "presaleskb" "s1" second.1 in
   3 - (3 # 2) < 2
   /\ second.2 = Ok (duplicate_ack "uuid-2")
   /\ third.2 = Raise (HTTPException 500 "name 'call_n8n_webhook' is not defined")
   /\ engine_calls second.1 = 1%nat
   /\ engine_calls third.1 = 2%nat).
Proof.
  cbv zeta. split.
  - split; [by vm_compute|]. split; [by vm_compute|]. reflexivity.
  - split; [reflexivity|]. split; [by vm_compute|]. split; [by vm_compute|].
    split; by vm_compute.
Qed.

End RouterDedup.

(** ** The websocket receive loop *)

Section SocketLoop.

Import Socket.

Lemma strip_nonblank (text : string) :
  is_blank text = false ->
  String.eqb (string_of_list_ascii (PyStr.strip (PyStr.chars text))) "" = false.
Proof.
  unfold is_blank. destruct (PyStr.strip (PyStr.chars text)); [done|]. done.
Qed.

(** One turn of the loop on a business frame whose id is not in flight and
    whose peer is there: the ack is sent, the unbound
    [process_n8n_request_async] raises, no task is created, and the
    [finally] clause takes the id out of the set again. *)
Lemma loop_body_business (env : Env) (user_id session_id : string) (m : Message) (s : St) :
  Spec.business m ->
  peer_open (websocket s) = true ->
  let request_id := Router.or_default (requestId m) (uuid4 env (uuids s)) in
  request_id ∉ active_requests s ->
  let out := loop_body env user_id session_id (Text m) s in
  out.2 = Raise (Exception "name 'process_n8n_request_async' is not defined")
  /\ active_requests out.1 = active_requests s
  /\ acks_for request_id out.1 = S (acks_for request_id s)
  /\ tasks out.1 = tasks s
  /\ uuids out.1 = S (uuids s).
Proof.
  intros (Hping & Hpong & Hstatus & Htext) Hopen request_id Hfresh out.
  subst out. unfold loop_body, bind, uuid, time. cbn [fst snd uuids].
  rewrite Hping, Hpong, Hstatus, (strip_nonblank _ Htext). cbn [orb].
  unfold get. cbn [active_requests].
  fold request_id. rewrite decide_False by done.
  unfold try_finally, bind, set_active_requests, modify, time, send_json,
    process_n8n_request_async, create_task, ret, raise.
  cbn. rewrite Hopen. cbn.
  split; [done|]. split.
  - apply set_eq. intros x. rewrite elem_of_difference, elem_of_union, elem_of_singleton.
    split; [intros [[->|?] ?]; done|]. intros Hx. split; [by right|]. congruence.
  - split; [|done]. unfold acks_for. cbn.
    rewrite !List.filter_app, !length_app. cbn.
    rewrite String.eqb_refl. cbn. lia.
Qed.

(** A frame whose id is in the in-flight set is dropped: no ack, no task. *)
Lemma loop_body_in_flight (env : Env) (user_id session_id : string) (m : Message) (s : St) :
  Spec.business m ->
  Router.or_default (requestId m) (uuid4 env (uuids s)) ∈ active_requests s ->
  let out := loop_body env user_id session_id (Text m) s in
  out.2 = Ok Continue
  /\ active_requests out.1 = active_requests s
  /\ sent (websocket out.1) = sent (websocket s)
  /\ tasks out.1 = tasks s.
Proof.
  intros (Hping & Hpong & Hstatus & Htext) Hin out.
  subst out. unfold loop_body, bind, uuid, time. cbn [fst snd uuids].
  rewrite Hping, Hpong, Hstatus, (strip_nonblank _ Htext). cbn [orb].
  unfold get. cbn [active_requests]. rewrite decide_True by done. done.
Qed.

(** The first business frame ends the receive loop: whatever follows it in
    the inbox is never read. *)
Lemma first_business_frame_ends_loop
    (env : Env) (user_id session_id : string) (m : Message) (later : list Received)
    (request_id : string) (s : St) :
  Spec.business m ->
  requestId m = Some request_id ->
  peer_open (websocket s) = true ->
  request_id ∉ active_requests s ->
  let out := receive_loop env user_id session_id (Text m :: later) s in
  out.1 = (loop_body env user_id session_id (Text m) s).1
  /\ out.2 = Raise (Exception "name 'process_n8n_request_async' is not defined")
  /\ acks_for request_id out.1 = S (acks_for request_id s)
  /\ tasks out.1 = tasks s
  /\ active_requests out.1 = active_requests s
  /\ uuids out.1 = S (uuids s).
Proof.
  intros Hb Hid Hopen Hfresh out. subst out.
  cbn [receive_loop]. unfold bind.
  pose proof (loop_body_business env user_id session_id m s Hb Hopen) as H1.
  rewrite Hid in H1. cbn [Router.or_default] in H1. specialize (H1 Hfresh).
  destruct (loop_body env user_id session_id (Text m) s) as [s1 r1].
  cbn [fst snd] in H1. destruct H1 as (-> & Hset1 & Hack1 & Htask1 & Huuid1).
  done.
Qed.

(** C4.  Two business frames with the same requestId, read back to back on
    one connection whose in-flight set does not hold the id: the first
    frame is acknowledged, and evaluating the unbound name
    [process_n8n_request_async] then raises NameError, which leaves the
    receive loop.  One ack has been sent, no processing task has been
    dispatched, the second frame is never read (one frame has been decoded),
    and the in-flight set is empty again: the id has been taken out of it by
    the [finally] clause, not found in it. *)
Theorem websocket_same_request_id_twice :
  let out := receive_loop Fixtures.socket_env "u1" "s1" [Fixtures.hello_frame; Fixtures.hello_frame]
                          Fixtures.socket_start in
  out.2 = Raise (Exception "name 'process_n8n_request_async' is not defined")
  /\ acks_for "req-1" out.1 = 1%nat
  /\ dispatched_for "req-1" out.1 = 0%nat
  /\ tasks out.1 = []
  /\ uuids out.1 = 1%nat
  /\ active_requests out.1 = ∅.
Proof.
  destruct (first_business_frame_ends_loop Fixtures.socket_env "u1" "s1"
              {| type := None; requestId := Some "req-1"%string;
                 message := Some "hello"%string; agent := None |}
              [Fixtures.hello_frame] "req-1" Fixtures.socket_start)
    as (_ & Hout & Hack & Htasks & Hset & Huuid); [done..|].
  cbv zeta. unfold dispatched_for.
  change (Text {| type := None; requestId := Some "req-1"%string;
                  message := Some "hello"%string; agent := None |})
    with Fixtures.hello_frame in *.
  rewrite Hout, Hack, Htasks, Hset, Huuid. done.
Qed.

End SocketLoop.

(** ** Streaming fan-out *)

Section StreamFanOut.

Import Stream.

Lemma log_update_sessions (update : StreamUpdate) (s : St) :
  log_update update s
  = ({| streaming_sessions := Spec.logged update (streaming_sessions s);
        active_connections := active_connections s;
        clock_reads := clock_reads s |}, Ok tt).
Proof.
  unfold log_update, bind, set_sessions, modify, ret, Spec.logged. cbn.
  set (key := session_key_of update).
  assert (forall g : StreamingSession -> StreamingSession,
            alter g key
              match streaming_sessions s !! key with
              | Some _ => streaming_sessions s
              | None => <[key := {| updates := []; complete := false |}]> (streaming_sessions s)
              end
            = <[key := g match streaming_sessions s !! key with
                         | Some sess => sess
                         | None => {| updates := []; complete := false |}
                         end]> (streaming_sessions s)) as Hfirst.
  { intros g. apply map_eq. intros k. rewrite lookup_alter.
    destruct (decide (key = k)) as [<-|Hne].
    - rewrite lookup_insert_eq. destruct (streaming_sessions s !! key) eqn:E.
      + by rewrite E.
      + by rewrite lookup_insert_eq.
    - rewrite lookup_insert_ne by done.
      destruct (streaming_sessions s !! key); [done|]. by rewrite lookup_insert_ne. }
  assert (forall (g : StreamingSession -> StreamingSession) x
                 (m : gmap string StreamingSession),
            alter g key (<[key := x]> m) = <[key := g x]> m) as Hnext.
  { intros g x m. apply map_eq. intros k. rewrite lookup_alter.
    destruct (decide (key = k)) as [<-|Hne].
    - by rewrite !lookup_insert_eq.
    - by rewrite !lookup_insert_ne. }
  destruct (is_terminal (type update)); cbn.
  - by rewrite Hfirst, Hnext, orb_true_r.
  - by rewrite Hfirst, orb_false_r.
Qed.

Lemma keeps_sessions_time f : preserves streaming_sessions (time f).
Proof. done. Qed.

Lemma keeps_sessions_send_json cid fr : preserves streaming_sessions (send_json cid fr).
Proof.
  intros s. unfold send_json. destruct (active_connections s !! cid) as [ws|]; [|done].
  by destruct (peer_open ws).
Qed.

Lemma keeps_sessions_forward_update f update :
  preserves streaming_sessions (forward_update f update).
Proof.
  unfold forward_update. cbv zeta.
  apply preserves_bind; [apply preserves_get|]. intros s.
  destruct (active_connections s !! connection_id_of update); [|apply preserves_ret].
  apply preserves_bind; [apply keeps_sessions_time|]. intros t.
  apply preserves_bind; [apply keeps_sessions_send_json|]. intros _.
  destruct (_ && _); [|apply preserves_ret].
  apply preserves_bind; [apply keeps_sessions_time|]. intros t'.
  apply keeps_sessions_send_json.
Qed.

Lemma receive_stream_update_sessions (time_time : nat -> Q) (update : StreamUpdate) (s : St) :
  streaming_sessions (receive_stream_update time_time update s).1
  = Spec.logged update (streaming_sessions s).
Proof.
  unfold receive_stream_update, try_except. unfold bind at 1.
  rewrite log_update_sessions.
  match goal with
  | |- context [bind ?m ?k ?s0] =>
      assert (preserves streaming_sessions (bind m k)) as Hk;
      [ apply preserves_bind; [apply keeps_sessions_forward_update | intros; apply preserves_ret]
      | pose proof (Hk s0) as Hs0; destruct (bind m k s0) as [s1 [r|e]] ]
  end; done.
Qed.

(** C8, as amended.  Once a session is marked complete, its completion flag
    stays set under every progress event received later, and the updates
    already logged are kept in place and in order; each later event for the
    same key is still appended to the list. *)
Theorem completed_session_grows (time_time : nat -> Q) (later : list StreamUpdate)
    (s : St) (key : string) (sess : StreamingSession) :
  streaming_sessions s !! key = Some sess ->
  complete sess = true ->
  streaming_sessions (Spec.deliver_all time_time later s) !! key
  = Some {| updates := updates sess
                       ++ List.filter (fun u => String.eqb (session_key_of u) key) later;
            complete := true |}.
Proof.
  revert s sess. induction later as [|u later IH]; intros s sess Hs Hc.
  - cbn. rewrite app_nil_r. rewrite Hs. destruct sess. cbn in Hc. by subst.
  - change (Spec.deliver_all time_time (u :: later) s)
      with (Spec.deliver_all time_time later (Spec.deliver time_time s u)).
    cbn [List.filter].
    destruct (String.eqb_spec (session_key_of u) key) as [Heq|Hne].
    + rewrite (IH _ {| updates := updates sess ++ [u];
                       complete := complete sess || is_terminal (type u) |}).
      * cbn [updates]. by rewrite <- app_assoc.
      * unfold Spec.deliver. rewrite receive_stream_update_sessions.
        unfold Spec.logged. cbv zeta. rewrite Heq, Hs. apply lookup_insert_eq.
      * cbn. by rewrite Hc.
    + apply IH; [|done]. unfold Spec.deliver. rewrite receive_stream_update_sessions.
      unfold Spec.logged. cbv zeta. by rewrite lookup_insert_ne.
Qed.

(** C8 as stated fails: an event that arrives after the terminal one is
    appended to the update list of the completed session. *)
Lemma completed_session_counterexample :
  let s1 := Spec.deliver Fixtures.clock Fixtures.stream_start
                         (Fixtures.progress_event "complete" None) in
  let s2 := Spec.deliver Fixtures.clock s1 (Fixtures.progress_event "progress" None) in
  (complete <$> streaming_sessions s1 !! "u1:req-1"%string) = Some true
  /\ (length ∘ updates <$> streaming_sessions s1 !! "u1:req-1"%string) = Some 1%nat
  /\ (length ∘ updates <$> streaming_sessions s2 !! "u1:req-1"%string) = Some 2%nat.
Proof. cbv zeta. repeat split; by vm_compute. Qed.





(** Two more events after the session of "req-1" was closed. *)
Lemma completed_session_grows_witness :
  streaming_sessions
    (Spec.deliver_all Fixtures.clock
       [Fixtures.progress_event "progress" None;
        Fixtures.progress_event "final" (Some "Here is your answer."%string)]
       Fixtures.stream_completed) !! "u1:req-1"%string
  = Some {| updates :=
              updates Fixtures.completed_session
              ++ List.filter (fun u => String.eqb (session_key_of u) "u1:req-1")
                   [Fixtures.progress_event "progress" None;
                    Fixtures.progress_event "final" (Some "Here is your answer."%string)];
            complete := true |}.
Proof.
  apply (completed_session_grows Fixtures.clock
           [Fixtures.progress_event "progress" None;
            Fixtures.progress_event "final" (Some "Here is your answer."%string)]
           Fixtures.stream_completed "u1:req-1" Fixtures.completed_session);
    reflexivity.
Defined.



End StreamFanOut.

(** ** The bounded orchestrator *)

Section BoundedAnalysis.

Import Orchestrator.

Lemma finish_overall_status (url session_id timestamp : string) (a s f : SubResult) :
  (overall_status (finish url session_id timestamp a s f) = "success"%string
   <-> status a = "success"%string /\ status s = "success"%string
       /\ status f = "success"%string)
  /\ (overall_status (finish url session_id timestamp a s f) = "success"%string
      \/ overall_status (finish url session_id timestamp a s f) = "partial_success"%string).
Proof.
  unfold finish, all_success. cbn.
  destruct (String.eqb_spec (status a) "success");
    destruct (String.eqb_spec (status s) "success");
    destruct (String.eqb_spec (status f) "success"); cbn;
    (split; [split; [try done; intros _; done | try done; intros (? & ? & ?); done]
            | (by left) || (by right)]).
Qed.

(** Every result the handler returns has [overall_status] "success" exactly
    when the three subtask results have status "success", and
    "partial_success" otherwise. *)
Lemma overall_status_iff (url session_id timestamp : string) (a s f : Subtask)
    (results : Results) :
  full_website_analysis url session_id timestamp a s f = Ok (Analysis results) ->
  (overall_status results = "success"%string
   <-> status (analysis results) = "success"%string
       /\ status (screenshot results) = "success"%string
       /\ status (favicon results) = "success"%string)
  /\ (overall_status results = "success"%string
      \/ overall_status results = "partial_success"%string).
Proof.
  unfold full_website_analysis, on_timeout, res_bind.
  destruct (wait_for_gather deadline a s f) as [ca cs cf|ta ts tf].
  - intros [= <-]. apply finish_overall_status.
  - destruct (ready_or_timeout ta _) as [ra|[]]; try done.
    destruct (ready_or_timeout ts _) as [rs|[]]; try done.
    destruct (ready_or_timeout tf _) as [rf|[]]; try done.
    intros [= <-]. apply finish_overall_status.
Qed.

(** The [except asyncio.TimeoutError] clause does what the specification
    says for a task that is still running: a placeholder with status
    "timeout", next to the real results of the finished tasks. *)
Lemma on_timeout_running (url session_id timestamp : string) (a f : SubResult)
    (eventually : Completion) :
  on_timeout url session_id timestamp
             (Finished (Returns a)) (Running eventually) (Finished (Returns f))
  = Ok (finish url session_id timestamp a
               {| status := "timeout"; message := "Screenshot timed out"; body := "" |} f)
  /\ overall_status
       (finish url session_id timestamp a
               {| status := "timeout"; message := "Screenshot timed out"; body := "" |} f)
     = "partial_success"%string.
Proof.
  split; [done|]. unfold finish, all_success. cbn. by rewrite andb_false_r.
Qed.

(** But when the deadline expires no task is left running: each one has
    finished or has been cancelled, and one at least is cancelled. *)
Lemma deadline_leaves_no_task_running (a s f : Subtask) (ta ts tf : Task) :
  wait_for_gather deadline a s f = TimeoutError ta ts tf ->
  done ta = true /\ done ts = true /\ done tf = true
  /\ (ta = Cancelled \/ ts = Cancelled \/ tf = Cancelled).
Proof.
  unfold wait_for_gather, at_deadline.
  destruct (Qltb (after a) deadline), (Qltb (after s) deadline),
    (Qltb (after f) deadline); cbn; try done;
    intros [= <- <- <-]; cbn; repeat split; tauto.
Qed.

(** So a run in which a subtask outlives the deadline returns no analysis
    at all. *)
Lemma deadline_expiry_no_result (url session_id timestamp : string) (a s f : Subtask)
    (ta ts tf : Task) (results : Results) :
  wait_for_gather deadline a s f = TimeoutError ta ts tf ->
  full_website_analysis url session_id timestamp a s f <> Ok (Analysis results).
Proof.
  intros Hwait. destruct (deadline_leaves_no_task_running _ _ _ _ _ _ Hwait)
    as (Ha & Hs & Hf & Hcancel).
  unfold full_website_analysis. rewrite Hwait.
  unfold on_timeout, ready_or_timeout, res_bind. rewrite Ha, Hs, Hf.
  destruct ta as [?|[ra|ma]|]; try done; cbn;
  destruct ts as [?|[rs|ms]|]; try done; cbn;
  destruct tf as [?|[rf|mf]|]; try done; cbn.
  destruct Hcancel as [?|[?|?]]; done.
Qed.

(** A screenshot that outlives the deadline, next to two subtasks that
    return in time: awaiting the cancelled screenshot task raises, and the
    cancellation is not an [Exception]. *)
Lemma slow_screenshot_cancelled (url session_id timestamp : string) (a s f : Subtask)
    (ra rf : SubResult) :
  after a < deadline -> completion a = Returns ra ->
  deadline <= after s ->
  after f < deadline -> completion f = Returns rf ->
  full_website_analysis url session_id timestamp a s f = Raise CancelledError.
Proof.
  intros Ha Hra Hs Hf Hrf.
  apply Qltb_lt in Ha, Hf. apply Qltb_ge in Hs.
  unfold full_website_analysis, wait_for_gather, at_deadline.
  rewrite Ha, Hs, Hf, Hra. cbn [andb].
  unfold on_timeout, ready_or_timeout, res_bind. reflexivity.
Qed.

(** C9.  With the content analysis done after 3 seconds, the icon after 2
    and the screenshot needing 40, the deadline expires; the screenshot
    task is then cancelled, not pending, so the handler awaits it and the
    cancellation leaves the handler: there is no result, no "timeout"
    placeholder and no overall status. *)
Theorem full_analysis_slow_subtask :
  full_website_analysis "https://example.com" "s1" "2025-01-01T00:00:00"
                        Fixtures.fast_analysis Fixtures.slow_screenshot Fixtures.fast_favicon
  = Raise CancelledError.
Proof.
  apply (slow_screenshot_cancelled _ _ _ _ _ _
           {| status := "success"; message := "ok"; body := "analysis" |}
           {| status := "success"; message := "ok"; body := "favicon" |});
    reflexivity || discriminate.
Qed.

End BoundedAnalysis.

(** ** The recommender and the matcher endpoints *)

Section RecommenderFacts.

Import Matcher Recommender.

Lemma cache_lookup_keeps (key : string) (now : Q) (self : Self) :
  (cache_lookup key now self).1 = self.
Proof. done. Qed.

(** The head of a ranking by best product dominates every candidate row. *)
Lemma ranked_head_dominates (py : Builtins) (rows ranked : list (string * Q))
    (name : string) (score : Q) (rest : list (string * Q)) :
  Spec.best_products py rows ranked ->
  Spec.descending ranked ->
  ranked = (name, score) :: rest ->
  (exists r0, (name, r0) ∈ rows /\ score = float_mul py r0 100)
  /\ forall a r, (a, r) ∈ rows -> float_mul py r 100 <= score.
Proof.
  intros (Hnd & Hall & Hmax) Hdesc ->.
  destruct (Hmax name score ltac:(by left)) as [Hex Hub]. split; [done|].
  intros a r Hr. pose proof (Hall _ _ Hr) as Hkey.
  apply list_elem_of_fmap in Hkey as [[a' sc'] [Heq Hin]]. cbn in Heq. subst a'.
  destruct (Hmax _ _ Hin) as [_ Hub']. specialize (Hub' _ Hr).
  apply elem_of_cons in Hin as [[= -> ->]|Hin]; [done|].
  apply StronglySorted_cons in Hdesc as [Hhead _].
  rewrite Forall_forall in Hhead. specialize (Hhead _ Hin). cbn in Hhead. lra.
Qed.

Lemma get_recommended_agent_miss (py : Builtins) (up : Upstream) (self : Self)
    (now_lookup best_lookup best_store now_store : Q) (user_query : string) :
  Spec.cache_miss self (recommended_agent_key user_query) now_lookup ->
  get_recommended_agent py up now_lookup best_lookup best_store now_store user_query self
  = let out := find_best_agents py up best_lookup best_store user_query 1 self in
    match out.2 with
    | Ok best_agents =>
        match pick_agent best_agents with
        | Ok agent =>
            ({| _cache := <[recommended_agent_key user_query :=
                             {| result := VStr agent; timestamp := now_store |}]> (_cache out.1);
                calls := calls out.1 |}, Ok (VStr agent))
        | Raise _ => (out.1, Ok (VStr default_agent))
        end
    | Raise _ => (out.1, Ok (VStr default_agent))
    end.
Proof.
  intros Hmiss. unfold get_recommended_agent, try_except. cbv zeta.
  rewrite (bind_ok _ _ self self None) by (by apply cache_lookup_miss).
  unfold bind.
  destruct (find_best_agents py up best_lookup best_store user_query 1 self) as [s1 [v|e]];
    cbn [fst snd]; [|done].
  destruct (pick_agent v) as [agent|e]; [|done]. reflexivity.
Qed.

(** X1. On a miss of both caches [get_recommended_agent] answers with the
    default agent when the product [similarity * 100] of no candidate row
    reaches 60, and otherwise with the agent that holds the row of the
    largest product, which then reaches 60. *)
Theorem get_recommended_agent_threshold (py : Builtins) (up : Upstream) (self : Self)
    (now_lookup best_lookup best_store now_store : Q) (user_query : string) :
  Spec.cache_miss self (recommended_agent_key user_query) now_lookup ->
  Spec.cache_miss self (best_agents_key user_query) best_lookup ->
  let rows := Spec.candidates up user_query 1 in
  exists name,
    (get_recommended_agent py up now_lookup best_lookup best_store now_store
                           user_query self).2
    = Ok (VStr name)
    /\ ((forall a r, (a, r) ∈ rows -> float_mul py r 100 < 60) -> name = default_agent)
    /\ ((exists a r, (a, r) ∈ rows /\ 60 <= float_mul py r 100) ->
        exists r0, (name, r0) ∈ rows /\ 60 <= float_mul py r0 100
                   /\ forall a r, (a, r) ∈ rows ->
                        float_mul py r 100 <= float_mul py r0 100).
Proof.
  intros Hrec Hbest rows.
  rewrite get_recommended_agent_miss by done. cbv zeta.
  destruct (find_best_agents_miss py up self best_lookup best_store user_query 1 Hbest)
    as [(Hnone & _ & Hout)|(Hsome & _ & Hout)]; rewrite Hout; fold rows in Hnone || fold rows in Hsome.
  - (* no candidate: the fallback scores 50 *)
    exists default_agent. cbn. split; [done|]. split; [done|].
    intros (a & r & Hin & _). rewrite Hnone in Hin. by apply elem_of_nil in Hin.
  - set (ranked := sorted_desc (score_agents py (Spec.candidates up user_query 1))) in *.
    assert (Spec.best_products py rows ranked) as Hmax.
    { eapply best_products_perm; [|apply score_agents_best].
      symmetry. apply sorted_desc_perm. }
    pose proof (sorted_desc_descending (score_agents py (Spec.candidates up user_query 1)))
      as Hdesc. fold ranked in Hdesc.
    destruct ranked as [|[name score] rest] eqn:Hranked.
    { exfalso. destruct Hmax as (_ & Hall & _).
      destruct rows as [|[a r] rows']; [done|].
      specialize (Hall a r ltac:(by left)). by apply elem_of_nil in Hall. }
    destruct (ranked_head_dominates py rows _ name score rest Hmax Hdesc eq_refl)
      as [(r0 & Hr0 & ->) Hdom].
    unfold slice_to, pick_agent. change (0 <=? 1)%Z with true.
    change (take (Z.to_nat 1) ((name, float_mul py r0 100) :: rest))
      with [(name, float_mul py r0 100)].
    cbv beta iota.
    destruct (Qleb 60 (float_mul py r0 100)) eqn:Hq; cbn [snd].
    + apply Qleb_le in Hq. exists name. split; [done|]. split.
      * intros Hlow. specialize (Hlow _ _ Hr0). lra.
      * intros _. exists r0. split; [done|]. split; [lra|].
        intros a r Hin. specialize (Hdom _ _ Hin). lra.
    + exists default_agent. split; [done|]. split; [done|].
      intros (a & r & Hin & Hge). exfalso.
      specialize (Hdom _ _ Hin).
      assert (~ 60 <= float_mul py r0 100) as Hn.
      { intros Hle. apply Qleb_le in Hle. congruence. }
      lra.
Qed.

Lemma find_best_agents_returns_list (py : Builtins) (up : Upstream) (self : Self)
    (now_lookup now_store : Q) (user_query : string) (top_n : Z) :
  Spec.best_agents_nonempty (_cache self) ->
  exists agents,
    (find_best_agents py up now_lookup now_store user_query top_n self).2
    = Ok (VAgents agents).
Proof.
  intros Hinv.
  destruct (_cache self !! best_agents_key user_query) as [e|] eqn:He.
  - destruct (Qlt_le_dec (now_lookup - timestamp e) _cache_ttl) as [Hfresh|Hold].
    + rewrite (find_best_agents_hit _ _ _ _ _ _ _ e) by done.
      destruct (Hinv _ _ He) as (agents & -> & _). by exists agents.
    + destruct (find_best_agents_miss py up self now_lookup now_store user_query top_n)
        as [(_ & _ & ->)|(_ & _ & ->)]; [|eauto..].
      intros e' He'. congruence.
  - destruct (find_best_agents_miss py up self now_lookup now_store user_query top_n)
      as [(_ & _ & ->)|(_ & _ & ->)]; [|eauto..].
    intros e' He'. congruence.
Qed.

Lemma pick_agent_list (agents : list (string * Q)) :
  exists name, pick_agent (VAgents agents) = Ok name.
Proof. destruct agents as [|[n sc] rest]; cbn; eauto. Qed.

(** X2. What [get_recommended_agent] computes is stored whatever happened
    upstream: a second call for the query less than 300 seconds after the
    store returns the same name and leaves the state as it was (no remote
    call); this includes the default agent chosen while the embedding
    service was down. *)
Theorem get_recommended_agent_sticks (py : Builtins) (up1 up2 : Upstream) (self : Self)
    (lookup1 best_lookup1 best_store1 store1 lookup2 best_lookup2 best_store2 store2 : Q)
    (user_query : string) :
  Spec.best_agents_nonempty (_cache self) ->
  Spec.cache_miss self (recommended_agent_key user_query) lookup1 ->
  lookup2 - store1 < 300 ->
  let first := get_recommended_agent py up1 lookup1 best_lookup1 best_store1 store1
                                     user_query self in
  let second := get_recommended_agent py up2 lookup2 best_lookup2 best_store2 store2
                                      user_query first.1 in
  (exists name, first.2 = Ok (VStr name))
  /\ second = first
  /\ (get_query_embedding up1 user_query = None ->
      Spec.cache_miss self (best_agents_key user_query) best_lookup1 ->
      first.2 = Ok (VStr default_agent)).
Proof.
  intros Hinv Hmiss Hage first second.
  assert (exists name s1,
            first = ({| _cache := <[recommended_agent_key user_query :=
                                     {| result := VStr name; timestamp := store1 |}]> (_cache s1);
                        calls := calls s1 |}, Ok (VStr name))
            /\ (get_query_embedding up1 user_query = None ->
                Spec.cache_miss self (best_agents_key user_query) best_lookup1 ->
                name = default_agent)) as (name & s1 & Hfirst & Hdown).
  { subst first. rewrite get_recommended_agent_miss by done. cbv zeta.
    destruct (find_best_agents_returns_list py up1 self best_lookup1 best_store1
                user_query 1 Hinv) as (agents & Hagents).
    pose proof (find_best_agents_miss py up1 self best_lookup1 best_store1 user_query 1)
      as Hm.
    cbv zeta in Hm. rewrite Hagents in Hm. rewrite Hagents.
    destruct (pick_agent_list agents) as (name & Hname). rewrite Hname.
    exists name, (find_best_agents py up1 best_lookup1 best_store1 user_query 1 self).1.
    split; [done|]. intros Hdown Hbm. specialize (Hm Hbm).
    unfold Spec.candidates in Hm. rewrite Hdown in Hm.
    destruct Hm as [(_ & _ & [= ->])|(? & _)]; [|done].
    cbn in Hname. by injection Hname. }
  split; [exists name; by rewrite Hfirst|]. split; [|intros; rewrite Hfirst; cbn; f_equal; f_equal; eauto].
  subst second. rewrite Hfirst. cbn [fst].
  unfold get_recommended_agent, try_except. cbv zeta.
  erewrite bind_ok.
  2:{ apply (cache_lookup_hit _ _ _ {| result := VStr name; timestamp := store1 |}).
      - cbn. apply lookup_insert_eq.
      - exact Hage. }
  reflexivity.
Qed.

(** X3. The check endpoint answers an agent without documents with the
    error shape (the two-value unpacking fails), but a document store that
    raises with a successful no-match of confidence 0. *)
Theorem n8n_check_agent_match_status (py : Builtins) (up : Upstream) (self : Self)
    (now_lookup now_store : Q) (agent_name user_query : string) (threshold : Q) :
  (agent_documents up agent_name = Some false ->
   (n8n_check_agent_match py up now_lookup now_store agent_name user_query threshold self).2
   = Ok (CheckError agent_name user_query false
                    "cannot unpack non-iterable bool object" "error"))
  /\ (agent_documents up agent_name = None ->
      (n8n_check_agent_match py up now_lookup now_store agent_name user_query threshold self).2
      = Ok (CheckSuccess agent_name user_query false (round py 3 0) threshold
              ("Agent '" +:+ agent_name +:+ "' may not be optimal for this query")
              "success")).
Proof.
  split; intros Hdocs.
  - unfold n8n_check_agent_match, try_except.
    erewrite bind_ok by (by apply check_agent_match_no_documents). reflexivity.
  - unfold n8n_check_agent_match, try_except, bind, check_agent_match, try_except, bind, remote.
    rewrite Hdocs. reflexivity.
Qed.

Lemma imap_ranks (py : Builtins) (descriptions : string -> option string)
    (l : list (string * Q)) :
  rank <$> imap (recommend py descriptions) l = seq 1 (length l)
  /\ rec_agent_name <$> imap (recommend py descriptions) l = l.*1.
Proof.
  split; apply list_eq; intros i.
  - rewrite list_lookup_fmap, list_lookup_imap.
    destruct (l !! i) as [x|] eqn:Hx; cbn.
    + apply lookup_lt_Some in Hx as Hlt. rewrite lookup_seq_lt by done. f_equal. lia.
    + apply lookup_ge_None in Hx. symmetry. apply lookup_seq_ge. done.
  - rewrite !list_lookup_fmap, list_lookup_imap. by destruct (l !! i).
Qed.

Lemma above_threshold_sound (py : Builtins) (t : Q) (agents : list (string * Q))
    (a : string) (sc : Q) :
  ~ t == 0 ->
  (a, sc) ∈ above_threshold py (Some t) agents
  <-> (a, sc) ∈ agents /\ float_mul py t 100 <= sc.
Proof.
  intros Ht. unfold above_threshold.
  destruct (Qeq_bool t 0) eqn:E; [by apply Qeq_bool_iff in E|].
  rewrite !list_elem_of_In, filter_In. cbn. by rewrite Qleb_le.
Qed.

Lemma check_agent_match_embedding_down (up : Upstream) (self : Self)
    (now_lookup now_store : Q) (agent_name user_query : string) (threshold : Q) :
  agent_documents up agent_name = Some true ->
  Spec.cache_miss self (agent_match_key agent_name user_query) now_lookup ->
  get_query_embedding up user_query = None ->
  check_agent_match up now_lookup now_store agent_name user_query threshold self
  = ({| _cache := _cache self;
        calls := calls self ++ [AgentDocuments agent_name; QueryEmbedding user_query] |},
     Ok (VPair false 0)).
Proof.
  intros Hdocs Hmiss Hemb. unfold check_agent_match, try_except, bind.
  unfold remote at 1. rewrite Hdocs. cbn [negb].
  rewrite cache_lookup_miss by exact Hmiss.
  unfold remote. rewrite Hemb. cbn. by rewrite <- app_assoc.
Qed.

Lemma find_best_agents_embedding_down (py : Builtins) (up : Upstream) (self : Self)
    (now_lookup now_store : Q) (user_query : string) (top_n : Z) :
  Spec.cache_miss self (best_agents_key user_query) now_lookup ->
  get_query_embedding up user_query = None ->
  find_best_agents py up now_lookup now_store user_query top_n self
  = ({| _cache := _cache self; calls := calls self ++ [QueryEmbedding user_query] |},
     Ok (VAgents default_agents)).
Proof.
  intros Hmiss Hemb. unfold find_best_agents, try_except, bind. cbv zeta.
  rewrite cache_lookup_miss by exact Hmiss.
  unfold remote. by rewrite Hemb.
Qed.

(** X5. With the embedding service down the combined endpoint still
    answers "success": the current agent is reported unsuitable with
    confidence 0, the only recommendation is the fallback at 50, and the
    routing is "use_default" to presaleskb ("keep_current" when the current
    agent is presaleskb). *)
Theorem n8n_analyze_agent_query_degrades (py : Builtins) (isoformat : Q -> string)
    (up : Upstream) (self : Self) (times : nat -> Q) (request : AnalyzeRequest)
    (agent : string) :
  let user_query := Router.or_default (q_user_query request) "" in
  q_current_agent request = Some agent ->
  agent <> ""%string ->
  Router.or_default (q_get_recommendations request) true = true ->
  agent_documents up agent = Some true ->
  get_query_embedding up user_query = None ->
  Spec.cache_miss self (agent_match_key agent user_query) (times 1%nat) ->
  Spec.cache_miss self (best_agents_key user_query) (times 3%nat) ->
  (n8n_analyze_agent_query py isoformat up times request self).2
  = Ok (AnalyzeSuccess user_query (isoformat (times 0%nat)) "success"
          (Some {| an_agent_name := agent; is_suitable := false;
                   an_confidence := round py 3 0;
                   an_recommendation := "Consider switching agents" |})
          (Some [("presaleskb"%string, round py 1 50, 1%nat)])
          (Some (if String.eqb agent "presaleskb"
                 then {| routing_decision := "keep_current"; suggested_agent := None;
                         routing_message :=
                           "Current agent '" +:+ agent +:+ "' is optimal" |}
                 else {| routing_decision := "use_default";
                         suggested_agent := Some "presaleskb"%string;
                         routing_message := "No strong match found, use general agent" |}))).
Proof.
  intros user_query Hcur Hne Hrec Hdocs Hemb Hm1 Hm3.
  unfold n8n_analyze_agent_query, try_except. fold user_query. cbv zeta.
  rewrite Hcur, Hrec.
  assert (py_or (Some agent) None = Some agent) as Hor.
  { unfold py_or. apply String.eqb_neq in Hne. by rewrite Hne. }
  rewrite Hor.
  erewrite bind_ok.
  2:{ erewrite bind_ok by (by apply check_agent_match_embedding_down). reflexivity. }
  erewrite bind_ok by (by apply find_best_agents_embedding_down).
  unfold ret, route. cbn -[String.eqb Qleb py_or]. rewrite Hor. cbn.
  destruct (String.eqb agent "presaleskb"); reflexivity.
Qed.

(** X4. The find endpoint never answers with its error shape: the
    recommendations are the agents [find_best_agents] returned whose score
    reaches 100 times a non-zero [min_threshold], in the same order, ranked
    1, 2, ...; the best agent is the first of them, and "presaleskb" with
    confidence 100 when none is left. *)
Theorem n8n_find_best_agents_ranked (py : Builtins) (descriptions : string -> option string)
    (up : Upstream) (self : Self) (now_lookup now_store : Q)
    (user_query : string) (top_n : Z) (min_threshold : option Q) :
  Spec.best_agents_nonempty (_cache self) ->
  let found := find_best_agents py up now_lookup now_store user_query top_n self in
  exists agents recommendations best_agent confidence message,
    found.2 = Ok (VAgents agents)
    /\ n8n_find_best_agents py descriptions up now_lookup now_store user_query top_n
                            min_threshold self
       = (found.1, Ok (FindSuccess user_query recommendations (length recommendations)
                                   "success" best_agent confidence message))
    /\ rec_agent_name <$> recommendations = (above_threshold py min_threshold agents).*1
    /\ rank <$> recommendations = seq 1 (length recommendations)
    /\ match recommendations with
       | first :: _ => best_agent = rec_agent_name first
                       /\ confidence = match_percentage first
       | [] => best_agent = "presaleskb"%string /\ confidence = 100
       end.
Proof.
  intros Hinv found.
  destruct (find_best_agents_returns_list py up self now_lookup now_store user_query top_n Hinv)
    as (agents & Hagents). fold found in Hagents.
  unfold n8n_find_best_agents, try_except, bind. fold found.
  destruct found as [s1 r]. cbn [fst snd] in *. subst r. cbn [as_agents]. cbv zeta.
  set (kept := above_threshold py min_threshold agents).
  destruct (imap_ranks py descriptions kept) as [Hrank Hnames].
  destruct (imap (recommend py descriptions) kept) as [|first rest] eqn:Hrecs.
  - exists agents, []. eexists _, _, _. unfold ret. cbn [length].
    repeat split; try reflexivity; try done.
  - exists agents, (first :: rest). eexists _, _, _. unfold ret.
    split; [done|]. split; [reflexivity|]. split; [done|]. split; [|done].
    rewrite Hrank. f_equal. rewrite <- Hrecs. by rewrite length_imap.
Qed.

Lemma get_recommended_agent_threshold_witness :
  let rows := Spec.candidates Fixtures.upstream Fixtures.pricing_query 1 in
  exists name,
    (get_recommended_agent Fixtures.py Fixtures.upstream 0 0 0 0 Fixtures.pricing_query
                           Fixtures.fresh_self).2 = Ok (VStr name)
    /\ ((forall a r, (a, r) ∈ rows -> r * 100 < 60) -> name = default_agent)
    /\ ((exists a r, (a, r) ∈ rows /\ 60 <= r * 100) ->
        exists r0, (name, r0) ∈ rows /\ 60 <= r0 * 100
                   /\ forall a r, (a, r) ∈ rows -> r * 100 <= r0 * 100).
Proof.
  apply (get_recommended_agent_threshold Fixtures.py Fixtures.upstream Fixtures.fresh_self 0 0 0 0
           Fixtures.pricing_query); apply fresh_self_misses.
Defined.

Lemma get_recommended_agent_sticks_witness :
  let first := get_recommended_agent Fixtures.py Fixtures.embedding_down 0 0 0 1
                                     Fixtures.pricing_query Fixtures.fresh_self in
  let second := get_recommended_agent Fixtures.py Fixtures.upstream 300 300 300 300
                                      Fixtures.pricing_query first.1 in
  (exists name, first.2 = Ok (VStr name))
  /\ second = first
  /\ (get_query_embedding Fixtures.embedding_down Fixtures.pricing_query = None ->
      Spec.cache_miss Fixtures.fresh_self (best_agents_key Fixtures.pricing_query) 0 ->
      first.2 = Ok (VStr default_agent)).
Proof.
  apply (get_recommended_agent_sticks Fixtures.py Fixtures.embedding_down Fixtures.upstream
           Fixtures.fresh_self 0 0 0 1 300 300 300 300 Fixtures.pricing_query).
  - apply empty_cache_nonempty.
  - apply fresh_self_misses.
  - reflexivity.
Defined.

Lemma n8n_check_agent_match_status_witness :
  (n8n_check_agent_match Fixtures.py Fixtures.upstream 0 0 "ghostkb" "hello" (3 # 10)
                         Fixtures.fresh_self).2
  = Ok (CheckError "ghostkb" "hello" false "cannot unpack non-iterable bool object" "error").
Proof.
  apply (proj1 (n8n_check_agent_match_status Fixtures.py Fixtures.upstream
                  Fixtures.fresh_self 0 0 "ghostkb" "hello" (3 # 10))).
  reflexivity.
Defined.

Lemma n8n_find_best_agents_ranked_witness :
  let found := find_best_agents Fixtures.py Fixtures.upstream 0 0 Fixtures.pricing_query 3
                                Fixtures.fresh_self in
  exists agents recommendations best_agent confidence message,
    found.2 = Ok (VAgents agents)
    /\ n8n_find_best_agents Fixtures.py Samples.descriptions Fixtures.upstream 0 0
                            Fixtures.pricing_query 3 (Some (4 # 5)) Fixtures.fresh_self
       = (found.1, Ok (FindSuccess Fixtures.pricing_query recommendations
                                   (length recommendations) "success" best_agent
                                   confidence message))
    /\ rec_agent_name <$> recommendations
       = (above_threshold Fixtures.py (Some (4 # 5)) agents).*1
    /\ rank <$> recommendations = seq 1 (length recommendations)
    /\ match recommendations with
       | first :: _ => best_agent = rec_agent_name first
                       /\ confidence = match_percentage first
       | [] => best_agent = "presaleskb"%string /\ confidence = 100
       end.
Proof.
  apply (n8n_find_best_agents_ranked Fixtures.py Samples.descriptions Fixtures.upstream
           Fixtures.fresh_self 0 0 Fixtures.pricing_query 3 (Some (4 # 5))).
  apply empty_cache_nonempty.
Defined.

Lemma n8n_analyze_agent_query_degrades_witness :
  (n8n_analyze_agent_query Fixtures.py (fun _ => "2025-01-01T00:00:00"%string)
                           Fixtures.embedding_down (fun _ => 0) Samples.analyze_request
                           Fixtures.fresh_self).2
  = Ok (AnalyzeSuccess Fixtures.pricing_query "2025-01-01T00:00:00" "success"
          (Some {| an_agent_name := "socialmediakb"; is_suitable := false;
                   an_confidence := 0;
                   an_recommendation := "Consider switching agents" |})
          (Some [("presaleskb"%string, 50, 1%nat)])
          (Some {| routing_decision := "use_default";
                   suggested_agent := Some "presaleskb"%string;
                   routing_message := "No strong match found, use general agent" |})).
Proof.
  apply (n8n_analyze_agent_query_degrades Fixtures.py (fun _ => "2025-01-01T00:00:00"%string)
           Fixtures.embedding_down Fixtures.fresh_self (fun _ => 0) Samples.analyze_request
           "socialmediakb"); try reflexivity; try discriminate; apply fresh_self_misses.
Defined.

End RecommenderFacts.

(** ** The handler's response cache and the outcomes of the routed endpoint *)

Section ResponseCache.

Import Router.

Lemma response_key_inj (a b : string) : response_key a = response_key b -> a = b.
Proof. unfold response_key. intros H. by simplify_eq/=. Qed.

(** X6. A response stored by [cache_response] is what [get_cached_response]
    returns for the same request id as long as less than 300 seconds have
    passed since the store; the lookup leaves the cache as it is, and the
    store touches no other request id. *)
Theorem response_cache_round_trip (env1 env2 : Env) (request_id : string)
    (response : CachedResponse) (s : St) :
  let s1 := (cache_response env1 request_id response s).1 in
  datetime_now env2 (dt_reads s1) - datetime_now env1 (dt_reads s) < 300 ->
  (get_cached_response env2 request_id s1).2 = Ok (Some response)
  /\ handler_cache (get_cached_response env2 request_id s1).1 = handler_cache s1
  /\ forall other, other <> request_id ->
       handler_cache s1 !! response_key other = handler_cache s !! response_key other.
Proof.
  intros s1 Hfresh. subst s1.
  unfold cache_response, get_cached_response, bind, now, get, set_handler_cache, modify, ret
    in *. cbn in *.
  rewrite lookup_insert_eq. cbn. apply Qltb_lt in Hfresh. unfold _cache_ttl.
  rewrite Hfresh. cbn.
  split; [done|]. split; [done|].
  intros other Hne. apply lookup_insert_ne. intros Heq. by apply response_key_inj in Heq.
Qed.

(** X7. An entry that is 300 seconds old or older is not returned: the
    lookup answers [None] and deletes the entry, so that a second lookup
    finds nothing and changes nothing. *)
Theorem response_cache_expiry (env : Env) (request_id : string)
    (response : CachedResponse) (stored : Q) (s : St) :
  handler_cache s !! response_key request_id = Some (response, stored) ->
  300 <= datetime_now env (dt_reads s) - stored ->
  (get_cached_response env request_id s).2 = Ok None
  /\ handler_cache (get_cached_response env request_id s).1
     = delete (response_key request_id) (handler_cache s)
  /\ (get_cached_response env request_id (get_cached_response env request_id s).1)
     = ((get_cached_response env request_id s).1, Ok None).
Proof.
  intros Hentry Hold.
  unfold get_cached_response, bind, now, get, set_handler_cache, modify, ret. cbn.
  rewrite Hentry. cbn. apply Qltb_ge in Hold. unfold _cache_ttl. rewrite Hold. cbn.
  rewrite lookup_delete_eq. done.
Qed.

Lemma process_message_total (env : Env) (user_mssg session_id user_id agent_name : string)
    (s : St) :
  exists r reads,
    process_message env user_mssg session_id user_id agent_name s
    = ({| request_cache := request_cache s; handler_cache := handler_cache s;
          events := events s ++ [PostN8n user_id user_mssg session_id agent_name];
          dt_reads := reads |}, Ok r)
    /\ (post_n8n env user_id user_mssg session_id agent_name = None ->
        r = HandlerError "error" "n8n").
Proof.
  unfold process_message, try_except, bind, emit, modify, now, raise, ret. cbn.
  destruct (post_n8n env user_id user_mssg session_id agent_name) as [reply|]; cbn;
    eexists _, _; (split; [reflexivity|]); done.
Qed.

Lemma handle_message_miss (env : Env)
    (user_mssg session_id user_id agent_name request_id : string) (s : St) :
  is_blank user_mssg = false ->
  handler_cache s !! response_key request_id = None ->
  exists h reads,
    handle_message env user_mssg session_id user_id agent_name request_id s
    = ({| request_cache := request_cache s;
          handler_cache := <[response_key request_id :=
                              (CachedHandler h, datetime_now env reads)]> (handler_cache s);
          events := events s ++ [PostN8n user_id user_mssg session_id agent_name];
          dt_reads := S reads |}, Ok (CachedHandler h))
    /\ (post_n8n env user_id user_mssg session_id agent_name = None ->
        h = HandlerError "error" "n8n").
Proof.
  intros Htext Hnone.
  destruct (process_message_total env user_mssg session_id user_id agent_name s)
    as (r & reads & Hpm & Herr).
  exists r, reads. split; [|done]. unfold handle_message. rewrite Htext.
  erewrite bind_ok.
  2:{ unfold get_cached_response, bind, get. cbn. rewrite Hnone. reflexivity. }
  cbv beta iota. erewrite bind_ok by exact Hpm. reflexivity.
Qed.


Lemma process_request_hit (env : Env) (request : N8nMainRequest)
    (agent_name session_id request_id : string) (s : St)
    (cached : CachedResponse) (stored : Q) :
  handler_cache s !! response_key request_id = Some (cached, stored) ->
  datetime_now env (S (dt_reads s)) - stored < 300 ->
  process_request env request agent_name session_id request_id s
  = ({| request_cache := request_cache s; handler_cache := handler_cache s;
        events := events s; dt_reads := S (S (dt_reads s)) |}, Ok (FromCache cached)).
Proof.
  intros Hentry Hfresh. unfold process_request, get_cached_response, bind, now, get, ret.
  cbn. rewrite Hentry. cbn. apply Qltb_lt in Hfresh. unfold _cache_ttl. by rewrite Hfresh.
Qed.

(** A request whose id has no cached response posts to the engine once,
    caches the handler's reply, and stops at the unbound name. *)
Lemma process_request_miss (env : Env) (request : N8nMainRequest)
    (agent_name session_id request_id : string) (s : St) :
  is_blank (user_mssg request) = false ->
  handler_cache s !! response_key request_id = None ->
  exists h reads,
    process_request env request agent_name session_id request_id s
    = ({| request_cache := request_cache s;
          handler_cache := <[response_key request_id :=
                              (CachedHandler h, datetime_now env reads)]> (handler_cache s);
          events := events s ++ [PostN8n (user_id request) (user_mssg request)
                                         session_id agent_name];
          dt_reads := S reads |},
       Raise (Exception "name 'call_n8n_webhook' is not defined"))
    /\ (post_n8n env (user_id request) (user_mssg request) session_id agent_name = None ->
        h = HandlerError "error" "n8n").
Proof.
  intros Htext Hnone.
  unfold process_request.
  erewrite bind_ok by reflexivity.
  erewrite bind_ok.
  2:{ unfold get_cached_response, bind, get, now. cbn. rewrite Hnone. reflexivity. }
  cbv beta iota.
  edestruct (handle_message_miss env (user_mssg request) session_id (user_id request)
               agent_name request_id) as (h & reads & Hhm & Herr); [exact Htext| |].
  2:{ erewrite bind_ok by exact Hhm. exists h, reads. split; [reflexivity | done]. }
  exact Hnone.
Qed.

Lemma request_id_given (env : Env) (request : N8nMainRequest) (rid : string) :
  request_id request = Some rid -> rid <> ""%string -> request_id_of env request = rid.
Proof.
  intros Hid Hne. unfold request_id_of, py_or. rewrite Hid.
  apply String.eqb_neq in Hne. by rewrite Hne.
Qed.

Lemma has_text_not_blank (request : N8nMainRequest) :
  Spec.has_text request -> is_blank (user_mssg request) = false.
Proof. unfold Spec.has_text. by intros [_ ?]%orb_false_iff. Qed.

(** What a later request with the same request id gets, once a response is
    cached under that id. *)
Lemma n8n_main_request_replay (env : Env) (request : N8nMainRequest)
    (agent_name session_id : string) (s : St) (cached : CachedResponse) (stored : Q) :
  Spec.has_text request ->
  is_duplicate (request_cache s) (Spec.key_of request agent_name session_id) (time_time env)
    = false ->
  handler_cache s !! response_key (request_id_of env request) = Some (cached, stored) ->
  datetime_now env (S (dt_reads s)) - stored < 300 ->
  let out := n8n_main_request env request agent_name session_id s in
  out.2 = Ok (FromCache cached) /\ events out.1 = events s
  /\ handler_cache out.1 = handler_cache s.
Proof.
  intros Htext Hdup Hentry Hfresh out. subst out.
  destruct (n8n_main_request_processed env request agent_name session_id s)
    as (s0 & -> & Hcache & Hevents & Hreads); [done..|].
  unfold try_except.
  rewrite (process_request_hit _ _ _ _ _ _ cached stored);
    rewrite ?Hcache, ?Hreads; [|done..].
  cbn. done.
Qed.

(** X9. A request with text that is not a duplicate and whose request id
    has no cached response always ends in HTTP 500: the handler posts to the
    engine once and caches its reply, then the name [call_n8n_webhook] is
    evaluated, which the module binds nowhere.  A later request with the
    same request id (not a duplicate, less than 300 seconds after the
    store) is answered with that cached handler reply, the engine not being
    called again. *)
Theorem n8n_main_request_unbound_webhook (env1 : Env) (request1 : N8nMainRequest)
    (agent_name session_id : string) (s : St) :
  Spec.has_text request1 ->
  is_duplicate (request_cache s) (Spec.key_of request1 agent_name session_id)
               (time_time env1) = false ->
  handler_cache s !! response_key (request_id_of env1 request1) = None ->
  let first := n8n_main_request env1 request1 agent_name session_id s in
  exists h stored,
    first.2 = Raise (HTTPException 500 "name 'call_n8n_webhook' is not defined")
    /\ events first.1
       = events s ++ [PostN8n (user_id request1) (user_mssg request1) session_id agent_name]
    /\ handler_cache first.1 !! response_key (request_id_of env1 request1)
       = Some (CachedHandler h, stored)
    /\ forall (env2 : Env) (request2 : N8nMainRequest) (agent_name2 session_id2 : string),
         request_id_of env2 request2 = request_id_of env1 request1 ->
         Spec.has_text request2 ->
         is_duplicate (request_cache first.1)
                      (Spec.key_of request2 agent_name2 session_id2) (time_time env2) = false ->
         datetime_now env2 (S (dt_reads first.1)) - stored < 300 ->
         let second := n8n_main_request env2 request2 agent_name2 session_id2 first.1 in
         second.2 = Ok (FromCache (CachedHandler h))
         /\ events second.1 = events first.1.
Proof.
  intros Htext Hdup Hnone first.
  destruct (n8n_main_request_processed env1 request1 agent_name session_id s)
    as (s0 & Hstep & Hcache & Hevents & _); [done..|].
  destruct (process_request_miss env1 request1 agent_name session_id
              (request_id_of env1 request1) s0)
    as (h & reads & Hrun & _); [by apply has_text_not_blank | by rewrite Hcache |].
  assert (first.2 = Raise (HTTPException 500 "name 'call_n8n_webhook' is not defined")
          /\ first.1 = (process_request env1 request1 agent_name session_id
                          (request_id_of env1 request1) s0).1) as [Hres Hstate].
  { subst first. rewrite Hstep. unfold try_except. by rewrite Hrun. }
  rewrite Hres, Hstate, Hrun. cbn [fst snd handler_cache events dt_reads].
  exists h, (datetime_now env1 reads).
  split; [done|]. split; [by rewrite Hevents|]. split; [apply lookup_insert_eq|].
  intros env2 request2 a2 sid2 Hid2 Htext2 Hdup2 Hfresh.
  match goal with |- context [n8n_main_request env2 request2 a2 sid2 ?s1] =>
    destruct (n8n_main_request_replay env2 request2 a2 sid2 s1 (CachedHandler h)
                (datetime_now env1 reads)) as (H1 & H2 & _) end; try done.
  rewrite Hid2. cbn. apply lookup_insert_eq.
Qed.

Lemma get_cached_response_returns (env : Env) (request_id : string) (s : St) :
  exists cached, (get_cached_response env request_id s).2 = Ok cached.
Proof.
  unfold get_cached_response, bind, get, now, ret. cbn.
  destruct (handler_cache s !! _) as [[response stored]|]; cbn; [|by eexists].
  destruct (Qltb _ _); cbn; by eexists.
Qed.

Lemma handle_message_returns (env : Env)
    (user_mssg session_id user_id agent_name request_id : string) (s : St) :
  exists r, (handle_message env user_mssg session_id user_id agent_name request_id s).2 = Ok r.
Proof.
  unfold handle_message. destruct (is_blank user_mssg); [by eexists|].
  unfold bind at 1.
  destruct (get_cached_response_returns env request_id s) as (cached & Hc).
  destruct (get_cached_response env request_id s) as [s1 r1]. cbn in Hc. subst r1.
  destruct cached as [r|]; [by eexists|].
  unfold bind at 1.
  destruct (process_message_total env user_mssg session_id user_id agent_name s1)
    as (r & reads & -> & _). by eexists.
Qed.

(** [process_request] never gets past the unbound name: it answers from the
    cache or raises. *)
Lemma process_request_outcome (env : Env) (request : N8nMainRequest)
    (agent_name session_id request_id : string) (s : St) :
  (exists cached stored,
      handler_cache s !! response_key request_id = Some (cached, stored)
      /\ (process_request env request agent_name session_id request_id s).2
         = Ok (FromCache cached))
  \/ (process_request env request agent_name session_id request_id s).2
     = Raise (Exception "name 'call_n8n_webhook' is not defined").
Proof.
  unfold process_request, handle_message, process_message, get_cached_response,
    cache_response, call_n8n_webhook, try_except, bind, now, get, emit,
    set_handler_cache, modify, ret, raise.
  cbn. destruct (handler_cache s !! response_key request_id) as [[cached stored]|]; cbn.
  - destruct (Qltb _ _); cbn.
    + left. by exists cached, stored.
    + right. repeat case_match; simplify_eq/=; done.
  - right. repeat case_match; simplify_eq/=; done.
Qed.

(** X10. The outcomes of [/n8n_main_req]: the "empty message"
    acknowledgment for a blank message, the duplicate acknowledgment, a
    response cached under the request id, or HTTP 500 for the unbound
    [call_n8n_webhook].  It returns no freshly formatted response, and its
    "Initial message received" branch is not reachable. *)
Theorem n8n_main_request_outcomes (env : Env) (request : N8nMainRequest)
    (agent_name session_id : string) (s : St) :
  let out := n8n_main_request env request agent_name session_id s in
  let request_id := request_id_of env request in
  (~ Spec.has_text request
   /\ out = (s, Ok (StatusMessage "success" "Empty message ignored" request_id)))
  \/ (Spec.has_text request
      /\ is_duplicate (request_cache s) (Spec.key_of request agent_name session_id)
                      (time_time env) = true
      /\ out = (s, Ok (duplicate_ack request_id)))
  \/ (Spec.has_text request
      /\ is_duplicate (request_cache s) (Spec.key_of request agent_name session_id)
                      (time_time env) = false
      /\ ((exists cached stored,
              handler_cache s !! response_key request_id = Some (cached, stored)
              /\ out.2 = Ok (FromCache cached))
          \/ out.2 = Raise (HTTPException 500 "name 'call_n8n_webhook' is not defined"))).
Proof.
  intros out request_id.
  destruct (decide (Spec.has_text request)) as [Htext|Hblank].
  2:{ left. split; [done|]. by apply n8n_main_request_empty. }
  right.
  destruct (is_duplicate (request_cache s) (Spec.key_of request agent_name session_id)
                         (time_time env)) eqn:Hdup.
  { left. split; [done|]. split; [done|]. by apply n8n_main_request_duplicate. }
  right. split; [done|]. split; [done|].
  destruct (n8n_main_request_processed env request agent_name session_id s Htext Hdup)
    as (s0 & Hstep & Hcache & _).
  subst out. rewrite Hstep. unfold try_except.
  destruct (process_request_outcome env request agent_name session_id request_id s0)
    as [(cached & stored & Hentry & Hres)|Hres]; fold request_id.
  - left. exists cached, stored. rewrite <- Hcache. split; [done|].
    destruct (process_request _ _ _ _ _ s0) as [s1 r1]. cbn in Hres. by subst r1.
  - right. destruct (process_request _ _ _ _ _ s0) as [s1 r1]. cbn in Hres. by subst r1.
Qed.

Lemma response_cache_round_trip_witness :
  (get_cached_response (Fixtures.router_env 150 "u") "r1"
     (cache_response (Fixtures.router_env 100 "u") "r1"
        (CachedHandler (HandlerError "error" "n8n")) Fixtures.router_start).1).2
  = Ok (Some (CachedHandler (HandlerError "error" "n8n"))).
Proof.
  refine (proj1 (response_cache_round_trip (Fixtures.router_env 100 "u")
                   (Fixtures.router_env 150 "u") "r1"
                   (CachedHandler (HandlerError "error" "n8n")) Fixtures.router_start _)).
  vm_compute. reflexivity.
Defined.

Lemma response_cache_expiry_witness :
  (get_cached_response (Fixtures.router_env 500 "u") "r1" Fixtures.router_cached).2 = Ok None.
Proof.
  refine (proj1 (response_cache_expiry (Fixtures.router_env 500 "u") "r1"
                   (CachedHandler (HandlerError "error" "n8n")) 98
                   Fixtures.router_cached _ _)).
  - vm_compute. reflexivity.
  - vm_compute. discriminate.
Defined.


Lemma n8n_main_request_unbound_webhook_witness :
  let first := n8n_main_request (Fixtures.router_env 100 "u")
                 (Samples.request_with_id "r7" "hello there") "presaleskb" "s1"
                 Fixtures.router_start in
  let second := n8n_main_request (Fixtures.router_env 150 "u")
                  (Samples.request_with_id "r7" "hello again") "presaleskb" "s1" first.1 in
  first.2 = Raise (HTTPException 500 "name 'call_n8n_webhook' is not defined")
  /\ (exists h, second.2 = Ok (FromCache (CachedHandler h)))
  /\ events second.1 = events first.1.
Proof.
  intros first second.
  destruct (n8n_main_request_unbound_webhook (Fixtures.router_env 100 "u")
              (Samples.request_with_id "r7" "hello there") "presaleskb" "s1"
              Fixtures.router_start)
    as (h & stored & Hfirst & _ & Hstored & Hreplay);
    [reflexivity | reflexivity | reflexivity |].
  vm_compute in Hstored. injection Hstored as _ <-.
  destruct (Hreplay (Fixtures.router_env 150 "u") (Samples.request_with_id "r7" "hello again")
              "presaleskb"%string "s1"%string) as (H2 & He);
    [reflexivity | reflexivity | (vm_compute; reflexivity)
    | (vm_compute; reflexivity) |].
  split; [done|]. split; [by exists h | done].
Defined.

End ResponseCache.

(** ** What the receive loop does with each kind of frame *)

Section SocketInvariants.

Import Socket.

Lemma in_flight_restored (request_id : string) (a : gset string) :
  request_id ∉ a -> ({[request_id]} ∪ a) ∖ {[request_id]} = a.
Proof.
  intros Hfresh. apply set_eq. intros x.
  rewrite elem_of_difference, elem_of_union, elem_of_singleton.
  split; [intros [[->|?] ?]; done|]. intros Hx. split; [by right|]. congruence.
Qed.

Lemma loop_body_inert (env : Env) (user_id session_id : string) (r : Received) (s : St) :
  let out := loop_body env user_id session_id r s in
  active_requests out.1 = active_requests s
  /\ tasks out.1 = tasks s
  /\ exists new, sent (websocket out.1) = sent (websocket s) ++ new.
Proof.
  destruct r as [m| | |]; cbn [loop_body].
  - unfold bind, uuid, time, get, ret, try_finally, set_active_requests, modify,
      send_json, process_n8n_request_async, create_task, raise.
    cbn.
    repeat (case_match; simplify_eq/=);
      (split; [by (done || apply in_flight_restored)|]);
      (split; [done|]);
      first [ by (exists []; rewrite app_nil_r) | by eexists ].
  - by (cbn; split; [|split; [|exists []; rewrite app_nil_r]]).
  - unfold try_except, bind, time, send_json, ret. cbn.
    destruct (peer_open (websocket s)); cbn;
      (split; [done|]); (split; [done|]);
      first [ by (exists []; rewrite app_nil_r) | by eexists ].
  - by (cbn; split; [|split; [|exists []; rewrite app_nil_r]]).
Qed.

(** X11. Whatever the receive loop reads, it leaves the in-flight set as it
    found it and creates no processing task; what it has written to the
    socket is only extended.  An id is put into [active_requests] and taken
    out again within one turn, so the test [request_id in active_requests]
    never sees an id that an earlier frame of the connection put there. *)
Theorem receive_loop_inert (env : Env) (user_id session_id : string)
    (inbox : list Received) (s : St) :
  let out := receive_loop env user_id session_id inbox s in
  active_requests out.1 = active_requests s
  /\ tasks out.1 = tasks s
  /\ exists new, sent (websocket out.1) = sent (websocket s) ++ new.
Proof.
  revert s. induction inbox as [|r inbox IH]; intros s; cbn [receive_loop].
  - cbn. split; [done|]. split; [done|]. exists []. by rewrite app_nil_r.
  - unfold bind.
    pose proof (loop_body_inert env user_id session_id r s) as (Hset & Htasks & new & Hsent).
    destruct (loop_body env user_id session_id r s) as [s1 [[|]|e]]; cbn [fst snd] in *.
    + destruct (IH s1) as (Hset' & Htasks' & new' & Hsent').
      split; [congruence|]. split; [congruence|].
      exists (new ++ new'). by rewrite Hsent', Hsent, app_assoc.
    + cbn. split; [done|]. split; [done|]. by exists new.
    + split; [done|]. split; [done|]. by exists new.
Qed.


(** X13. After 60 idle seconds the loop probes the peer with a ping.  When
    the peer is there the ping is written and the loop waits for the next
    frame; when the send fails the loop is left quietly: nothing is
    written, no exception escapes, and what would have come next is never
    read. *)
Theorem idle_timeout_probe (env : Env) (user_id session_id : string)
    (later : list Received) (s : St) :
  (peer_open (websocket s) = true ->
   exists s' timestamp,
     loop_body env user_id session_id IdleTimeout s = (s', Ok Continue)
     /\ sent (websocket s') = sent (websocket s) ++ [Ping timestamp]
     /\ receive_loop env user_id session_id (IdleTimeout :: later) s
        = receive_loop env user_id session_id later s')
  /\ (peer_open (websocket s) = false ->
      let out := receive_loop env user_id session_id (IdleTimeout :: later) s in
      out.2 = Ok tt /\ websocket out.1 = websocket s /\ uuids out.1 = uuids s).
Proof.
  cbn [receive_loop loop_body].
  unfold try_except, bind, time, send_json, ret. cbn.
  split; intros ->; [|done]. eexists _, _. split; [reflexivity|]. done.
Qed.


Lemma idle_timeout_probe_witness :
  let gone := {| active_requests := ∅;
                 websocket := {| sent := []; peer_open := false |};
                 tasks := []; clock_reads := 0; uuids := 0 |} in
  let out := receive_loop Fixtures.socket_env "u1" "s1" [IdleTimeout; Fixtures.hello_frame]
                          gone in
  out.2 = Ok tt /\ websocket out.1 = websocket gone /\ uuids out.1 = uuids gone.
Proof.
  apply (proj2 (idle_timeout_probe Fixtures.socket_env "u1" "s1" [Fixtures.hello_frame]
                  {| active_requests := ∅;
                     websocket := {| sent := []; peer_open := false |};
                     tasks := []; clock_reads := 0; uuids := 0 |})).
  reflexivity.
Defined.

End SocketInvariants.

(** ** Progress events without a listener *)

Section StreamDelivery.

Import Stream.

(** X14. A progress event for which no connection is registered is logged
    and acknowledged as received; nothing is written to any socket and the
    clock is not read. *)
Theorem stream_update_without_listener (time_time : nat -> Q) (update : StreamUpdate)
    (s : St) :
  active_connections s !! connection_id_of update = None ->
  receive_stream_update time_time update s
  = ({| streaming_sessions := Spec.logged update (streaming_sessions s);
        active_connections := active_connections s;
        clock_reads := clock_reads s |},
     Ok (Received (connection_id_of update))).
Proof.
  intros Hnone. unfold receive_stream_update, try_except.
  erewrite bind_ok by apply log_update_sessions.
  unfold forward_update, bind, get, ret. cbn. by rewrite Hnone.
Qed.

(** X15. When the registered peer has gone away the push fails, and the
    endpoint answers with the error shape instead of raising; the event
    has been logged all the same, and the registry is left as it was (the
    dead connection stays registered). *)
Theorem stream_update_dead_peer (time_time : nat -> Q) (update : StreamUpdate)
    (s : St) (ws : WebSocket) :
  active_connections s !! connection_id_of update = Some ws ->
  peer_open ws = false ->
  let out := receive_stream_update time_time update s in
  (exists error, out.2 = Ok (Error error))
  /\ streaming_sessions out.1 = Spec.logged update (streaming_sessions s)
  /\ active_connections out.1 = active_connections s.
Proof.
  intros Hws Hclosed out. subst out. unfold receive_stream_update, try_except.
  erewrite bind_ok by apply log_update_sessions.
  unfold forward_update, bind, get, time, send_json, ret. cbn.
  rewrite Hws. cbn. rewrite Hws, Hclosed. cbn. split; [by eexists | done].
Qed.

(** X16. An event that is not of type "complete", or that carries no
    answer, puts exactly one frame on the registered connection: the status
    frame with the event's type. *)
Theorem stream_update_single_frame (time_time : nat -> Q) (update : StreamUpdate)
    (s : St) (ws : WebSocket) :
  active_connections s !! connection_id_of update = Some ws ->
  peer_open ws = true ->
  type update <> "complete"%string \/ truthy (agent_response update) = false ->
  let out := receive_stream_update time_time update s in
  out.2 = Ok (Received (connection_id_of update))
  /\ exists timestamp,
       frames (connection_id_of update) out.1
       = frames (connection_id_of update) s
         ++ [Update (type update) (py_or (agent_name update) (agent_names update))
                    (message update) (progress update)
                    (metadata update !! "request_id"%string) (metadata update) timestamp].
Proof.
  intros Hws Hopen Hsingle out. subst out. unfold receive_stream_update, try_except.
  erewrite bind_ok by apply log_update_sessions.
  assert (String.eqb (type update) "complete" && truthy (agent_response update) = false)
    as Hguard.
  { destruct Hsingle as [Hne| ->]; [|apply andb_false_r].
    apply String.eqb_neq in Hne. by rewrite Hne. }
  unfold forward_update, bind, get, time, send_json, ret, frames. cbn.
  rewrite Hws. cbn. rewrite Hws, Hopen. cbn. rewrite Hguard. cbn.
  rewrite lookup_insert_eq. cbn. split; [done|]. by eexists.
Qed.

Lemma stream_update_without_listener_witness :
  let update := Fixtures.progress_event "progress" None in
  let nobody := {| streaming_sessions := ∅; active_connections := ∅; clock_reads := 0 |} in
  (receive_stream_update Fixtures.clock update nobody).2
  = Ok (Received (connection_id_of update)).
Proof.
  cbv zeta.
  rewrite (stream_update_without_listener Fixtures.clock
             (Fixtures.progress_event "progress" None)
             {| streaming_sessions := ∅; active_connections := ∅; clock_reads := 0 |});
    reflexivity.
Defined.

Lemma stream_update_dead_peer_witness :
  let update := Fixtures.progress_event "progress" None in
  let gone := {| streaming_sessions := ∅;
                 active_connections :=
                   {[ "u1_s1"%string := {| sent := []; peer_open := false |} ]};
                 clock_reads := 0 |} in
  let out := receive_stream_update Fixtures.clock update gone in
  (exists error, out.2 = Ok (Error error))
  /\ streaming_sessions out.1 = Spec.logged update (streaming_sessions gone)
  /\ active_connections out.1 = active_connections gone.
Proof.
  apply (stream_update_dead_peer Fixtures.clock (Fixtures.progress_event "progress" None)
           {| streaming_sessions := ∅;
              active_connections :=
                {[ "u1_s1"%string := {| sent := []; peer_open := false |} ]};
              clock_reads := 0 |}
           {| sent := []; peer_open := false |}); reflexivity.
Defined.

Lemma stream_update_single_frame_witness :
  let update := Fixtures.progress_event "final" (Some "All done."%string) in
  let out := receive_stream_update Fixtures.clock update Fixtures.stream_start in
  out.2 = Ok (Received (connection_id_of update))
  /\ exists timestamp,
       frames (connection_id_of update) out.1
       = frames (connection_id_of update) Fixtures.stream_start
         ++ [Update (type update) (py_or (agent_name update) (agent_names update))
                    (message update) (progress update)
                    (metadata update !! "request_id"%string) (metadata update) timestamp].
Proof.
  apply (stream_update_single_frame Fixtures.clock
           (Fixtures.progress_event "final" (Some "All done."%string))
           Fixtures.stream_start {| sent := []; peer_open := true |});
    [reflexivity | reflexivity | left; discriminate].
Defined.

End StreamDelivery.

(** ** Every outcome of the bounded analysis *)

Section BoundedOutcomes.

Import Orchestrator.


End BoundedOutcomes.

(** ** The in-memory log *)

Section LogBuffer.

Import Logs.

Lemma append_last {A} (app_logs : list A) (x : A) :
  (length app_logs <= maxlen)%nat ->
  append app_logs x = drop (length (app_logs ++ [x]) - maxlen) (app_logs ++ [x]).
Proof.
  intros Hlen. unfold append. rewrite length_app. cbn [length].
  destruct (Nat.leb_spec maxlen (length app_logs)) as [Hfull|Hroom].
  - replace (length app_logs + 1 - maxlen)%nat with 1%nat by lia.
    rewrite drop_app_le; [done|]. unfold maxlen in *. lia.
  - replace (length app_logs + 1 - maxlen)%nat with 0%nat by lia. done.
Qed.

Lemma drop_last_app {A} (l : list A) (x : A) (n : nat) :
  (n <= length l)%nat -> drop n l ++ [x] = drop n (l ++ [x]).
Proof. intros Hn. by rewrite drop_app_le. Qed.

Lemma emit_all_last (records : list LogRecord) (app_logs seen : list (LogEntry Q)) :
  app_logs = drop (length seen - maxlen) seen ->
  let entry_of record :=
    {| timestamp := created record; level := levelname record;
       message := getMessage record; module_name := module record;
       function := funcName record |} in
  fold_left (fun l record => emit record l) records app_logs
  = drop (length (seen ++ map entry_of records) - maxlen) (seen ++ map entry_of records).
Proof.
  intros Hlogs entry_of. revert app_logs seen Hlogs.
  induction records as [|record records IH]; intros app_logs seen Hlogs.
  - cbn. by rewrite app_nil_r.
  - cbn [fold_left map].
    replace (seen ++ entry_of record :: map entry_of records)
      with ((seen ++ [entry_of record]) ++ map entry_of records)
      by (by rewrite <- app_assoc).
    apply IH. unfold emit. fold (entry_of record).
    rewrite append_last.
    2:{ rewrite Hlogs, length_drop. unfold maxlen. lia. }
    rewrite Hlogs.
    rewrite (drop_last_app seen _ (length seen - maxlen)) by (unfold maxlen; lia).
    rewrite drop_drop.
    f_equal. repeat (rewrite length_drop || rewrite length_app).
    cbn [length]. unfold maxlen. lia.
Qed.

(** X17. The buffer holds the last 100 entries logged, oldest first: after
    any run of [emit] on a buffer of at most 100 entries it is the
    100-entry tail of everything logged so far, and never longer than
    100. *)
Theorem app_logs_keeps_last_hundred (records : list LogRecord)
    (app_logs : list (LogEntry Q)) :
  (length app_logs <= 100)%nat ->
  let entry_of record :=
    {| timestamp := created record; level := levelname record;
       message := getMessage record; module_name := module record;
       function := funcName record |} in
  let logged := app_logs ++ map entry_of records in
  let out := fold_left (fun l record => emit record l) records app_logs in
  out = drop (length logged - 100) logged /\ (length out <= 100)%nat.
Proof.
  intros Hlen entry_of logged out.
  assert (out = drop (length logged - 100) logged) as Hout.
  { apply (emit_all_last records app_logs app_logs).
    replace (length app_logs - maxlen)%nat with 0%nat by (unfold maxlen; lia). done. }
  split; [done|]. rewrite Hout, length_drop. lia.
Qed.

Lemma format_logs_all (fromtimestamp : Q -> option string) (iso : Q -> string)
    (recent_logs : list (LogEntry Q)) :
  (forall log, log ∈ recent_logs -> fromtimestamp (timestamp log) = Some (iso (timestamp log))) ->
  format_logs fromtimestamp recent_logs
  = Ok (map (fun log => {| timestamp := iso (timestamp log); level := level log;
                           message := message log; module_name := module_name log;
                           function := function log |}) recent_logs).
Proof.
  induction recent_logs as [|log rest IH]; intros Hall; [done|].
  cbn [format_logs map]. rewrite (Hall log) by (by left).
  rewrite IH; [done|]. intros l Hl. apply Hall. by right.
Qed.

(** X18. What [limit] selects.  With every timestamp printable, [/logs]
    answers with the last [limit] entries when [limit] is positive (all of
    them when there are fewer); with all entries when [limit] is 0, since
    [l[-0:]] is the whole list; and, when [limit] is negative, with
    all but the first [-limit] entries.  [total_available] is the size of
    the buffer in each case. *)
Theorem get_application_logs_limit (fromtimestamp : Q -> option string) (iso : Q -> string)
    (app_logs : list (LogEntry Q)) (limit : Z) :
  (forall log, log ∈ app_logs -> fromtimestamp (timestamp log) = Some (iso (timestamp log))) ->
  let formatted log :=
    {| timestamp := iso (timestamp log); level := level log; message := message log;
       module_name := module_name log; function := function log |} in
  let selected :=
    if (0 <? limit)%Z then drop (length app_logs - Z.to_nat limit) app_logs
    else drop (Z.to_nat (- limit)) app_logs in
  get_application_logs fromtimestamp app_logs limit
  = LogsSuccess (map formatted selected) (length selected) (length app_logs)
  /\ (limit = 0%Z -> selected = app_logs)
  /\ ((0 < limit)%Z -> length selected = Nat.min (Z.to_nat limit) (length app_logs)).
Proof.
  intros Hall formatted selected.
  assert (slice_from app_logs (- limit) = selected) as Hslice.
  { unfold slice_from, selected.
    destruct (Z.ltb_spec 0 limit) as [Hpos|Hneg].
    - rewrite (proj2 (Z.leb_gt 0 (- limit))) by lia. by rewrite Z.opp_involutive.
    - by rewrite (proj2 (Z.leb_le 0 (- limit))) by lia. }
  split; [|split].
  - unfold get_application_logs. cbv zeta. rewrite Hslice.
    rewrite (format_logs_all fromtimestamp iso).
    + by rewrite length_map.
    + intros log Hlog. apply Hall. subst selected.
      destruct (0 <? limit)%Z; by eapply subseteq_drop.
  - intros ->. done.
  - intros Hpos. subst selected. rewrite (proj2 (Z.ltb_lt 0 limit)) by done.
    rewrite length_drop. lia.
Qed.

Lemma get_application_logs_limit_witness :
  exists logs,
    get_application_logs (fun _ => Some "2025-01-01T00:00:00"%string)
                         [Samples.log_entry 1; Samples.log_entry 2; Samples.log_entry 3] 0
    = LogsSuccess logs 3 3.
Proof.
  eexists.
  refine (proj1 (get_application_logs_limit
                   (fun _ => Some "2025-01-01T00:00:00"%string)
                   (fun _ => "2025-01-01T00:00:00"%string)
                   [Samples.log_entry 1; Samples.log_entry 2; Samples.log_entry 3] 0 _)).
  intros log Hlog. reflexivity.
Defined.

Lemma app_logs_keeps_last_hundred_witness :
  length (fold_left (fun l r => emit r l) [Samples.log_record; Samples.log_record] []) = 2%nat.
Proof.
  rewrite (proj1 (app_logs_keeps_last_hundred [Samples.log_record; Samples.log_record] []
                    ltac:(cbn; lia))).
  reflexivity.
Defined.

End LogBuffer.

(** ** Polling a background analysis *)

Section BackgroundPolling.

Import Orchestrator Background.

(** X20. A task id that was never handed out is answered with HTTP 404;
    the id returned by [/api/website/full-analysis-async] is answered, right
    after the endpoint has returned, with status "started" and three
    pending entries. *)
Theorem poll_before_start (task_id session_id started_at returned_at url other : string)
    (s : gmap string Entry) :
  s !! other = None -> other <> task_id ->
  let accepted := full_website_analysis_async task_id session_id started_at returned_at url s in
  (get_background_task_result other accepted.1).2
  = Raise (HTTPException 404 "Task not found")
  /\ exists e, (get_background_task_result task_id accepted.1).2 = Ok e
               /\ e_status e = "started"%string
               /\ e_analysis e = pending /\ e_screenshot e = pending
               /\ e_favicon e = pending /\ e_overall_status e = None.
Proof.
  intros Hnone Hne accepted. subst accepted.
  unfold full_website_analysis_async, get_background_task_result, bind, modify, ret.
  cbn [fst snd].
  rewrite lookup_insert_ne by done. rewrite Hnone, lookup_insert_eq.
  split; [done|]. eexists. split; [reflexivity|]. done.
Qed.



Lemma poll_before_start_witness :
  (get_background_task_result "t-2"
     (full_website_analysis_async "t-1" "s1" "2025-01-01T00:00:00" "2025-01-01T00:00:00"
                                  "https://example.com" ∅).1).2
  = Raise (HTTPException 404 "Task not found").
Proof.
  apply (proj1 (poll_before_start "t-1" "s1" "2025-01-01T00:00:00" "2025-01-01T00:00:00"
                  "https://example.com" "t-2" ∅ (lookup_empty _) ltac:(discriminate))).
Defined.

End BackgroundPolling.
